(** * Intel microcode staging mailbox: a shallow embedding

    The development embeds the staging mailbox driver
    (arch/x86/kernel/cpu/microcode/intel_staging.c) as state-passing
    functions over an explicit record of the machine's observable
    behaviour, and proves properties of the transfer protocol.

    Two revisions of the driver are covered:
    - the complete one (request framing and response decoding present),
      in [Module Mailbox];
    - the earlier skeleton, whose framer and decoder are placeholders,
      in [Module Skeleton].
    Both share the register layer, the completion waiter, the chunk sizing
    and the transfer loop, which are embedded once. *)

From Stdlib Require Import ZArith List Lia Bool String.
Import ListNotations.
Open Scope Z_scope.

(** ** Machine integers *)

(** [u32] and [unsigned int] values are integers reduced modulo 2^32. *)
Definition u32 (x : Z) : Z := x mod 2 ^ 32.

(** [BIT(n)] of linux/bits.h. *)
Definition BIT (n : Z) : Z := Z.shiftl 1 n.

(** [x & mask] used as a C truth value. *)
Definition is_set (x mask : Z) : bool := negb (Z.land x mask =? 0).

(** ** Constants of the driver *)

Definition MBOX_REG_NUM : Z := 4.
Definition MBOX_REG_SIZE : Z := 4.

Definition MBOX_CONTROL_OFFSET : Z := 0x0.
Definition MBOX_STATUS_OFFSET : Z := 0x4.
Definition MBOX_WRDATA_OFFSET : Z := 0x8.
Definition MBOX_RDDATA_OFFSET : Z := 0xc.

Definition MASK_MBOX_CTRL_ABORT : Z := BIT 0.
Definition MASK_MBOX_CTRL_GO : Z := BIT 31.

Definition MASK_MBOX_STATUS_ERROR : Z := BIT 2.
Definition MASK_MBOX_STATUS_READY : Z := BIT 31.

Definition MASK_MBOX_RESP_SUCCESS : Z := BIT 0.
Definition MASK_MBOX_RESP_PROGRESS : Z := BIT 1.
Definition MASK_MBOX_RESP_ERROR : Z := BIT 2.

(** Constants the driver takes from kernel headers that are not part of
    the two files: [PCI_VENDOR_ID_INTEL] (linux/pci_ids.h), [MSEC_PER_SEC]
    (linux/time64.h) and the x86 [PAGE_SIZE] (1 << 12). *)
Definition PCI_VENDOR_ID_INTEL : Z := 0x8086.
Definition MSEC_PER_SEC : Z := 1000.
Definition PAGE_SIZE : Z := 4096.

Definition MBOX_CMD_LOAD : Z := 0x3.
Definition MBOX_OBJ_STAGING : Z := 0xb.
Definition MBOX_HDR : Z := Z.lor PCI_VENDOR_ID_INTEL (Z.shiftl MBOX_OBJ_STAGING 16).
Definition MBOX_HDR_SIZE : Z := 16.

Definition MBOX_XACTION_LEN : Z := PAGE_SIZE.
Definition MBOX_XACTION_MAX (imgsz : Z) : Z := u32 (imgsz * 2).
Definition MBOX_XACTION_TIMEOUT : Z := 10 * MSEC_PER_SEC.

Definition STAGING_OFFSET_END : Z := 0xffffffff.
Definition DWORD_SIZE (s : Z) : Z := s / 4.

(** [enum ucode_state] (internal.h); only the three members the driver
    uses are needed. *)
Inductive ucode_state : Type :=
| UCODE_OK
| UCODE_ERROR
| UCODE_TIMEOUT.

Definition ucode_state_eqb (a b : ucode_state) : bool :=
  match a, b with
  | UCODE_OK, UCODE_OK => true
  | UCODE_ERROR, UCODE_ERROR => true
  | UCODE_TIMEOUT, UCODE_TIMEOUT => true
  | _, _ => false
  end.

(** ** Observable behaviour *)

(** The places of the code that report at most once per boot
    ([WARN_ON_ONCE], [pr_debug_once]). *)
Inductive once_site : Type :=
| SITE_ioremap        (* WARN_ON_ONCE(!mmio_base) *)
| SITE_resp_hdr       (* WARN_ON_ONCE(read_mbox_dword(base) != MBOX_HDR) *)
| SITE_resp_hdrsize   (* WARN_ON_ONCE(read_mbox_dword(base) != DWORD_SIZE(MBOX_HDR_SIZE)) *)
| SITE_chunksize      (* WARN_ON_ONCE(totalsize < offset) *)
| SITE_dbg_request    (* pr_debug_once in the skeleton's request_xaction *)
| SITE_dbg_response.  (* pr_debug_once in the skeleton's read_xaction_response *)

Definition once_site_eqb (a b : once_site) : bool :=
  match a, b with
  | SITE_ioremap, SITE_ioremap
  | SITE_resp_hdr, SITE_resp_hdr
  | SITE_resp_hdrsize, SITE_resp_hdrsize
  | SITE_chunksize, SITE_chunksize
  | SITE_dbg_request, SITE_dbg_request
  | SITE_dbg_response, SITE_dbg_response => true
  | _, _ => false
  end.

Inductive event : Type :=
| EvReadl (addr val : Z)         (* val = readl(addr) *)
| EvWritel (val addr : Z)        (* writel(val, addr) *)
| EvMsleep (ms : Z)              (* msleep(ms) *)
| EvIoremap (pa size : Z)        (* ioremap(pa, size) *)
| EvIounmap (base : Z)           (* iounmap(base) *)
| EvOnce (site : once_site)      (* a once-only warning or debug line fired *)
| EvPrErr (msg : string).        (* pr_err(msg) *)

(** What the surroundings of the driver answer: the value the device
    returns at the k-th [readl] of an address, the dword stored in memory
    at a byte address, and the address [ioremap] returns (0 is NULL). *)
Record world : Type := mkWorld {
  dev_read : Z -> nat -> Z;
  ram : Z -> Z;
  ioremap_ret : Z -> Z -> Z
}.

(** The state threaded through the code: the once-only sites that have
    fired, and the events so far in program order. *)
Record mstate : Type := mkState {
  fired : list once_site;
  trace : list event
}.

Definition init_state : mstate := {| fired := []; trace := [] |}.

(** How often [addr] has been read in a trace. *)
Fixpoint count_reads (addr : Z) (t : list event) : nat :=
  match t with
  | [] => O
  | EvReadl a _ :: t' =>
      if a =? addr then S (count_reads addr t') else count_reads addr t'
  | _ :: t' => count_reads addr t'
  end.

Definition rd_count (s : mstate) (addr : Z) : nat := count_reads addr (trace s).

Definition has_fired (s : mstate) (site : once_site) : bool :=
  existsb (once_site_eqb site) (fired s).

(** ** The state monad *)

Definition M (A : Type) : Type := mstate -> A * mstate.

Definition ret {A : Type} (a : A) : M A := fun s => (a, s).

Definition bind {A B : Type} (m : M A) (f : A -> M B) : M B :=
  fun s => let (a, s') := m s in f a s'.

Notation "x <- m ;; k" := (bind m (fun x => k))
  (at level 61, m at next level, right associativity).
Notation "m ;; k" := (bind m (fun _ => k))
  (at level 61, right associativity).

Definition emit (e : event) : M unit :=
  fun s => (tt, {| fired := fired s; trace := trace s ++ [e] |}).

(** ** Kernel primitives *)

Section Driver.

Variable w : world.

Definition readl (addr : Z) : M Z :=
  fun s =>
    let v := u32 (dev_read w addr (rd_count s addr)) in
    (v, {| fired := fired s; trace := trace s ++ [EvReadl addr v] |}).

Definition writel (val addr : Z) : M unit := emit (EvWritel val addr).

Definition msleep (ms : Z) : M unit := emit (EvMsleep ms).

Definition ioremap (pa size : Z) : M Z :=
  emit (EvIoremap pa size) ;; ret (ioremap_ret w pa size).

Definition iounmap (base : Z) : M unit := emit (EvIounmap base).

Definition pr_err (msg : string) : M unit := emit (EvPrErr msg).

(** Fires at [site] unless it has fired before. *)
Definition once (site : once_site) : M unit :=
  fun s =>
    if has_fired s site then (tt, s)
    else (tt, {| fired := site :: fired s; trace := trace s ++ [EvOnce site] |}).

(** [WARN_ON_ONCE(cond)]: warns (once) when [cond] holds; its value is
    [cond]. *)
Definition WARN_ON_ONCE (site : once_site) (cond : bool) : M bool :=
  if cond then once site ;; ret true else ret false.

Definition pr_debug_once (site : once_site) : M unit := once site.

(** The u32 the code loads from memory at a byte address. *)
Definition load32 (addr : Z) : Z := u32 (ram w addr).

(** ** Register access layer *)

Definition read_mbox_dword (base : Z) : M Z :=
  dword <- readl (base + MBOX_RDDATA_OFFSET) ;;
  (* Inform the read completion to the staging firmware *)
  writel 0 (base + MBOX_RDDATA_OFFSET) ;;
  ret dword.

Definition write_mbox_dword (base dword : Z) : M unit :=
  writel dword (base + MBOX_WRDATA_OFFSET).

Definition abort_xaction (base : Z) : M unit :=
  writel MASK_MBOX_CTRL_ABORT (base + MBOX_CONTROL_OFFSET).

(** ** Completion waiter *)

(** The [for] loop of [wait_for_xaction] with [budget] rounds left. *)
Fixpoint poll_status (budget : nat) (base : Z) : M unit :=
  match budget with
  | O => ret tt
  | S budget' =>
      msleep 1 ;;
      status <- readl (base + MBOX_STATUS_OFFSET) ;;
      if is_set status MASK_MBOX_STATUS_READY then ret tt
      else poll_status budget' base
  end.

Definition wait_for_xaction (base : Z) : M ucode_state :=
  poll_status (Z.to_nat MBOX_XACTION_TIMEOUT) base ;;
  status <- readl (base + MBOX_STATUS_OFFSET) ;;
  if is_set status MASK_MBOX_STATUS_ERROR then ret UCODE_ERROR
  else if negb (is_set status MASK_MBOX_STATUS_READY) then ret UCODE_TIMEOUT
  else ret UCODE_OK.

(** ** Chunk sizing *)

Definition get_chunksize (totalsize offset : Z) : M Z :=
  WARN_ON_ONCE SITE_chunksize (totalsize <? offset) ;;
  ret (Z.min MBOX_XACTION_LEN (u32 (totalsize - offset))).

(** ** Transfer loop *)

(** One transaction as the loop performed it.  This record is
    specification-only: the code never reads it. *)
Record xaction : Type := mkXaction {
  xa_offset : Z;                      (* payload offset the chunk starts at *)
  xa_chunksize : Z;                   (* bytes framed *)
  xa_wait : ucode_state;              (* what wait_for_xaction returned *)
  xa_resp : option ucode_state        (* what read_xaction_response returned, if reached *)
}.

(** The local variables of [staging_work] that live across iterations;
    [state] is uninitialised ([None]) until its first assignment.
    [xlog] is the specification-only list of transactions so far. *)
Record locals : Type := mkLocals {
  xaction_bytes : Z;
  offset : Z;
  state : option ucode_state;
  xlog : list xaction
}.

(** How control left the [while] loop. *)
Inductive loop_exit : Type :=
| ExitCondition   (* the condition offset != STAGING_OFFSET_END became false *)
| ExitBreak.      (* a break statement *)

Section Transfer.

(** The request framer and the response decoder differ between the two
    revisions.  The decoder takes the current value of the caller's offset
    cursor and returns its value afterwards. *)
Variable request_xaction : Z -> Z -> Z -> M unit.
Variable read_xaction_response : Z -> Z -> M (ucode_state * Z).

Section Loop.

Variables (mmio_base ucode_ptr totalsize : Z).

(** One pass through the body of the [while] loop: [None] when control
    reaches the end of the body, [Some ExitBreak] on a break. *)
Definition staging_body (l : locals) : M (option loop_exit * locals) :=
  chunksize <- get_chunksize totalsize (offset l) ;;
  if u32 (xaction_bytes l + chunksize) >? MBOX_XACTION_MAX totalsize then
    ret (Some ExitBreak,
         {| xaction_bytes := xaction_bytes l; offset := offset l;
            state := Some UCODE_TIMEOUT; xlog := xlog l |})
  else
    request_xaction mmio_base (ucode_ptr + offset l) chunksize ;;
    st <- wait_for_xaction mmio_base ;;
    if negb (ucode_state_eqb st UCODE_OK) then
      ret (Some ExitBreak,
           {| xaction_bytes := xaction_bytes l; offset := offset l;
              state := Some st;
              xlog := xlog l ++ [mkXaction (offset l) chunksize st None] |})
    else
      r <- read_xaction_response mmio_base (offset l) ;;
      let l' := {| xaction_bytes := u32 (xaction_bytes l + chunksize);
                   offset := snd r;
                   state := Some (fst r);
                   xlog := xlog l ++ [mkXaction (offset l) chunksize st (Some (fst r))] |} in
      if negb (ucode_state_eqb (fst r) UCODE_OK) then ret (Some ExitBreak, l')
      else ret (None, l').

(** The [while] loop, for at most [fuel] passes through its body; the
    first component is [None] when the loop is still running after them. *)
Fixpoint staging_loop (fuel : nat) (l : locals) : M (option loop_exit * locals) :=
  if offset l =? STAGING_OFFSET_END then ret (Some ExitCondition, l)
  else
    match fuel with
    | O => ret (None, l)
    | S fuel' =>
        r <- staging_body l ;;
        match fst r with
        | Some e => ret (Some e, snd r)
        | None => staging_loop fuel' (snd r)
        end
    end.

End Loop.

(** [state == UCODE_OK] at the end of [staging_work]. *)
Definition state_is_ok (l : locals) : bool :=
  match state l with
  | Some st => ucode_state_eqb st UCODE_OK
  | None => false
  end.

(** The line [pr_err] prints, with the prefix of [pr_fmt] and without
    the final newline. *)
Definition failure_message (l : locals) : string :=
  match state l with
  | Some UCODE_TIMEOUT => "microcode: Staging failed with timeout."
  | _ => "microcode: Staging failed with error."
  end.

Definition initial_locals : locals :=
  {| xaction_bytes := 0; offset := 0; state := None; xlog := [] |}.

(** [staging_work]; the result is [None] when the loop is still running
    after [fuel] passes.  The locals at the end of the loop are returned
    with the result for specification purposes. *)
Definition staging_work (fuel : nat) (mmio_pa ucode_ptr totalsize : Z)
  : M (option bool * option (loop_exit * locals)) :=
  mmio_base <- ioremap mmio_pa (MBOX_REG_NUM * MBOX_REG_SIZE) ;;
  unmapped <- WARN_ON_ONCE SITE_ioremap (mmio_base =? 0) ;;
  if unmapped then ret (Some false, None)
  else
    abort_xaction mmio_base ;;
    r <- staging_loop mmio_base ucode_ptr totalsize fuel initial_locals ;;
    match fst r with
    | None => ret (None, None)
    | Some e =>
        iounmap mmio_base ;;
        if state_is_ok (snd r) then ret (Some true, Some (e, snd r))
        else
          pr_err (failure_message (snd r)) ;;
          ret (Some false, Some (e, snd r))
    end.

End Transfer.

End Driver.

(** ** The complete revision: request framer and response decoder *)

Module Mailbox.

Section WithWorld.

Variable w : world.

(** The payload [for] loop of [request_xaction]: [n] dwords left, the
    next one being [chunk[i]]. *)
Fixpoint write_chunk (n : nat) (i : Z) (base chunk : Z) : M unit :=
  match n with
  | O => ret tt
  | S n' =>
      write_mbox_dword base (load32 w (chunk + 4 * i)) ;;
      write_chunk n' (i + 1) base chunk
  end.

Definition request_xaction (base chunk chunksize : Z) : M unit :=
  let dwsize := DWORD_SIZE chunksize in
  write_mbox_dword base MBOX_HDR ;;
  write_mbox_dword base (u32 (dwsize + DWORD_SIZE MBOX_HDR_SIZE)) ;;
  write_mbox_dword base MBOX_CMD_LOAD ;;
  write_mbox_dword base 0 ;;
  write_chunk (Z.to_nat dwsize) 0 base chunk ;;
  writel MASK_MBOX_CTRL_GO (base + MBOX_CONTROL_OFFSET).

Definition read_xaction_response (base : Z) (offset : Z) : M (ucode_state * Z) :=
  hdr <- read_mbox_dword w base ;;
  WARN_ON_ONCE SITE_resp_hdr (negb (hdr =? MBOX_HDR)) ;;
  len <- read_mbox_dword w base ;;
  WARN_ON_ONCE SITE_resp_hdrsize (negb (len =? DWORD_SIZE MBOX_HDR_SIZE)) ;;
  offset' <- read_mbox_dword w base ;;
  flag <- read_mbox_dword w base ;;
  if is_set flag MASK_MBOX_RESP_ERROR then ret (UCODE_ERROR, offset')
  else ret (UCODE_OK, offset').

Definition staging_body := staging_body w request_xaction read_xaction_response.

Definition staging_loop := staging_loop w request_xaction read_xaction_response.

Definition staging_work := staging_work w request_xaction read_xaction_response.

End WithWorld.

End Mailbox.

(** ** The skeleton revision: framer and decoder are placeholders *)

Module Skeleton.

Section WithWorld.

Variable w : world.

Definition request_xaction (base chunk chunksize : Z) : M unit :=
  pr_debug_once SITE_dbg_request.

Definition read_xaction_response (base : Z) (offset : Z) : M (ucode_state * Z) :=
  pr_debug_once SITE_dbg_response ;;
  ret (UCODE_ERROR, offset).

Definition staging_work := staging_work w request_xaction read_xaction_response.

End WithWorld.

End Skeleton.

(** ** Sample surroundings used to run the code *)

(** The next-offset word an orderly device reports after the [k]-th chunk
    of a payload of [size] bytes: the offset after that chunk, or the
    sentinel when no byte is left. *)
Definition in_sequence_offset (size : Z) (k : nat) : Z :=
  let next := (Z.of_nat k + 1) * PAGE_SIZE in
  if next <? size then next else STAGING_OFFSET_END.

(** A device that is ready at once and answers the [j]-th transaction
    with a well-formed response whose next-offset word is [offsets j]. *)
Definition replying_device (base : Z) (offsets : nat -> Z) (addr : Z) (k : nat) : Z :=
  if addr =? base + MBOX_STATUS_OFFSET then MASK_MBOX_STATUS_READY
  else if addr =? base + MBOX_RDDATA_OFFSET then
    match Nat.modulo k 4 with
    | 0%nat => MBOX_HDR
    | 1%nat => 4
    | 2%nat => offsets (Nat.div k 4)
    | _ => MASK_MBOX_RESP_SUCCESS
    end
  else 0.

Definition replying_world (offsets : nat -> Z) : world :=
  {| dev_read := replying_device 0x1000 offsets;
     ram := fun a => a;
     ioremap_ret := fun _ _ => 0x1000 |}.

Definition good_device (base size : Z) : Z -> nat -> Z :=
  replying_device base (in_sequence_offset size).

(** The orderly device: ready at once, in-sequence offsets. *)
Definition good_world (size : Z) : world :=
  {| dev_read := good_device 0x1000 size;
     ram := fun a => a;
     ioremap_ret := fun _ _ => 0x1000 |}.


(** A device whose ready bit is clear on the 10000 polls of the first
    wait and set from the following status read on; the error bit is never
    set. *)
Definition late_ready_world : world :=
  {| dev_read := fun addr k =>
       if addr =? 0x1000 + MBOX_STATUS_OFFSET then
         if Z.of_nat k <? 10000 then 0 else MASK_MBOX_STATUS_READY
       else good_device 0x1000 8 addr k;
     ram := fun a => a;
     ioremap_ret := fun _ _ => 0x1000 |}.

(** A device that never becomes ready and reports an error. *)
Definition error_world : world :=
  {| dev_read := fun addr k =>
       if addr =? 0x1000 + MBOX_STATUS_OFFSET then MASK_MBOX_STATUS_ERROR
       else good_device 0x1000 8 addr k;
     ram := fun a => a;
     ioremap_ret := fun _ _ => 0x1000 |}.

(** The orderly device with memory that is zero outside a payload of
    [size] bytes at 0x8000. *)
Definition payload_only_world (size : Z) : world :=
  {| dev_read := good_device 0x1000 size;
     ram := fun a => if (0x8000 <=? a) && (a <? 0x8000 + size) then a else 0;
     ioremap_ret := fun _ _ => 0x1000 |}.

(** A device that is ready at once and answers every read of another
    register with the same value [v]. *)
Definition echo_world (v : Z) : world :=
  {| dev_read := fun addr _ =>
       if addr =? 0x1000 + MBOX_STATUS_OFFSET then MASK_MBOX_STATUS_READY else v;
     ram := fun a => a;
     ioremap_ret := fun _ _ => 0x1000 |}.

(** ** Vocabulary of the specification *)

(** The state [s] after the events [d] have been appended to its trace. *)
Definition log (s : mstate) (d : list event) : mstate :=
  {| fired := fired s; trace := trace s ++ d |}.

(** The events [once site] appends in state [s]. *)
Definition once_events (s : mstate) (site : once_site) : list event :=
  if has_fired s site then [] else [EvOnce site].

(** The events [WARN_ON_ONCE site cond] appends in state [s]. *)
Definition warn_events (s : mstate) (site : once_site) (cond : bool) : list event :=
  if cond then once_events s site else [].

(** How [wait_for_xaction] classifies the status value of its last read. *)
Definition classify_status (status : Z) : ucode_state :=
  if Z.testbit status 2 then UCODE_ERROR
  else if Z.testbit status 31 then UCODE_OK
  else UCODE_TIMEOUT.

(** The number of polls the [for] loop of [wait_for_xaction] makes when the
    status register answers [status n], [status (n+1)], ... and [budget]
    rounds are left. *)
Fixpoint polls_used (status : nat -> Z) (budget n : nat) : nat :=
  match budget with
  | O => O
  | S budget' =>
      if Z.testbit (u32 (status n)) 31 then 1%nat
      else S (polls_used status budget' (S n))
  end.

(** The events of [k] polls of the status register at [addr], the first
    being its [n]-th read. *)
Fixpoint poll_events (addr : Z) (status : nat -> Z) (n k : nat) : list event :=
  match k with
  | O => []
  | S k' => EvMsleep 1 :: EvReadl addr (u32 (status n)) :: poll_events addr status (S n) k'
  end.

(** Status reads one call of [wait_for_xaction] makes, and its result,
    when the first of them is the [n]-th read of the status register. *)
Definition wait_reads (status : nat -> Z) (n : nat) : nat :=
  S (polls_used status (Z.to_nat MBOX_XACTION_TIMEOUT) n).

Definition wait_result (status : nat -> Z) (n : nat) : ucode_state :=
  classify_status
    (u32 (status (n + polls_used status (Z.to_nat MBOX_XACTION_TIMEOUT) n)%nat)).

(** The next [m] calls of [wait_for_xaction] all return [UCODE_OK], the
    first of them starting at the [n]-th read of the status register
    ([wait_for_xaction_eq] below relates [wait_result] to the code). *)
Fixpoint waits_ok (status : nat -> Z) (m n : nat) : Prop :=
  match m with
  | O => True
  | S m' =>
      wait_result status n = UCODE_OK /\
      waits_ok status m' (n + wait_reads status n)%nat
  end.

(** The payload writes of a request: [n] dwords from [chunk[i]] on. *)
Fixpoint payload_events (w : world) (base chunk : Z) (n : nat) (i : Z) : list event :=
  match n with
  | O => []
  | S n' =>
      EvWritel (load32 w (chunk + 4 * i)) (base + MBOX_WRDATA_OFFSET)
        :: payload_events w base chunk n' (i + 1)
  end.

(** Every read of the port [rd] is directly followed by a write of zero
    to [rd]. *)
Definition starts_with_ack (rd : Z) (t : list event) : bool :=
  match t with
  | EvWritel v a :: _ => (v =? 0) && (a =? rd)
  | _ => false
  end.

Fixpoint acked (rd : Z) (t : list event) : bool :=
  match t with
  | [] => true
  | EvReadl a _ :: t' =>
      (if a =? rd then starts_with_ack rd t' else true) && acked rd t'
  | _ :: t' => acked rd t'
  end.

(** The events that are register accesses. *)
Definition is_mmio (e : event) : bool :=
  match e with
  | EvReadl _ _ | EvWritel _ _ => true
  | _ => false
  end.

(** Requests started in a trace: writes of the go bit to the control
    register. *)
Definition is_go (base : Z) (e : event) : bool :=
  match e with
  | EvWritel v a => (v =? MASK_MBOX_CTRL_GO) && (a =? base + MBOX_CONTROL_OFFSET)
  | _ => false
  end.

Definition count_go (base : Z) (t : list event) : nat :=
  List.length (filter (is_go base) t).

(** A transaction whose wait and response were both classified OK. *)
Definition xa_ok (x : xaction) : Prop :=
  xa_wait x = UCODE_OK /\ xa_resp x = Some UCODE_OK.

(** Bytes transacted by a list of transactions: the sum of the chunk
    sizes of those whose wait succeeded (the ones the code adds to
    [xaction_bytes]), as an unbounded integer. *)
Fixpoint bytes_transacted (xs : list xaction) : Z :=
  match xs with
  | [] => 0
  | x :: xs' =>
      (match xa_wait x with UCODE_OK => xa_chunksize x | _ => 0 end)
      + bytes_transacted xs'
  end.

(** Bytes framed and sent, whatever became of the transaction. *)
Fixpoint bytes_sent (xs : list xaction) : Z :=
  match xs with
  | [] => 0
  | x :: xs' => xa_chunksize x + bytes_sent xs'
  end.

(** The loop reached DONE: it was left through its condition. *)
Definition reached_DONE (fin : option (loop_exit * locals)) : Prop :=
  exists l, fin = Some (ExitCondition, l).

(** The loop FAILED: it was left through a break. *)
Definition reached_FAILED (fin : option (loop_exit * locals)) (st : ucode_state) : Prop :=
  exists l, fin = Some (ExitBreak, l) /\ state l = Some st.

(** The value [get_chunksize] returns. *)
Definition chunk_of (totalsize offset : Z) : Z :=
  Z.min PAGE_SIZE (u32 (totalsize - offset)).

(** The budget test of the loop body. *)
Definition over_budget (totalsize : Z) (l : locals) : bool :=
  u32 (xaction_bytes l + chunk_of totalsize (offset l)) >? MBOX_XACTION_MAX totalsize.

(** The events of one request, one wait and one response of the complete
    revision. *)
Definition request_events (w : world) (base chunk chunksize : Z) : list event :=
  [EvWritel MBOX_HDR (base + MBOX_WRDATA_OFFSET);
   EvWritel (u32 (chunksize / 4 + 4)) (base + MBOX_WRDATA_OFFSET);
   EvWritel MBOX_CMD_LOAD (base + MBOX_WRDATA_OFFSET);
   EvWritel 0 (base + MBOX_WRDATA_OFFSET)]
  ++ payload_events w base chunk (Z.to_nat (chunksize / 4)) 0
  ++ [EvWritel MASK_MBOX_CTRL_GO (base + MBOX_CONTROL_OFFSET)].

Definition wait_events (base : Z) (status : nat -> Z) (n : nat) : list event :=
  let k := polls_used status (Z.to_nat MBOX_XACTION_TIMEOUT) n in
  poll_events (base + MBOX_STATUS_OFFSET) status n k
  ++ [EvReadl (base + MBOX_STATUS_OFFSET) (u32 (status (n + k)%nat))].

(** The [i]-th word of a response, when [r] reads of the read-data port
    came before it. *)
Definition resp_word (w : world) (base : Z) (r i : nat) : Z :=
  u32 (dev_read w (base + MBOX_RDDATA_OFFSET) (r + i)%nat).

Definition response_events (s : mstate) (base : Z) (word : nat -> Z) : list event :=
  let rd := base + MBOX_RDDATA_OFFSET in
  [EvReadl rd (word 0%nat); EvWritel 0 rd]
  ++ warn_events s SITE_resp_hdr (negb (word 0%nat =? MBOX_HDR))
  ++ [EvReadl rd (word 1%nat); EvWritel 0 rd]
  ++ warn_events s SITE_resp_hdrsize (negb (word 1%nat =? 4))
  ++ [EvReadl rd (word 2%nat); EvWritel 0 rd;
      EvReadl rd (word 3%nat); EvWritel 0 rd].

(** The locals after a pass through the loop body, by the way it ended. *)
Definition locals_over_budget (l : locals) : locals :=
  {| xaction_bytes := xaction_bytes l; offset := offset l;
     state := Some UCODE_TIMEOUT; xlog := xlog l |}.

Definition locals_wait_failed (totalsize : Z) (l : locals) (st : ucode_state) : locals :=
  {| xaction_bytes := xaction_bytes l; offset := offset l;
     state := Some st;
     xlog := xlog l ++ [mkXaction (offset l) (chunk_of totalsize (offset l)) st None] |}.

Definition locals_responded (totalsize : Z) (l : locals) (st : ucode_state)
    (offset' : Z) : locals :=
  {| xaction_bytes := u32 (xaction_bytes l + chunk_of totalsize (offset l));
     offset := offset';
     state := Some st;
     xlog := xlog l ++ [mkXaction (offset l) (chunk_of totalsize (offset l))
                                  UCODE_OK (Some st)] |}.

(** The invariant of the loop: all transactions so far were classified
    OK, and [state] has been assigned OK unless no pass has been made. *)
Definition loop_invariant (l : locals) : Prop :=
  Forall xa_ok (xlog l) /\ (state l = Some UCODE_OK \/ offset l <> STAGING_OFFSET_END).

(** The events a pass of the complete revision may produce: reads of the
    status and read-data registers, writes to the write-data register, the
    go bit to the control register, zero to the read-data register, sleeps
    of one millisecond and once-only warnings. *)
Definition window_event (base : Z) (e : event) : bool :=
  match e with
  | EvReadl a _ =>
      (a =? base + MBOX_STATUS_OFFSET) || (a =? base + MBOX_RDDATA_OFFSET)
  | EvWritel v a =>
      (a =? base + MBOX_WRDATA_OFFSET)
      || ((a =? base + MBOX_CONTROL_OFFSET) && (v =? MASK_MBOX_CTRL_GO))
      || ((a =? base + MBOX_RDDATA_OFFSET) && (v =? 0))
  | EvMsleep ms => ms =? 1
  | EvOnce _ => true
  | _ => false
  end.

(** The events a pass of the skeleton revision may produce: polls of the
    status register and once-only lines. *)
Definition polling_event (base : Z) (e : event) : bool :=
  match e with
  | EvReadl a _ => a =? base + MBOX_STATUS_OFFSET
  | EvMsleep ms => ms =? 1
  | EvOnce _ => true
  | _ => false
  end.

(** The events with which a finished or unfinished run ends after its
    loop: the window is unmapped, and a failure is reported. *)
Definition run_tail (base : Z) (res : option bool * option (loop_exit * locals))
  : list event :=
  match res with
  | (Some true, _) => [EvIounmap base]
  | (Some false, Some (_, l)) => [EvIounmap base; EvPrErr (failure_message l)]
  | _ => []
  end.

(** How often a once-only site fired in a trace. *)
Definition is_once (site : once_site) (e : event) : bool :=
  match e with
  | EvOnce x => once_site_eqb x site
  | _ => false
  end.

Definition count_once (site : once_site) (t : list event) : nat :=
  List.length (filter (is_once site) t).

(** The transactions of a list whose response was decoded. *)
Definition has_response (x : xaction) : bool :=
  match xa_resp x with
  | Some _ => true
  | None => false
  end.

Definition decoded (xs : list xaction) : nat :=
  List.length (filter has_response xs).

(** From [s] to [s'] the trace was extended, and no once-only site fired
    that had fired before or fired twice; a site that fired is remembered. *)
Definition once_step (s s' : mstate) : Prop :=
  exists d,
    trace s' = trace s ++ d /\
    forall site,
      (has_fired s site = true ->
       has_fired s' site = true /\ count_once site d = O) /\
      (has_fired s site = false ->
       (count_once site d <= 1)%nat /\
       (count_once site d = 1%nat -> has_fired s' site = true)).

(** A computation every run of which is such a step. *)
Definition fires_once {A : Type} (m : M A) : Prop :=
  forall s, once_step s (snd (m s)).

(** * Properties *)

(** ** Bits and words *)

Lemma u32_range (x : Z) : 0 <= u32 x < 2 ^ 32.
Proof. unfold u32. apply Z.mod_pos_bound. reflexivity. Qed.

Lemma u32_small (x : Z) : 0 <= x < 2 ^ 32 -> u32 x = x.
Proof. intros H. unfold u32. apply Z.mod_small. exact H. Qed.

Lemma is_set_BIT (x n : Z) : 0 <= n -> is_set x (BIT n) = Z.testbit x n.
Proof.
  intros Hn. unfold is_set, BIT.
  destruct (Z.testbit x n) eqn:Hb.
  - apply negb_true_iff, Z.eqb_neq. intros H0.
    assert (Hc : Z.testbit (Z.land x (Z.shiftl 1 n)) n = true).
    { rewrite Z.land_spec, Hb, Z.shiftl_spec by exact Hn.
      rewrite Z.sub_diag. reflexivity. }
    rewrite H0, Z.bits_0 in Hc. discriminate.
  - apply negb_false_iff, Z.eqb_eq. apply Z.bits_inj'. intros i Hi.
    rewrite Z.land_spec, Z.bits_0, Z.shiftl_spec by exact Hi.
    destruct (Z.eq_dec i n) as [->|Hne].
    + rewrite Hb. reflexivity.
    + destruct (Z.testbit x i); [|reflexivity]. simpl.
      destruct (Z.lt_ge_cases i n).
      * apply Z.testbit_neg_r. lia.
      * change 1 with (2 ^ 0). apply Z.pow2_bits_false. lia.
Qed.

(** ** Traces and read counts *)

Lemma count_reads_app (a : Z) (t1 t2 : list event) :
  count_reads a (t1 ++ t2) = (count_reads a t1 + count_reads a t2)%nat.
Proof.
  induction t1 as [|e t1 IH]; [reflexivity|].
  destruct e; simpl; try exact IH.
  destruct (addr =? a); simpl; rewrite IH; reflexivity.
Qed.

Lemma rd_count_log (s : mstate) (d : list event) (a : Z) :
  rd_count (log s d) a = (rd_count s a + count_reads a d)%nat.
Proof. unfold rd_count, log. simpl. apply count_reads_app. Qed.

Lemma log_log (s : mstate) (d1 d2 : list event) :
  log (log s d1) d2 = log s (d1 ++ d2).
Proof. unfold log. simpl. rewrite app_assoc. reflexivity. Qed.

Lemma log_nil (s : mstate) : log s [] = s.
Proof. destruct s. unfold log. simpl. rewrite app_nil_r. reflexivity. Qed.

Lemma count_reads_poll_events (a addr : Z) (status : nat -> Z) (k n : nat) :
  count_reads a (poll_events addr status n k) = if addr =? a then k else O.
Proof.
  revert n. induction k as [|k IH]; intros n; simpl.
  - destruct (addr =? a); reflexivity.
  - rewrite IH. destruct (addr =? a); reflexivity.
Qed.

Lemma count_reads_payload_events (w : world) (a base chunk : Z) (n : nat) (i : Z) :
  count_reads a (payload_events w base chunk n i) = O.
Proof. revert i. induction n as [|n IH]; intros i; simpl; [reflexivity|apply IH]. Qed.

Lemma count_reads_once_events (a : Z) (s : mstate) (site : once_site) :
  count_reads a (once_events s site) = O.
Proof. unfold once_events. destruct (has_fired s site); reflexivity. Qed.

Lemma count_reads_warn_events (a : Z) (s : mstate) (site : once_site) (c : bool) :
  count_reads a (warn_events s site c) = O.
Proof. unfold warn_events. destruct c; [apply count_reads_once_events|reflexivity]. Qed.

Lemma once_site_eqb_eq (a b : once_site) : once_site_eqb a b = true <-> a = b.
Proof. destruct a, b; simpl; split; intros H; congruence. Qed.

Lemma has_fired_log (s : mstate) (d : list event) (site : once_site) :
  has_fired (log s d) site = has_fired s site.
Proof. reflexivity. Qed.

Lemma warn_events_ext (s s' : mstate) (site : once_site) (c : bool) :
  has_fired s' site = has_fired s site ->
  warn_events s' site c = warn_events s site c.
Proof. intros H. unfold warn_events, once_events. rewrite H. reflexivity. Qed.

(** ** Requests started and acknowledged reads in a trace *)

Lemma count_go_app (base : Z) (t1 t2 : list event) :
  count_go base (t1 ++ t2) = (count_go base t1 + count_go base t2)%nat.
Proof. unfold count_go. rewrite filter_app, length_app. reflexivity. Qed.

Lemma is_go_other_register (base v off : Z) :
  off <> MBOX_CONTROL_OFFSET -> is_go base (EvWritel v (base + off)) = false.
Proof.
  intros H. unfold is_go. apply andb_false_iff. right. apply Z.eqb_neq. lia.
Qed.

Lemma is_go_strobe (base : Z) :
  is_go base (EvWritel MASK_MBOX_CTRL_GO (base + MBOX_CONTROL_OFFSET)) = true.
Proof. unfold is_go. rewrite !Z.eqb_refl. reflexivity. Qed.

Lemma count_go_once_events (base : Z) (s : mstate) (site : once_site) :
  count_go base (once_events s site) = O.
Proof. unfold once_events. destruct (has_fired s site); reflexivity. Qed.

Lemma count_go_warn_events (base : Z) (s : mstate) (site : once_site) (c : bool) :
  count_go base (warn_events s site c) = O.
Proof. unfold warn_events. destruct c; [apply count_go_once_events|reflexivity]. Qed.

Lemma count_go_poll_events (base addr : Z) (status : nat -> Z) (k n : nat) :
  count_go base (poll_events addr status n k) = O.
Proof.
  revert n. induction k as [|k IH]; intros n; [reflexivity|].
  cbn [poll_events]. unfold count_go. cbn [filter is_go]. apply IH.
Qed.

Lemma count_go_payload_events (w : world) (base chunk : Z) (n : nat) (i : Z) :
  count_go base (payload_events w base chunk n i) = O.
Proof.
  revert i. induction n as [|n IH]; intros i; [reflexivity|].
  cbn [payload_events]. unfold count_go. cbn [filter].
  rewrite is_go_other_register by discriminate. apply IH.
Qed.

Lemma count_go_cons (base : Z) (e : event) (t : list event) :
  count_go base (e :: t) = ((if is_go base e then 1 else 0) + count_go base t)%nat.
Proof. unfold count_go. cbn [filter]. destruct (is_go base e); reflexivity. Qed.

Lemma count_go_request_events (w : world) (base chunk chunksize : Z) :
  count_go base (request_events w base chunk chunksize) = 1%nat.
Proof.
  unfold request_events. rewrite !count_go_app, count_go_payload_events.
  rewrite !count_go_cons, !is_go_other_register by discriminate.
  rewrite is_go_strobe. reflexivity.
Qed.

Lemma count_go_wait_events (base : Z) (status : nat -> Z) (n : nat) :
  count_go base (wait_events base status n) = O.
Proof.
  unfold wait_events. rewrite count_go_app, count_go_poll_events. reflexivity.
Qed.

Lemma count_go_response_events (s : mstate) (base : Z) (word : nat -> Z) :
  count_go base (response_events s base word) = O.
Proof.
  unfold response_events. cbv zeta.
  rewrite !count_go_app, !count_go_warn_events, !count_go_cons.
  rewrite !is_go_other_register by discriminate. reflexivity.
Qed.

Lemma count_reads_request_events (w : world) (a base chunk chunksize : Z) :
  count_reads a (request_events w base chunk chunksize) = O.
Proof.
  unfold request_events. rewrite !count_reads_app, count_reads_payload_events.
  reflexivity.
Qed.

Lemma count_reads_wait_events (a base : Z) (status : nat -> Z) (n : nat) :
  count_reads a (wait_events base status n) =
  if base + MBOX_STATUS_OFFSET =? a then wait_reads status n else O.
Proof.
  unfold wait_events, wait_reads. cbv zeta.
  rewrite count_reads_app, count_reads_poll_events. cbn [count_reads].
  destruct (base + MBOX_STATUS_OFFSET =? a); lia.
Qed.

Lemma count_reads_response_events (a : Z) (s : mstate) (base : Z) (word : nat -> Z) :
  count_reads a (response_events s base word) =
  if base + MBOX_RDDATA_OFFSET =? a then 4%nat else O.
Proof.
  unfold response_events. cbv zeta.
  rewrite !count_reads_app, !count_reads_warn_events. cbn [count_reads].
  destruct (base + MBOX_RDDATA_OFFSET =? a); reflexivity.
Qed.

Lemma acked_app (rd : Z) (t1 t2 : list event) :
  acked rd t1 = true -> acked rd t2 = true -> acked rd (t1 ++ t2) = true.
Proof.
  intros H1 H2. induction t1 as [|e t1 IH]; [exact H2|].
  destruct e; cbn [acked app] in *; try (apply IH; exact H1).
  apply andb_true_iff in H1. destruct H1 as [Ha Hr].
  apply andb_true_iff. split; [|apply IH; exact Hr].
  destruct (addr =? rd); [|reflexivity].
  destruct t1 as [|e' t1']; [discriminate Ha|exact Ha].
Qed.

Lemma acked_no_reads (rd : Z) (t : list event) :
  count_reads rd t = O -> acked rd t = true.
Proof.
  induction t as [|e t IH]; intros H; [reflexivity|].
  destruct e; cbn [acked count_reads] in *; try (apply IH; exact H).
  destruct (addr =? rd); [discriminate H|]. apply IH. exact H.
Qed.

Lemma acked_read_ack (rd v : Z) (t : list event) :
  acked rd t = true -> acked rd (EvReadl rd v :: EvWritel 0 rd :: t) = true.
Proof.
  intros H. cbn [acked starts_with_ack]. rewrite !Z.eqb_refl. exact H.
Qed.

Lemma acked_response_events (s : mstate) (base : Z) (word : nat -> Z) :
  acked (base + MBOX_RDDATA_OFFSET) (response_events s base word) = true.
Proof.
  unfold response_events. cbv zeta.
  change (?a :: ?b :: ?t ++ ?u) with (a :: b :: (t ++ u)).
  cbn [app]. apply acked_read_ack. apply acked_app.
  - apply acked_no_reads, count_reads_warn_events.
  - apply acked_read_ack. apply acked_app.
    + apply acked_no_reads, count_reads_warn_events.
    + apply acked_read_ack, acked_read_ack. reflexivity.
Qed.

(** ** The primitives, as equations *)

Section PrimitiveFacts.

Variable w : world.

Lemma writel_eq (v a : Z) (s : mstate) :
  writel v a s = (tt, log s [EvWritel v a]).
Proof. reflexivity. Qed.

Lemma readl_eq (a : Z) (s : mstate) :
  readl w a s =
  (u32 (dev_read w a (rd_count s a)),
   log s [EvReadl a (u32 (dev_read w a (rd_count s a)))]).
Proof. reflexivity. Qed.

Lemma once_spec (site : once_site) (s : mstate) :
  exists s',
    once site s = (tt, s') /\
    trace s' = trace s ++ once_events s site /\
    has_fired s' site = true /\
    (forall site', site' <> site -> has_fired s' site' = has_fired s site').
Proof.
  unfold once, once_events.
  destruct (has_fired s site) eqn:Hf.
  - exists s. rewrite app_nil_r. repeat split; auto.
  - eexists. split; [reflexivity|]. simpl. repeat split.
    + unfold has_fired. simpl.
      replace (once_site_eqb site site) with true; [reflexivity|].
      symmetry. apply once_site_eqb_eq. reflexivity.
    + intros site' Hne. unfold has_fired. simpl.
      destruct (once_site_eqb site' site) eqn:He; [|reflexivity].
      apply once_site_eqb_eq in He. contradiction.
Qed.

Lemma WARN_ON_ONCE_spec (site : once_site) (c : bool) (s : mstate) :
  exists s',
    WARN_ON_ONCE site c s = (c, s') /\
    trace s' = trace s ++ warn_events s site c /\
    (forall site', site' <> site -> has_fired s' site' = has_fired s site').
Proof.
  unfold WARN_ON_ONCE, warn_events. destruct c.
  - destruct (once_spec site s) as (s' & E & T & _ & F).
    exists s'. unfold bind, ret. rewrite E. auto.
  - exists s. unfold ret. rewrite app_nil_r. auto.
Qed.

Lemma read_mbox_dword_eq (base : Z) (s : mstate) :
  read_mbox_dword w base s =
  (let v := u32 (dev_read w (base + MBOX_RDDATA_OFFSET)
                   (rd_count s (base + MBOX_RDDATA_OFFSET))) in
   (v, log s [EvReadl (base + MBOX_RDDATA_OFFSET) v;
              EvWritel 0 (base + MBOX_RDDATA_OFFSET)])).
Proof.
  unfold read_mbox_dword, bind, ret. rewrite readl_eq, writel_eq, log_log.
  reflexivity.
Qed.

(** ** Completion waiter *)

Lemma poll_status_eq (budget : nat) (base : Z) (s : mstate) :
  poll_status w budget base s =
  (tt, log s (poll_events (base + MBOX_STATUS_OFFSET)
                (dev_read w (base + MBOX_STATUS_OFFSET))
                (rd_count s (base + MBOX_STATUS_OFFSET))
                (polls_used (dev_read w (base + MBOX_STATUS_OFFSET)) budget
                   (rd_count s (base + MBOX_STATUS_OFFSET))))).
Proof.
  revert s. induction budget as [|budget IH]; intros s.
  - simpl. unfold ret. rewrite log_nil. reflexivity.
  - cbn [poll_status polls_used]. unfold bind at 1. unfold msleep, emit.
    unfold bind at 1. rewrite readl_eq.
    set (s1 := {| fired := fired s; trace := trace s ++ [EvMsleep 1] |}).
    assert (Hc : rd_count s1 (base + MBOX_STATUS_OFFSET)
                 = rd_count s (base + MBOX_STATUS_OFFSET)).
    { unfold rd_count, s1. simpl. rewrite count_reads_app. simpl. lia. }
    rewrite Hc.
    set (v := u32 (dev_read w (base + MBOX_STATUS_OFFSET)
                     (rd_count s (base + MBOX_STATUS_OFFSET)))).
    unfold MASK_MBOX_STATUS_READY. rewrite is_set_BIT by lia.
    destruct (Z.testbit v 31) eqn:Hb.
    + unfold ret. f_equal. unfold log, s1. simpl. rewrite <- app_assoc. reflexivity.
    + rewrite IH. f_equal.
      assert (Hc2 : rd_count (log s1 [EvReadl (base + MBOX_STATUS_OFFSET) v])
                      (base + MBOX_STATUS_OFFSET)
                    = S (rd_count s (base + MBOX_STATUS_OFFSET))).
      { rewrite rd_count_log, Hc. simpl. rewrite Z.eqb_refl. lia. }
      rewrite Hc2. unfold log, s1. simpl. rewrite <- !app_assoc. reflexivity.
Qed.

Lemma wait_for_xaction_eq (base : Z) (s : mstate) :
  wait_for_xaction w base s =
  (wait_result (dev_read w (base + MBOX_STATUS_OFFSET))
     (rd_count s (base + MBOX_STATUS_OFFSET)),
   log s (wait_events base (dev_read w (base + MBOX_STATUS_OFFSET))
            (rd_count s (base + MBOX_STATUS_OFFSET)))).
Proof.
  set (status := dev_read w (base + MBOX_STATUS_OFFSET)).
  set (n := rd_count s (base + MBOX_STATUS_OFFSET)).
  unfold wait_for_xaction.
  unfold bind at 1. rewrite poll_status_eq. fold status n.
  set (k := polls_used status (Z.to_nat MBOX_XACTION_TIMEOUT) n).
  unfold bind at 1. rewrite readl_eq.
  rewrite rd_count_log, count_reads_poll_events, Z.eqb_refl.
  fold status n. rewrite log_log.
  unfold MASK_MBOX_STATUS_ERROR, MASK_MBOX_STATUS_READY.
  rewrite !is_set_BIT by lia.
  unfold wait_result, classify_status, wait_events. fold k.
  destruct (Z.testbit (u32 (status (n + k)%nat)) 2); [reflexivity|].
  destruct (Z.testbit (u32 (status (n + k)%nat)) 31); reflexivity.
Qed.

(** What the polling loop consumes. *)
Lemma polls_used_le (status : nat -> Z) (budget n : nat) :
  (polls_used status budget n <= budget)%nat.
Proof.
  revert n. induction budget as [|b IH]; intros n; cbn [polls_used]; [lia|].
  destruct (Z.testbit (u32 (status n)) 31); [lia|]. specialize (IH (S n)). lia.
Qed.

Lemma polls_used_pos (status : nat -> Z) (budget n : nat) :
  (0 < budget)%nat -> (0 < polls_used status budget n)%nat.
Proof.
  destruct budget as [|b]; [lia|]. intros _. cbn [polls_used].
  destruct (Z.testbit (u32 (status n)) 31); lia.
Qed.

Lemma polls_used_never_ready (status : nat -> Z) (budget n : nat) :
  (forall i, (i < budget)%nat -> Z.testbit (u32 (status (n + i)%nat)) 31 = false) ->
  polls_used status budget n = budget.
Proof.
  revert n. induction budget as [|b IH]; intros n H; cbn [polls_used]; [reflexivity|].
  rewrite <- (Nat.add_0_r n) at 1. rewrite (H O) by lia.
  f_equal. apply IH. intros i Hi.
  replace (S n + i)%nat with (n + S i)%nat by lia. apply H. lia.
Qed.

Lemma polls_used_ready_now (status : nat -> Z) (budget n : nat) :
  Z.testbit (u32 (status n)) 31 = true ->
  polls_used status (S budget) n = 1%nat.
Proof. intros H. cbn [polls_used]. rewrite H. reflexivity. Qed.

(** The polls before the last one saw the ready bit clear, and a loop that
    stopped early stopped on a set ready bit. *)
Lemma polls_used_sound (status : nat -> Z) (budget n : nat) :
  let k := polls_used status budget n in
  (forall i, (S i < k)%nat -> Z.testbit (u32 (status (n + i)%nat)) 31 = false) /\
  ((k < budget)%nat ->
   (0 < k)%nat /\ Z.testbit (u32 (status (n + k - 1)%nat)) 31 = true).
Proof.
  revert n. induction budget as [|b IH]; intros n; cbn [polls_used]; [split; intros; lia|].
  destruct (Z.testbit (u32 (status n)) 31) eqn:Hb.
  - split; [intros; lia|]. intros _. split; [lia|].
    replace (n + 1 - 1)%nat with n by lia. exact Hb.
  - destruct (IH (S n)) as [IH1 IH2]. split.
    + intros i Hi. destruct i as [|i].
      * rewrite Nat.add_0_r. exact Hb.
      * replace (n + S i)%nat with (S n + i)%nat by lia. apply IH1. lia.
    + intros Hk. destruct IH2 as [P Q]; [lia|]. split; [lia|].
      replace (n + S (polls_used status b (S n)) - 1)%nat
        with (S n + polls_used status b (S n) - 1)%nat by lia.
      exact Q.
Qed.

End PrimitiveFacts.

(** ** Request framer *)

Section FramerFacts.

Variable w : world.

Lemma write_chunk_eq (n : nat) (i base chunk : Z) (s : mstate) :
  Mailbox.write_chunk w n i base chunk s =
  (tt, log s (payload_events w base chunk n i)).
Proof.
  revert i s. induction n as [|n IH]; intros i s.
  - simpl. unfold ret. rewrite log_nil. reflexivity.
  - cbn [Mailbox.write_chunk payload_events]. unfold bind, write_mbox_dword.
    rewrite writel_eq, IH, log_log. reflexivity.
Qed.

Lemma payload_events_map (base chunk : Z) (n : nat) (i : Z) :
  payload_events w base chunk n i =
  map (fun j => EvWritel (load32 w (chunk + 4 * (i + Z.of_nat j)))
                         (base + MBOX_WRDATA_OFFSET))
      (seq 0 n).
Proof.
  revert i. induction n as [|n IH]; intros i; [reflexivity|].
  cbn [payload_events seq map]. f_equal.
  - replace (i + Z.of_nat 0) with i by lia. reflexivity.
  - rewrite IH, <- seq_shift, map_map. apply map_ext. intros j.
    replace (i + 1 + Z.of_nat j) with (i + Z.of_nat (S j)) by lia. reflexivity.
Qed.

(** The events of one request for a chunk of [chunksize] bytes at [chunk]. *)
Lemma request_xaction_eq (base chunk chunksize : Z) (s : mstate) :
  Mailbox.request_xaction w base chunk chunksize s =
  (tt, log s ([EvWritel MBOX_HDR (base + MBOX_WRDATA_OFFSET);
               EvWritel (u32 (chunksize / 4 + 4)) (base + MBOX_WRDATA_OFFSET);
               EvWritel MBOX_CMD_LOAD (base + MBOX_WRDATA_OFFSET);
               EvWritel 0 (base + MBOX_WRDATA_OFFSET)]
              ++ payload_events w base chunk (Z.to_nat (chunksize / 4)) 0
              ++ [EvWritel MASK_MBOX_CTRL_GO (base + MBOX_CONTROL_OFFSET)])).
Proof.
  unfold Mailbox.request_xaction, write_mbox_dword, bind.
  rewrite !writel_eq, write_chunk_eq, writel_eq, !log_log.
  reflexivity.
Qed.

End FramerFacts.

(** C6: for a chunk of [L] bytes, [request_xaction] writes to the
    write-data port (offset 0x8), in this order, the identifier [MBOX_HDR]
    (0x8086 combined with 0xb shifted by 16), the length word [L/4 + 4],
    the command word 0x3, one zero word and the [L/4] dwords of the chunk
    in order; the go bit (bit 31) is written to the control register
    (offset 0x0) after them, and nothing else happens. *)
Theorem request_xaction_frames (w : world) (base chunk L : Z) (s : mstate) :
  0 <= L < 2 ^ 32 ->
  MBOX_HDR = Z.lor 0x8086 (Z.shiftl 0xb 16) /\
  Mailbox.request_xaction w base chunk L s =
  (tt, log s ([EvWritel MBOX_HDR (base + 0x8);
               EvWritel (L / 4 + 4) (base + 0x8);
               EvWritel 0x3 (base + 0x8);
               EvWritel 0 (base + 0x8)]
              ++ map (fun i => EvWritel (load32 w (chunk + 4 * Z.of_nat i)) (base + 0x8))
                     (seq 0 (Z.to_nat (L / 4)))
              ++ [EvWritel (2 ^ 31) (base + 0x0)])).
Proof.
  intros HL. split; [reflexivity|].
  rewrite request_xaction_eq, payload_events_map.
  rewrite (u32_small (L / 4 + 4)).
  - reflexivity.
  - assert (0 <= L / 4 < 2 ^ 30).
    { split; [apply Z.div_pos; lia|apply Z.div_lt_upper_bound; lia]. }
    lia.
Qed.

Lemma request_xaction_frames_witness :
  Mailbox.request_xaction (good_world 8) 0x1000 0x8000 8 init_state =
  (tt, log init_state
         [EvWritel 0xb8086 0x1008; EvWritel 6 0x1008; EvWritel 3 0x1008;
          EvWritel 0 0x1008; EvWritel 0x8000 0x1008; EvWritel 0x8004 0x1008;
          EvWritel 0x80000000 0x1000]).
Proof.
  destruct (request_xaction_frames (good_world 8) 0x1000 0x8000 8 init_state) as [_ E].
  - lia.
  - rewrite E. reflexivity.
Defined.

(** ** Completion waiter: classification *)

(** C4: [wait_for_xaction] polls between 1 and 10000 times and then
    reads the status register once more; that last value alone decides:
    ERROR when its bit 2 is set (whatever bit 31 is), OK when bit 31 is set
    and bit 2 clear, TIMEOUT otherwise. *)
Theorem wait_for_xaction_classifies (w : world) (base : Z) (s : mstate) :
  let status := dev_read w (base + 0x4) in
  let n := rd_count s (base + 0x4) in
  exists k : nat,
    (1 <= k <= Z.to_nat 10000)%nat /\
    let last := u32 (status (n + k)%nat) in
    snd (wait_for_xaction w base s) =
      log s (poll_events (base + 0x4) status n k ++ [EvReadl (base + 0x4) last]) /\
    fst (wait_for_xaction w base s) =
      (if Z.testbit last 2 then UCODE_ERROR
       else if Z.testbit last 31 then UCODE_OK
       else UCODE_TIMEOUT).
Proof.
  intros status n.
  exists (polls_used status (Z.to_nat MBOX_XACTION_TIMEOUT) n).
  split.
  - split.
    + apply polls_used_pos. change MBOX_XACTION_TIMEOUT with 10000. lia.
    + apply (polls_used_le status (Z.to_nat MBOX_XACTION_TIMEOUT) n).
  - rewrite (wait_for_xaction_eq w base s). split; reflexivity.
Qed.

(** ** Response decoder *)

Lemma rd_count_extend (s s' : mstate) (d : list event) (a : Z) :
  trace s' = trace s ++ d ->
  rd_count s' a = (rd_count s a + count_reads a d)%nat.
Proof. intros H. unfold rd_count. rewrite H. apply count_reads_app. Qed.

Section DecoderFacts.

Variable w : world.

Lemma read_xaction_response_spec (base offset : Z) (s : mstate) :
  exists s',
    Mailbox.read_xaction_response w base offset s =
      ((if Z.testbit (resp_word w base (rd_count s (base + MBOX_RDDATA_OFFSET)) 3) 2
        then UCODE_ERROR else UCODE_OK,
        resp_word w base (rd_count s (base + MBOX_RDDATA_OFFSET)) 2), s') /\
    trace s' =
      trace s ++
      response_events s base
        (resp_word w base (rd_count s (base + MBOX_RDDATA_OFFSET))).
Proof.
  unfold response_events. cbv zeta.
  set (rd := base + MBOX_RDDATA_OFFSET).
  set (n := rd_count s rd).
  set (word := resp_word w base n).
  assert (Hword : forall i, u32 (dev_read w rd (n + i)%nat) = word i) by reflexivity.
  unfold Mailbox.read_xaction_response.
  (* first word *)
  unfold bind at 1. rewrite read_mbox_dword_eq. cbv beta iota zeta.
  fold rd n.
  assert (W0 : u32 (dev_read w rd n) = word 0%nat).
  { rewrite <- Hword, Nat.add_0_r. reflexivity. }
  rewrite !W0.
  set (s1 := log s [EvReadl rd (word 0%nat); EvWritel 0 rd]).
  unfold bind at 1.
  destruct (WARN_ON_ONCE_spec SITE_resp_hdr (negb (word 0%nat =? MBOX_HDR)) s1)
    as (s2 & E2 & T2 & F2).
  rewrite E2. cbv beta iota.
  assert (C2 : rd_count s2 rd = (n + 1)%nat).
  { rewrite (rd_count_extend s1 s2 _ rd T2), count_reads_warn_events.
    unfold s1. rewrite rd_count_log. cbn [count_reads]. rewrite Z.eqb_refl.
    fold n. lia. }
  (* second word *)
  unfold bind at 1. rewrite read_mbox_dword_eq. cbv beta iota zeta.
  fold rd. rewrite C2, !Hword.
  set (s3 := log s2 [EvReadl rd (word 1%nat); EvWritel 0 rd]).
  unfold bind at 1.
  destruct (WARN_ON_ONCE_spec SITE_resp_hdrsize
              (negb (word 1%nat =? DWORD_SIZE MBOX_HDR_SIZE)) s3)
    as (s4 & E4 & T4 & F4).
  rewrite E4. cbv beta iota.
  assert (C4 : rd_count s4 rd = (n + 2)%nat).
  { rewrite (rd_count_extend s3 s4 _ rd T4), count_reads_warn_events.
    unfold s3. rewrite rd_count_log, C2. cbn [count_reads].
    rewrite Z.eqb_refl. lia. }
  (* offset word *)
  unfold bind at 1. rewrite read_mbox_dword_eq. cbv beta iota zeta.
  fold rd. rewrite C4, !Hword.
  set (s5 := log s4 [EvReadl rd (word 2%nat); EvWritel 0 rd]).
  assert (C5 : rd_count s5 rd = (n + 3)%nat).
  { unfold s5. rewrite rd_count_log, C4. cbn [count_reads].
    rewrite Z.eqb_refl. lia. }
  (* flag word *)
  unfold bind at 1. rewrite read_mbox_dword_eq. cbv beta iota zeta.
  fold rd. rewrite C5, !Hword.
  unfold MASK_MBOX_RESP_ERROR. rewrite is_set_BIT by lia.
  eexists. split.
  - destruct (Z.testbit (word 3%nat) 2); unfold ret; reflexivity.
  - cbn [trace log]. unfold s5. cbn [trace log]. rewrite T4.
    unfold s3. cbn [trace log]. rewrite T2. unfold s1. cbn [trace log].
    rewrite (warn_events_ext s (log s2 _) SITE_resp_hdrsize).
    + rewrite (warn_events_ext s (log s _) SITE_resp_hdr) by reflexivity.
      change (DWORD_SIZE MBOX_HDR_SIZE) with 4.
      rewrite <- !app_assoc. reflexivity.
    + rewrite has_fired_log. rewrite F2 by discriminate. reflexivity.
Qed.

End DecoderFacts.

(** C7: [read_xaction_response] reads the read-data port (offset 0xc)
    exactly four times, in order; an identifier word other than [MBOX_HDR]
    or a length word other than 4 only raises a once-only warning and has
    no influence on the result; the third word becomes the caller's offset
    cursor in every case; the result is ERROR exactly when bit 2 of the
    fourth word is set, and OK otherwise. *)
Theorem read_xaction_response_decodes (w : world) (base offset : Z) (s : mstate) :
  let rd := base + 0xc in
  let n := rd_count s rd in
  let word := fun i : nat => u32 (dev_read w rd (n + i)%nat) in
  let r := Mailbox.read_xaction_response w base offset s in
  trace (snd r) =
    trace s
    ++ [EvReadl rd (word 0%nat); EvWritel 0 rd]
    ++ (if negb (word 0%nat =? MBOX_HDR) then once_events s SITE_resp_hdr else [])
    ++ [EvReadl rd (word 1%nat); EvWritel 0 rd]
    ++ (if negb (word 1%nat =? 4) then once_events s SITE_resp_hdrsize else [])
    ++ [EvReadl rd (word 2%nat); EvWritel 0 rd;
        EvReadl rd (word 3%nat); EvWritel 0 rd] /\
  rd_count (snd r) rd = (n + 4)%nat /\
  snd (fst r) = word 2%nat /\
  (fst (fst r) = UCODE_ERROR <-> Z.testbit (word 3%nat) 2 = true) /\
  (fst (fst r) = UCODE_OK <-> Z.testbit (word 3%nat) 2 = false).
Proof.
  intros rd n word r.
  destruct (read_xaction_response_spec w base offset s) as (s' & E & T).
  subst r. rewrite E. cbn [fst snd].
  change (resp_word w base (rd_count s (base + MBOX_RDDATA_OFFSET))) with word in *.
  split; [exact T|]. split.
  - rewrite (rd_count_extend s s' _ rd T). fold n.
    rewrite count_reads_response_events.
    change (base + MBOX_RDDATA_OFFSET) with rd. rewrite Z.eqb_refl. reflexivity.
  - split; [reflexivity|].
    destruct (Z.testbit (word 3%nat) 2); split; split; intros H;
      try reflexivity; discriminate H.
Qed.

(** ** Chunk sizing *)

Lemma get_chunksize_spec (totalsize offset : Z) (s : mstate) :
  exists s',
    get_chunksize totalsize offset s =
      (Z.min PAGE_SIZE (u32 (totalsize - offset)), s') /\
    trace s' = trace s ++ warn_events s SITE_chunksize (totalsize <? offset) /\
    (forall site, site <> SITE_chunksize -> has_fired s' site = has_fired s site).
Proof.
  unfold get_chunksize, bind.
  destruct (WARN_ON_ONCE_spec SITE_chunksize (totalsize <? offset) s)
    as (s' & E & T & F).
  rewrite E. exists s'. auto.
Qed.

Lemma chunksize_bounds (totalsize offset : Z) :
  0 <= Z.min PAGE_SIZE (u32 (totalsize - offset)) <= PAGE_SIZE.
Proof.
  pose proof (u32_range (totalsize - offset)). unfold PAGE_SIZE. lia.
Qed.

Lemma u32_wrapped_difference (totalsize offset : Z) :
  0 <= totalsize -> totalsize < offset -> offset < 2 ^ 32 ->
  u32 (totalsize - offset) = 2 ^ 32 + totalsize - offset.
Proof.
  intros H0 H1 H2. unfold u32.
  symmetry. apply (Z.mod_unique _ _ (-1)); lia.
Qed.

(** ** One pass through the loop body (complete revision) *)

Section BodyFacts.

Variable w : world.
Variables (base ucode_ptr totalsize : Z).

Let st_addr := base + MBOX_STATUS_OFFSET.
Let rd_addr := base + MBOX_RDDATA_OFFSET.

Let body := Mailbox.staging_body w base ucode_ptr totalsize.

Lemma staging_body_spec (l : locals) (s : mstate) :
  let cs := chunk_of totalsize (offset l) in
  let status := dev_read w st_addr in
  let n := rd_count s st_addr in
  let word := resp_word w base (rd_count s rd_addr) in
  let d0 := warn_events s SITE_chunksize (totalsize <? offset l) in
  let dreq := request_events w base (ucode_ptr + offset l) cs in
  let dwait := wait_events base status n in
  exists s',
    body l s =
      (if over_budget totalsize l then
         (Some ExitBreak, locals_over_budget l)
       else if ucode_state_eqb (wait_result status n) UCODE_OK then
         if Z.testbit (word 3%nat) 2
         then (Some ExitBreak, locals_responded totalsize l UCODE_ERROR (word 2%nat))
         else (None, locals_responded totalsize l UCODE_OK (word 2%nat))
       else
         (Some ExitBreak, locals_wait_failed totalsize l (wait_result status n)),
       s') /\
    trace s' =
      trace s ++ d0 ++
      (if over_budget totalsize l then []
       else dreq ++ dwait ++
            (if ucode_state_eqb (wait_result status n) UCODE_OK
             then response_events s base word else [])).
Proof.
  intros cs status n word d0 dreq dwait.
  unfold body, Mailbox.staging_body, staging_body. unfold bind at 1.
  destruct (get_chunksize_spec totalsize (offset l) s) as (s1 & E1 & T1 & F1).
  rewrite E1. cbv beta iota. fold (chunk_of totalsize (offset l)). fold cs.
  fold d0 in T1.
  unfold over_budget. fold cs.
  destruct (u32 (xaction_bytes l + cs) >? MBOX_XACTION_MAX totalsize) eqn:G.
  - unfold ret. exists s1. split; [reflexivity|]. rewrite app_nil_r. exact T1.
  - unfold bind at 1. rewrite request_xaction_eq. cbv beta iota.
    fold (request_events w base (ucode_ptr + offset l) cs). fold dreq.
    assert (C1 : forall a, rd_count (log s1 dreq) a = rd_count s a).
    { intros a. rewrite rd_count_log, (rd_count_extend s s1 d0 a T1).
      unfold d0, dreq.
      rewrite count_reads_warn_events, count_reads_request_events. lia. }
    unfold bind at 1. rewrite wait_for_xaction_eq. cbv beta iota.
    fold st_addr. rewrite (C1 st_addr). fold status n. fold dwait.
    rewrite log_log.
    destruct (ucode_state_eqb (wait_result status n) UCODE_OK) eqn:W.
    + cbn [negb]. unfold bind at 1.
      destruct (read_xaction_response_spec w base (offset l) (log s1 (dreq ++ dwait)))
        as (s4 & E4 & T4).
      fold rd_addr in E4, T4.
      assert (C4 : rd_count (log s1 (dreq ++ dwait)) rd_addr = rd_count s rd_addr).
      { rewrite <- log_log, rd_count_log, (C1 rd_addr).
        unfold dwait. rewrite count_reads_wait_events.
        fold st_addr.
        assert (Hne : (st_addr =? rd_addr) = false).
        { apply Z.eqb_neq. unfold st_addr, rd_addr, MBOX_STATUS_OFFSET,
            MBOX_RDDATA_OFFSET. lia. }
        rewrite Hne. lia. }
      rewrite C4 in E4, T4. fold word in E4, T4.
      rewrite E4. cbv beta iota. cbn [fst snd].
      assert (OKst : wait_result status n = UCODE_OK).
      { destruct (wait_result status n); [reflexivity|discriminate W..]. }
      rewrite OKst.
      assert (T : trace s4 = trace s ++ d0 ++ dreq ++ dwait ++ response_events s base word).
      { rewrite T4. cbn [trace log]. rewrite T1.
        unfold response_events. cbv zeta.
        rewrite (warn_events_ext s (log s1 _) SITE_resp_hdr),
                (warn_events_ext s (log s1 _) SITE_resp_hdrsize).
        - rewrite <- !app_assoc. reflexivity.
        - rewrite has_fired_log. apply F1. discriminate.
        - rewrite has_fired_log. apply F1. discriminate. }
      exists s4. split; [|exact T].
      destruct (Z.testbit (word 3%nat) 2); cbn [ucode_state_eqb negb]; unfold ret;
        reflexivity.
    + cbn [negb]. unfold ret. eexists. split; [reflexivity|].
      cbn [trace log]. rewrite T1, app_nil_r, <- !app_assoc. reflexivity.
Qed.

End BodyFacts.

(** ** The transfer loop, for any framer and decoder *)

Section LoopFacts.

Variable w : world.
Variable request_xaction : Z -> Z -> Z -> M unit.
Variable read_xaction_response : Z -> Z -> M (ucode_state * Z).
Variables (base ucode_ptr totalsize : Z).

Let body := staging_body w request_xaction read_xaction_response
              base ucode_ptr totalsize.
Let loop := staging_loop w request_xaction read_xaction_response
              base ucode_ptr totalsize.

(** What a pass through the body leaves behind, by the way it ends. *)
Lemma staging_body_cases (l : locals) (s : mstate) :
  let l' := snd (fst (body l s)) in
  match fst (fst (body l s)) with
  | Some ExitCondition => False
  | Some ExitBreak =>
      (exists st, state l' = Some st /\ st <> UCODE_OK) /\
      ((offset l' = offset l /\ xlog l' = xlog l) \/
       (exists x, xlog l' = xlog l ++ [x] /\ ~ xa_ok x))
  | None =>
      state l' = Some UCODE_OK /\ exists x, xlog l' = xlog l ++ [x] /\ xa_ok x
  end.
Proof.
  unfold body, staging_body, bind, ret.
  destruct (get_chunksize totalsize (offset l) s) as [cs s1].
  destruct (u32 (xaction_bytes l + cs) >? MBOX_XACTION_MAX totalsize).
  - cbn. split; [exists UCODE_TIMEOUT; split; [reflexivity|discriminate]|].
    left. split; reflexivity.
  - destruct (request_xaction base (ucode_ptr + offset l) cs s1) as [u s2].
    destruct (wait_for_xaction w base s2) as [st s3].
    destruct st; cbn [ucode_state_eqb negb].
    + destruct (read_xaction_response base (offset l) s3) as [[rst off'] s4].
      destruct rst; cbn.
      * split; [reflexivity|]. eexists. split; [reflexivity|]. split; reflexivity.
      * split; [exists UCODE_ERROR; split; [reflexivity|discriminate]|].
        right. eexists. split; [reflexivity|]. intros [_ H]. discriminate H.
      * split; [exists UCODE_TIMEOUT; split; [reflexivity|discriminate]|].
        right. eexists. split; [reflexivity|]. intros [_ H]. discriminate H.
    + cbn. split; [exists UCODE_ERROR; split; [reflexivity|discriminate]|].
      right. eexists. split; [reflexivity|]. intros [H _]. discriminate H.
    + cbn. split; [exists UCODE_TIMEOUT; split; [reflexivity|discriminate]|].
      right. eexists. split; [reflexivity|]. intros [H _]. discriminate H.
Qed.

Lemma staging_loop_unfold (fuel : nat) (l : locals) (s : mstate) :
  loop fuel l s =
  if offset l =? STAGING_OFFSET_END then (Some ExitCondition, l, s)
  else
    match fuel with
    | O => (None, l, s)
    | S fuel' =>
        match fst (fst (body l s)) with
        | Some e => (Some e, snd (fst (body l s)), snd (body l s))
        | None => loop fuel' (snd (fst (body l s))) (snd (body l s))
        end
    end.
Proof.
  unfold loop, body. destruct fuel as [|fuel]; cbn [staging_loop].
  - destruct (offset l =? STAGING_OFFSET_END); reflexivity.
  - destruct (offset l =? STAGING_OFFSET_END); [reflexivity|].
    unfold bind at 1.
    destruct (staging_body w request_xaction read_xaction_response base
                ucode_ptr totalsize l s) as [[e l'] s'].
    cbn [fst snd]. destruct e; reflexivity.
Qed.

Lemma staging_loop_exit (fuel : nat) (l : locals) (s : mstate) :
  loop_invariant l ->
  let l' := snd (fst (loop fuel l s)) in
  match fst (fst (loop fuel l s)) with
  | Some ExitCondition =>
      offset l' = STAGING_OFFSET_END /\ state l' = Some UCODE_OK /\
      Forall xa_ok (xlog l')
  | Some ExitBreak =>
      (exists st, state l' = Some st /\ st <> UCODE_OK) /\
      (offset l' <> STAGING_OFFSET_END \/ ~ Forall xa_ok (xlog l'))
  | None => True
  end.
Proof.
  revert l s. induction fuel as [|fuel IH]; intros l s [Hlog Hst];
    rewrite staging_loop_unfold;
    destruct (offset l =? STAGING_OFFSET_END) eqn:Hoff.
  - apply Z.eqb_eq in Hoff. cbn. destruct Hst as [Hst|Hst]; [auto|contradiction].
  - exact I.
  - apply Z.eqb_eq in Hoff. cbn. destruct Hst as [Hst|Hst]; [auto|contradiction].
  - apply Z.eqb_neq in Hoff.
    pose proof (staging_body_cases l s) as Hb. cbv zeta in Hb.
    destruct (fst (fst (body l s))) as [[|]|].
    + contradiction.
    + cbn [fst snd]. destruct Hb as [Hs [[Ho Hx]|(x & Hx & Hnx)]].
      * split; [exact Hs|]. left. rewrite Ho. exact Hoff.
      * split; [exact Hs|]. right. rewrite Hx. intros HF.
        apply Forall_app in HF. destruct HF as [_ HF].
        inversion HF. contradiction.
    + destruct Hb as [Hs (x & Hx & Hok)].
      apply IH. split.
      * rewrite Hx. apply Forall_app. split; [exact Hlog|].
        constructor; [exact Hok|constructor].
      * left. exact Hs.
Qed.

End LoopFacts.

(** ** The entry point, for any framer and decoder *)

Section EntryFacts.

Variable w : world.
Variable request_xaction : Z -> Z -> Z -> M unit.
Variable read_xaction_response : Z -> Z -> M (ucode_state * Z).

Let work := staging_work w request_xaction read_xaction_response.
Let loop := staging_loop w request_xaction read_xaction_response.

Lemma staging_work_unmapped (fuel : nat) (mmio_pa ucode_ptr totalsize : Z) (s : mstate) :
  ioremap_ret w mmio_pa (MBOX_REG_NUM * MBOX_REG_SIZE) = 0 ->
  exists s',
    work fuel mmio_pa ucode_ptr totalsize s = (Some false, None, s') /\
    trace s' =
      trace s ++ EvIoremap mmio_pa (MBOX_REG_NUM * MBOX_REG_SIZE)
                 :: once_events s SITE_ioremap.
Proof.
  intros H0. unfold work, staging_work, ioremap.
  unfold bind at 1. unfold bind at 1. unfold emit, ret at 1.
  rewrite H0. cbn [Z.eqb]. unfold bind at 1.
  set (s0 := {| fired := fired s; trace := trace s ++ _ |}).
  destruct (WARN_ON_ONCE_spec SITE_ioremap true s0) as (s' & E & T & _).
  rewrite E. exists s'. split; [reflexivity|].
  rewrite T. unfold s0. cbn [trace warn_events]. rewrite <- app_assoc.
  reflexivity.
Qed.

Lemma staging_work_mapped (fuel : nat) (mmio_pa ucode_ptr totalsize : Z) (s : mstate) :
  let base := ioremap_ret w mmio_pa (MBOX_REG_NUM * MBOX_REG_SIZE) in
  let s1 := log s [EvIoremap mmio_pa (MBOX_REG_NUM * MBOX_REG_SIZE);
                   EvWritel MASK_MBOX_CTRL_ABORT (base + MBOX_CONTROL_OFFSET)] in
  let r := loop base ucode_ptr totalsize fuel initial_locals s1 in
  base <> 0 ->
  work fuel mmio_pa ucode_ptr totalsize s =
  match fst (fst r) with
  | None => (None, None, snd r)
  | Some e =>
      if state_is_ok (snd (fst r))
      then (Some true, Some (e, snd (fst r)), log (snd r) [EvIounmap base])
      else (Some false, Some (e, snd (fst r)),
            log (snd r) [EvIounmap base; EvPrErr (failure_message (snd (fst r)))])
  end.
Proof.
  intros base s1 r Hb. unfold work, staging_work, ioremap.
  unfold bind at 1. unfold bind at 1. unfold emit, ret at 1.
  fold base. apply Z.eqb_neq in Hb. rewrite Hb.
  unfold WARN_ON_ONCE. unfold bind at 1. unfold ret at 1.
  unfold bind at 1. unfold abort_xaction. rewrite writel_eq.
  unfold bind at 1.
  change (log {| fired := fired s; trace := trace s ++ _ |} _)
    with (log (log s [EvIoremap mmio_pa (MBOX_REG_NUM * MBOX_REG_SIZE)])
              [EvWritel MASK_MBOX_CTRL_ABORT (base + MBOX_CONTROL_OFFSET)]).
  rewrite log_log. cbn [app]. fold s1. fold (loop base ucode_ptr totalsize).
  fold r. destruct r as [[e l] s2]. cbn [fst snd].
  destruct e as [e|]; [|reflexivity].
  unfold bind at 1. unfold iounmap, emit.
  destruct (state_is_ok l).
  - reflexivity.
  - unfold bind, pr_err, emit, ret. unfold log. cbn [fired trace].
    rewrite <- app_assoc. reflexivity.
Qed.

Lemma initial_locals_invariant : loop_invariant initial_locals.
Proof.
  split; [constructor|]. right. discriminate.
Qed.

End EntryFacts.

(** C1: [staging_work], with any framer and decoder (those of both
    revisions in particular): when the mapping fails it returns false at
    once, after [ioremap] and its warning and without any register access;
    otherwise it returns true exactly when the loop was left through its
    condition (DONE), which is exactly when every transaction was
    classified OK and the offset cursor holds 0xFFFFFFFF, and it returns
    false exactly when the loop was left by a break (FAILED), whose state is
    then ERROR or TIMEOUT. *)
Theorem staging_work_result (w : world)
    (request_xaction : Z -> Z -> Z -> M unit)
    (read_xaction_response : Z -> Z -> M (ucode_state * Z))
    (fuel : nat) (mmio_pa ucode_ptr totalsize : Z) (s s' : mstate)
    (b : option bool) (fin : option (loop_exit * locals)) :
  staging_work w request_xaction read_xaction_response
    fuel mmio_pa ucode_ptr totalsize s = (b, fin, s') ->
  (ioremap_ret w mmio_pa 16 = 0 ->
     b = Some false /\ fin = None /\
     trace s' = trace s ++ EvIoremap mmio_pa 16 :: once_events s SITE_ioremap /\
     filter is_mmio (EvIoremap mmio_pa 16 :: once_events s SITE_ioremap) = []) /\
  (ioremap_ret w mmio_pa 16 <> 0 ->
     (b = Some true <-> reached_DONE fin) /\
     (reached_DONE fin <->
        exists e l, fin = Some (e, l) /\ Forall xa_ok (xlog l) /\
                    offset l = 0xffffffff) /\
     (b = Some false <-> exists st, reached_FAILED fin st) /\
     (forall st, reached_FAILED fin st -> st = UCODE_ERROR \/ st = UCODE_TIMEOUT) /\
     (b = None <-> fin = None)).
Proof.
  intros E. split.
  - intros H0.
    destruct (staging_work_unmapped w request_xaction read_xaction_response
                fuel mmio_pa ucode_ptr totalsize s H0) as (s0 & E0 & T0).
    rewrite E0 in E. injection E as <- <- <-.
    repeat split; [exact T0|].
    unfold once_events. destruct (has_fired s SITE_ioremap); reflexivity.
  - intros Hb.
    pose proof (staging_work_mapped w request_xaction read_xaction_response
                  fuel mmio_pa ucode_ptr totalsize s Hb) as Em.
    cbv zeta in Em. rewrite Em in E. clear Em.
    match type of E with
    | context [staging_loop ?a ?b ?c ?d ?e ?f ?g ?h ?i] =>
        pose proof (staging_loop_exit a b c d e f g h i
                      initial_locals_invariant) as X;
        cbv zeta in X;
        destruct (staging_loop a b c d e f g h i) as [[e0 l] s2]
    end.
    cbn [fst snd] in E, X.
    unfold reached_DONE, reached_FAILED.
    destruct e0 as [[|]|].
    + (* left through the condition *)
      destruct X as (Ho & Hs & Hx).
      unfold state_is_ok in E. rewrite Hs in E. cbn in E.
      injection E as <- <- <-.
      split; [split; [intros _; eexists; reflexivity|reflexivity]|].
      split; [split; [intros _; exists ExitCondition, l; auto|
                      intros _; eexists; reflexivity]|].
      split; [split; [discriminate|
                      intros (st & l0 & H & _); discriminate H]|].
      split; [intros st (l0 & H & _); discriminate H|].
      split; discriminate.
    + (* left by a break *)
      destruct X as ((st & Hs & Hne) & Hx).
      unfold state_is_ok in E. rewrite Hs in E.
      assert (Hf : ucode_state_eqb st UCODE_OK = false).
      { destruct st; [contradiction Hne|..]; reflexivity. }
      rewrite Hf in E. injection E as <- <- <-.
      split; [split; [discriminate|intros (l0 & H); discriminate H]|].
      split; [split; [intros (l0 & H); discriminate H|]|].
      { intros (e & l0 & H & HF & Ho). injection H as <- <-.
        destruct Hx as [Hx|Hx]; contradiction. }
      split; [split; [intros _; exists st, l; auto|reflexivity]|].
      split; [|split; discriminate].
      intros st' (l0 & H & Hs'). injection H as <-.
      rewrite Hs in Hs'. injection Hs' as <-.
      destruct st; [contradiction Hne|left|right]; reflexivity.
    + (* still running *)
      injection E as <- <- <-.
      split; [split; [discriminate|intros (l0 & H); discriminate H]|].
      split; [split; [intros (l0 & H); discriminate H|
                      intros (e & l0 & H & _); discriminate H]|].
      split; [split; [discriminate|intros (st & l0 & H & _); discriminate H]|].
      split; [intros st (l0 & H & _); discriminate H|].
      split; reflexivity.
Qed.

Lemma staging_work_result_witness :
  reached_DONE
    (snd (fst (Mailbox.staging_work (good_world 8) 5 0xfed00000 0x8000 8 init_state))) /\
  reached_FAILED
    (snd (fst (Skeleton.staging_work (good_world 8) 5 0xfed00000 0x8000 8 init_state)))
    UCODE_ERROR.
Proof.
  split.
  - pose (r := Mailbox.staging_work (good_world 8) 5 0xfed00000 0x8000 8 init_state).
    assert (E : r = (fst (fst r), snd (fst r), snd r)) by (destruct r as [[? ?] ?]; reflexivity).
    destruct (staging_work_result _ _ _ _ _ _ _ _ _ _ _ E) as [_ H].
    destruct H as (H1 & _); [vm_compute; discriminate|].
    apply H1. vm_compute. reflexivity.
  - pose (r := Skeleton.staging_work (good_world 8) 5 0xfed00000 0x8000 8 init_state).
    assert (E : r = (fst (fst r), snd (fst r), snd r)) by (destruct r as [[? ?] ?]; reflexivity).
    destruct (staging_work_result _ _ _ _ _ _ _ _ _ _ _ E) as [_ H].
    destruct H as (_ & _ & H3 & _); [vm_compute; discriminate|].
    destruct H3 as [H3 _]. destruct H3 as (st & l & Hl & Hs); [vm_compute; reflexivity|].
    exists l. split; [exact Hl|].
    fold r in Hl. vm_compute in Hl. injection Hl as <-. reflexivity.
Defined.

(** ** Effects of one pass and of the loop (complete revision) *)

Section PassFacts.

Variable w : world.
Variables (base ucode_ptr totalsize : Z).

Let st_addr := base + MBOX_STATUS_OFFSET.
Let rd_addr := base + MBOX_RDDATA_OFFSET.
Let body := Mailbox.staging_body w base ucode_ptr totalsize.
Let loop := Mailbox.staging_loop w base ucode_ptr totalsize.

Lemma st_rd_distinct : (st_addr =? rd_addr) = false /\ (rd_addr =? st_addr) = false.
Proof.
  unfold st_addr, rd_addr, MBOX_STATUS_OFFSET, MBOX_RDDATA_OFFSET.
  split; apply Z.eqb_neq; lia.
Qed.

Lemma staging_body_effects (l : locals) (s : mstate) :
  let status := dev_read w st_addr in
  let n := rd_count s st_addr in
  let wok := ucode_state_eqb (wait_result status n) UCODE_OK in
  let s' := snd (body l s) in
  rd_count s' st_addr =
    (n + if over_budget totalsize l then 0 else wait_reads status n)%nat /\
  rd_count s' rd_addr =
    (rd_count s rd_addr +
     if over_budget totalsize l then 0 else if wok then 4 else 0)%nat /\
  count_go base (trace s') =
    (count_go base (trace s) + if over_budget totalsize l then 0 else 1)%nat /\
  (acked rd_addr (trace s) = true -> acked rd_addr (trace s') = true).
Proof.
  intros status n wok s'.
  destruct (staging_body_spec w base ucode_ptr totalsize l s) as (s1 & E & T).
  cbv zeta in E, T. fold st_addr rd_addr in E, T. fold status n wok in E, T.
  subst s'. unfold body. rewrite E. cbn [snd].
  destruct st_rd_distinct as [D1 D2].
  split; [|split; [|split]].
  - rewrite (rd_count_extend s s1 _ st_addr T). fold n.
    rewrite count_reads_app, count_reads_warn_events.
    destruct (over_budget totalsize l); [reflexivity|].
    rewrite !count_reads_app, count_reads_request_events, count_reads_wait_events.
    fold st_addr. rewrite Z.eqb_refl.
    destruct wok; [|cbn [count_reads]; lia].
    rewrite count_reads_response_events. fold rd_addr. rewrite D2. lia.
  - rewrite (rd_count_extend s s1 _ rd_addr T).
    rewrite count_reads_app, count_reads_warn_events.
    destruct (over_budget totalsize l); [reflexivity|].
    rewrite !count_reads_app, count_reads_request_events, count_reads_wait_events.
    fold st_addr. rewrite D1.
    destruct wok; [|cbn [count_reads]; lia].
    rewrite count_reads_response_events. fold rd_addr. rewrite Z.eqb_refl. lia.
  - rewrite T, !count_go_app, count_go_warn_events.
    destruct (over_budget totalsize l); [reflexivity|].
    rewrite !count_go_app, count_go_request_events, count_go_wait_events.
    destruct wok; [rewrite count_go_response_events|]; cbn [count_go filter List.length]; lia.
  - intros Ha. rewrite T. apply acked_app; [exact Ha|].
    apply acked_app; [apply acked_no_reads, count_reads_warn_events|].
    destruct (over_budget totalsize l); [reflexivity|].
    apply acked_app; [apply acked_no_reads, count_reads_request_events|].
    apply acked_app.
    + apply acked_no_reads. rewrite count_reads_wait_events.
      fold st_addr. rewrite D1. reflexivity.
    + destruct wok; [apply acked_response_events|reflexivity].
Qed.

Lemma staging_loop_acked (fuel : nat) (l : locals) (s : mstate) :
  acked rd_addr (trace s) = true ->
  acked rd_addr (trace (snd (loop fuel l s))) = true.
Proof.
  revert l s. induction fuel as [|fuel IH]; intros l s Ha;
    unfold loop, Mailbox.staging_loop; rewrite staging_loop_unfold;
    destruct (offset l =? STAGING_OFFSET_END); try exact Ha.
  pose proof (staging_body_effects l s) as (_ & _ & _ & Hb).
  specialize (Hb Ha). unfold body, Mailbox.staging_body in Hb.
  destruct (fst (fst (staging_body w (Mailbox.request_xaction w)
                        (Mailbox.read_xaction_response w) base ucode_ptr totalsize l s))).
  - exact Hb.
  - apply IH. exact Hb.
Qed.

End PassFacts.

Lemma acked_nth (rd : Z) (t : list event) :
  acked rd t = true ->
  forall (i : nat) (v : Z),
    nth_error t i = Some (EvReadl rd v) ->
    nth_error t (S i) = Some (EvWritel 0 rd).
Proof.
  induction t as [|e t IH]; intros Ha i v Hi.
  - destruct i; discriminate Hi.
  - destruct i as [|i].
    + cbn in Hi. injection Hi as ->. cbn [acked] in Ha.
      rewrite Z.eqb_refl in Ha. apply andb_true_iff in Ha. destruct Ha as [Hs _].
      destruct t as [|e' t']; [discriminate Hs|].
      destruct e'; try discriminate Hs. cbn in Hs.
      apply andb_true_iff in Hs. destruct Hs as [Hv Haddr].
      apply Z.eqb_eq in Hv, Haddr. subst. reflexivity.
    + cbn [nth_error] in Hi |- *. apply (IH) with (v := v); [|exact Hi].
      destruct e; cbn [acked] in Ha; try exact Ha.
      apply andb_true_iff in Ha. apply Ha.
Qed.

(** C9: in every run of [staging_work] of the complete revision, finished
    or still in its loop, every read of the read-data port (offset 0xc of
    the mapped window) is directly followed in the trace by a write of zero
    to that port, given that this held of the trace before the call. *)
Theorem rddata_reads_acknowledged (w : world) (fuel : nat)
    (mmio_pa ucode_ptr totalsize : Z) (s : mstate) :
  let rd := ioremap_ret w mmio_pa 16 + 0xc in
  let t := trace (snd (Mailbox.staging_work w fuel mmio_pa ucode_ptr totalsize s)) in
  acked rd (trace s) = true ->
  acked rd t = true /\
  forall (i : nat) (v : Z),
    nth_error t i = Some (EvReadl rd v) ->
    nth_error t (S i) = Some (EvWritel 0 rd).
Proof.
  intros rd t Ha.
  assert (H : acked rd t = true); [|split; [exact H|apply acked_nth; exact H]].
  subst t. unfold Mailbox.staging_work.
  destruct (Z.eq_dec (ioremap_ret w mmio_pa (MBOX_REG_NUM * MBOX_REG_SIZE)) 0)
    as [H0|H0].
  - destruct (staging_work_unmapped w (Mailbox.request_xaction w)
                (Mailbox.read_xaction_response w) fuel mmio_pa ucode_ptr
                totalsize s H0) as (s0 & E0 & T0).
    rewrite E0. cbn [snd]. rewrite T0.
    apply acked_app; [exact Ha|].
    cbn [acked]. apply acked_no_reads, count_reads_once_events.
  - rewrite (staging_work_mapped w (Mailbox.request_xaction w)
               (Mailbox.read_xaction_response w) fuel mmio_pa ucode_ptr
               totalsize s H0).
    match goal with
    | |- context [staging_loop ?a ?b ?c ?d ?e ?f ?g ?h ?i] =>
        pose proof (staging_loop_acked a d e f g h i) as X;
        unfold Mailbox.staging_loop in X;
        destruct (staging_loop a b c d e f g h i) as [[e0 l] s2]
    end.
    cbn [fst snd] in X |- *.
    assert (Hs2 : acked rd (trace s2) = true).
    { apply X. cbn [trace log]. apply acked_app; [exact Ha|reflexivity]. }
    destruct e0 as [e0|]; [|exact Hs2].
    destruct (state_is_ok l); cbn [snd trace log];
      (apply acked_app; [exact Hs2|reflexivity]).
Qed.

Lemma rddata_reads_acknowledged_witness :
  acked 0x100c
    (trace (snd (Mailbox.staging_work (good_world 8) 5 0xfed00000 0x8000 8 init_state)))
  = true.
Proof.
  apply (rddata_reads_acknowledged (good_world 8) 5 0xfed00000 0x8000 8 init_state).
  reflexivity.
Defined.

(** ** Timeout of the completion wait *)

Lemma wait_result_never_ready (status : nat -> Z) (n : nat) :
  (forall i, (i <= Z.to_nat 10000)%nat ->
             Z.testbit (u32 (status (n + i)%nat)) 31 = false) ->
  Z.testbit (u32 (status (n + Z.to_nat 10000)%nat)) 2 = false ->
  wait_result status n = UCODE_TIMEOUT.
Proof.
  intros Hr He. unfold wait_result.
  change (Z.to_nat MBOX_XACTION_TIMEOUT) with (Z.to_nat 10000).
  rewrite polls_used_never_ready by (intros i Hi; apply Hr; lia).
  unfold classify_status. rewrite He, (Hr (Z.to_nat 10000)) by lia.
  reflexivity.
Qed.

Lemma wait_result_late (status : nat -> Z) (n : nat) :
  (forall i, (i < Z.to_nat 10000)%nat ->
             Z.testbit (u32 (status (n + i)%nat)) 31 = false) ->
  wait_result status n = classify_status (u32 (status (n + Z.to_nat 10000)%nat)).
Proof.
  intros Hr. unfold wait_result.
  change (Z.to_nat MBOX_XACTION_TIMEOUT) with (Z.to_nat 10000).
  rewrite polls_used_never_ready by exact Hr. reflexivity.
Qed.

(** C5, as stated, fails: with the ready bit clear on all 10000 polls and
    the error bit never set, the wait returns OK when the status read after
    the polls shows the ready bit; and with the ready bit never set at all
    it returns ERROR when that read shows the error bit. *)
Lemma wait_timeout_claim_fails :
  ((forall i, (i < Z.to_nat 10000)%nat ->
      Z.testbit (u32 (dev_read late_ready_world (0x1000 + 0x4) i)) 31 = false) /\
   (forall i, Z.testbit (u32 (dev_read late_ready_world (0x1000 + 0x4) i)) 2 = false) /\
   fst (wait_for_xaction late_ready_world 0x1000 init_state) = UCODE_OK) /\
  ((forall i, Z.testbit (u32 (dev_read error_world (0x1000 + 0x4) i)) 31 = false) /\
   fst (wait_for_xaction error_world 0x1000 init_state) = UCODE_ERROR).
Proof.
  assert (L : forall i, (i < Z.to_nat 10000)%nat ->
      Z.testbit (u32 (dev_read late_ready_world (0x1000 + 0x4) i)) 31 = false).
  { intros i Hi. cbn [dev_read late_ready_world].
    change (0x1000 + 0x4 =? 0x1000 + MBOX_STATUS_OFFSET) with true. cbv iota.
    replace (Z.of_nat i <? 10000) with true by (symmetry; apply Z.ltb_lt; lia).
    reflexivity. }
  split; [split; [exact L|split]|split].
  - intros i. cbn [dev_read late_ready_world].
    change (0x1000 + 0x4 =? 0x1000 + MBOX_STATUS_OFFSET) with true. cbv iota.
    destruct (Z.of_nat i <? 10000); reflexivity.
  - rewrite wait_for_xaction_eq. cbn [fst].
    change (rd_count init_state (0x1000 + MBOX_STATUS_OFFSET)) with O.
    rewrite wait_result_late by exact L.
    cbn [dev_read late_ready_world].
    change (0x1000 + MBOX_STATUS_OFFSET =? 0x1000 + MBOX_STATUS_OFFSET) with true.
    cbv iota.
    replace (Z.of_nat (0 + Z.to_nat 10000) <? 10000) with false
      by (symmetry; apply Z.ltb_ge; lia).
    reflexivity.
  - intros i. reflexivity.
  - rewrite wait_for_xaction_eq. cbn [fst].
    change (rd_count init_state (0x1000 + MBOX_STATUS_OFFSET)) with O.
    rewrite wait_result_late by (intros i _; reflexivity).
    reflexivity.
Qed.

(** C5, amended: when the ready bit is clear on the 10000 polls and on
    the status read after them, and the error bit is clear on that last
    read, [wait_for_xaction] returns TIMEOUT; a pass of the transfer loop
    that starts in such a state leaves the loop by a break with state
    TIMEOUT, reported as a timeout; and [staging_work] whose first wait
    is such returns false. *)
Theorem wait_times_out (w : world) (base ucode_ptr totalsize : Z) (fuel : nat)
    (l : locals) (s : mstate) :
  let status := dev_read w (base + 0x4) in
  let n := rd_count s (base + 0x4) in
  (forall i, (i <= Z.to_nat 10000)%nat ->
             Z.testbit (u32 (status (n + i)%nat)) 31 = false) ->
  Z.testbit (u32 (status (n + Z.to_nat 10000)%nat)) 2 = false ->
  fst (wait_for_xaction w base s) = UCODE_TIMEOUT /\
  (offset l <> 0xffffffff ->
   let r := Mailbox.staging_loop w base ucode_ptr totalsize (S fuel) l s in
   fst (fst r) = Some ExitBreak /\
   state (snd (fst r)) = Some UCODE_TIMEOUT /\
   failure_message (snd (fst r)) = "microcode: Staging failed with timeout."%string) /\
  (forall mmio_pa, ioremap_ret w mmio_pa 16 = base -> base <> 0 ->
   fst (fst (Mailbox.staging_work w (S fuel) mmio_pa ucode_ptr totalsize s))
     = Some false).
Proof.
  intros status n Hr He.
  pose proof (wait_result_never_ready status n Hr He) as Hw.
  assert (Hloop : forall l0 s0,
            rd_count s0 (base + 0x4) = n -> offset l0 <> 0xffffffff ->
            let r := Mailbox.staging_loop w base ucode_ptr totalsize (S fuel) l0 s0 in
            fst (fst r) = Some ExitBreak /\
            state (snd (fst r)) = Some UCODE_TIMEOUT).
  { intros l0 s0 Hn Hoff r. subst r.
    unfold Mailbox.staging_loop. rewrite staging_loop_unfold.
    apply Z.eqb_neq in Hoff. change STAGING_OFFSET_END with 0xffffffff.
    rewrite Hoff.
    destruct (staging_body_spec w base ucode_ptr totalsize l0 s0) as (s' & E & _).
    cbv zeta in E. unfold Mailbox.staging_body in E.
    change (base + MBOX_STATUS_OFFSET) with (base + 0x4) in E.
    rewrite Hn in E. fold status in E. rewrite Hw in E.
    cbn [ucode_state_eqb] in E. rewrite E. cbn [fst snd].
    destruct (over_budget totalsize l0); cbn [fst snd]; split; reflexivity. }
  split; [|split].
  - rewrite wait_for_xaction_eq. exact Hw.
  - intros Hoff r. destruct (Hloop l s eq_refl Hoff) as [H1 H2].
    fold r in H1, H2. split; [exact H1|]. split; [exact H2|].
    unfold failure_message. rewrite H2. reflexivity.
  - intros mmio_pa Hmap Hb.
    unfold Mailbox.staging_work.
    rewrite staging_work_mapped
      by (change (MBOX_REG_NUM * MBOX_REG_SIZE) with 16; rewrite Hmap; exact Hb).
    change (MBOX_REG_NUM * MBOX_REG_SIZE) with 16. rewrite Hmap.
    match goal with
    | |- context [staging_loop _ _ _ _ _ _ _ ?l0 ?s0] =>
        destruct (Hloop l0 s0) as [H1 H2]
    end.
    + rewrite rd_count_log. fold n. cbn [count_reads]. lia.
    + discriminate.
    + unfold Mailbox.staging_loop in H1, H2. rewrite H1.
      unfold state_is_ok. rewrite H2. reflexivity.
Qed.

Lemma wait_times_out_witness :
  fst (wait_for_xaction (good_world 8) 0x2000 init_state) = UCODE_TIMEOUT.
Proof.
  apply (wait_times_out (good_world 8) 0x2000 0x8000 8 0 initial_locals init_state).
  - intros i _. reflexivity.
  - reflexivity.
Defined.

(** ** A next-offset beyond the payload *)

(** C10, as stated, fails twice.  A next-offset of 0xfffffffc for a payload
    of 8 bytes is above the payload size and is not the sentinel, yet the
    wrapped difference is 12 and so is the chunk size, not one page.  And
    with a payload of 16 bytes and a first response reporting offset 17 the
    chunk size is one page, but the budget test ends the loop with TIMEOUT
    before any further request: the only go strobe of the run is that of
    the first chunk. *)
Lemma wrapped_chunk_claim_fails :
  (8 < 0xfffffffc /\ 0xfffffffc <> STAGING_OFFSET_END /\
   fst (get_chunksize 8 0xfffffffc init_state) = 12 /\
   12 <> MBOX_XACTION_LEN) /\
  (let r := Mailbox.staging_work (replying_world (fun _ => 17)) 5
              0xfed00000 0x8000 16 init_state in
   fst (get_chunksize 16 17 init_state) = MBOX_XACTION_LEN /\
   fst r = (Some false,
            Some (ExitBreak,
                  {| xaction_bytes := 16; offset := 17;
                     state := Some UCODE_TIMEOUT;
                     xlog := [mkXaction 0 16 UCODE_OK (Some UCODE_OK)] |})) /\
   count_go 0x1000 (trace (snd r)) = 1%nat).
Proof.
  split; [split; [reflexivity|split; [discriminate|split; [reflexivity|discriminate]]]|].
  cbv zeta. split; [reflexivity|]. split; vm_compute; reflexivity.
Qed.

(** C10, amended: when the offset cursor is above the payload size and
    below the sentinel, [get_chunksize] warns (once) and returns
    min(PAGE_SIZE, 2^32 + totalsize - offset), which is never zero and is
    the full page exactly when offset - totalsize <= 2^32 - 4096; if the
    budget test admits that chunk, the pass frames it from
    [ucode_ptr + offset], beyond the end of the payload; otherwise the
    pass ends the loop with TIMEOUT and frames nothing. *)
Theorem wrapped_chunk (w : world) (base ucode_ptr totalsize : Z)
    (l : locals) (s : mstate) :
  0 <= totalsize -> totalsize < offset l -> offset l < 0xffffffff ->
  let cs := Z.min 4096 (2 ^ 32 + totalsize - offset l) in
  let r := Mailbox.staging_body w base ucode_ptr totalsize l s in
  fst (get_chunksize totalsize (offset l) s) = cs /\
  trace (snd (get_chunksize totalsize (offset l) s))
    = trace s ++ once_events s SITE_chunksize /\
  0 < cs <= 4096 /\
  (cs = 4096 <-> offset l - totalsize <= 2 ^ 32 - 4096) /\
  (u32 (xaction_bytes l + cs) <= u32 (totalsize * 2) ->
   exists rest,
     trace (snd r) =
       trace s ++ once_events s SITE_chunksize
       ++ [EvWritel MBOX_HDR (base + 0x8);
           EvWritel (cs / 4 + 4) (base + 0x8);
           EvWritel 0x3 (base + 0x8);
           EvWritel 0 (base + 0x8)]
       ++ map (fun i => EvWritel (load32 w (ucode_ptr + offset l + 4 * Z.of_nat i))
                                 (base + 0x8))
              (seq 0 (Z.to_nat (cs / 4)))
       ++ EvWritel (2 ^ 31) (base + 0x0) :: rest) /\
  (u32 (totalsize * 2) < u32 (xaction_bytes l + cs) ->
   fst r = (Some ExitBreak, locals_over_budget l) /\
   trace (snd r) = trace s ++ once_events s SITE_chunksize).
Proof.
  intros H0 H1 H2 cs r.
  assert (Hcs : chunk_of totalsize (offset l) = cs).
  { unfold chunk_of. rewrite u32_wrapped_difference by lia. reflexivity. }
  assert (Hw : warn_events s SITE_chunksize (totalsize <? offset l)
               = once_events s SITE_chunksize).
  { unfold warn_events. replace (totalsize <? offset l) with true; [reflexivity|].
    symmetry. apply Z.ltb_lt. exact H1. }
  assert (Hb : 0 < cs <= 4096) by (unfold cs; lia).
  destruct (get_chunksize_spec totalsize (offset l) s) as (s1 & E1 & T1 & _).
  rewrite E1. cbn [fst snd]. fold (chunk_of totalsize (offset l)).
  rewrite T1, Hw.
  split; [exact Hcs|]. split; [reflexivity|]. split; [exact Hb|].
  split; [unfold cs; lia|].
  destruct (staging_body_spec w base ucode_ptr totalsize l s) as (s' & E & T).
  cbv zeta in E, T. fold r in E. rewrite Hw, Hcs in T.
  unfold over_budget, MBOX_XACTION_MAX in E, T. rewrite Hcs in E, T.
  split.
  - intros Hle.
    replace (u32 (xaction_bytes l + cs) >? u32 (totalsize * 2)) with false in T
      by (symmetry; rewrite Z.gtb_ltb; apply Z.ltb_ge; exact Hle).
    rewrite E. cbn [snd]. rewrite T.
    unfold request_events. rewrite payload_events_map.
    rewrite (u32_small (cs / 4 + 4)).
    + eexists. rewrite <- !app_assoc. cbn [app].
      rewrite (map_ext
                 (fun j => EvWritel (load32 w (ucode_ptr + offset l + 4 * (0 + Z.of_nat j)))
                                    (base + MBOX_WRDATA_OFFSET))
                 (fun i => EvWritel (load32 w (ucode_ptr + offset l + 4 * Z.of_nat i))
                                    (base + 0x8)))
        by (intros i; rewrite Z.add_0_l; reflexivity).
      reflexivity.
    + assert (0 <= cs / 4 <= 1024).
      { split; [apply Z.div_pos; lia|apply Z.div_le_upper_bound; lia]. }
      lia.
  - intros Hgt.
    replace (u32 (xaction_bytes l + cs) >? u32 (totalsize * 2)) with true in E, T
      by (symmetry; rewrite Z.gtb_ltb; apply Z.ltb_lt; exact Hgt).
    rewrite E. cbn [fst snd]. split; [reflexivity|].
    rewrite T, app_nil_r. reflexivity.
Qed.

Lemma wrapped_chunk_witness :
  fst (get_chunksize 16 17 init_state) = 4096.
Proof.
  apply (wrapped_chunk (good_world 16) 0x1000 0x8000 16
           {| xaction_bytes := 16; offset := 17; state := Some UCODE_OK; xlog := [] |}
           init_state); cbn [offset]; lia.
Defined.

(** ** Passes that succeed *)

Lemma polls_used_ready_first (status : nat -> Z) (budget n : nat) :
  (0 < budget)%nat ->
  Z.testbit (u32 (status n)) 31 = true ->
  polls_used status budget n = 1%nat.
Proof.
  intros Hb H. destruct budget as [|b]; [lia|]. apply polls_used_ready_now. exact H.
Qed.

Section SuccessfulPass.

Variable w : world.
Variables (base ucode_ptr totalsize : Z).

Let st_addr := base + MBOX_STATUS_OFFSET.
Let rd_addr := base + MBOX_RDDATA_OFFSET.
Let body := Mailbox.staging_body w base ucode_ptr totalsize.
Let loop := Mailbox.staging_loop w base ucode_ptr totalsize.

Lemma staging_body_continues (l : locals) (s : mstate) :
  over_budget totalsize l = false ->
  wait_result (dev_read w st_addr) (rd_count s st_addr) = UCODE_OK ->
  Z.testbit (resp_word w base (rd_count s rd_addr) 3) 2 = false ->
  exists s',
    body l s =
      (None,
       locals_responded totalsize l UCODE_OK (resp_word w base (rd_count s rd_addr) 2),
       s') /\
    rd_count s' st_addr =
      (rd_count s st_addr + wait_reads (dev_read w st_addr) (rd_count s st_addr))%nat /\
    rd_count s' rd_addr = (rd_count s rd_addr + 4)%nat /\
    count_go base (trace s') = (count_go base (trace s) + 1)%nat.
Proof.
  intros Hb Hw Hf.
  destruct (staging_body_spec w base ucode_ptr totalsize l s) as (s' & E & _).
  pose proof (staging_body_effects w base ucode_ptr totalsize l s) as X.
  cbv zeta in E, X. fold st_addr rd_addr in E, X. fold body in E, X.
  rewrite Hb, Hw in E, X. cbn [ucode_state_eqb] in E, X. rewrite Hf in E.
  rewrite E in X. cbn [snd] in X. destruct X as (X1 & X2 & X3 & _).
  exists s'. auto.
Qed.

(** One more pass of a loop that is not at the sentinel. *)
Lemma staging_loop_step (fuel : nat) (l l' : locals) (s s' : mstate) :
  offset l <> STAGING_OFFSET_END ->
  body l s = (None, l', s') ->
  loop (S fuel) l s = loop fuel l' s'.
Proof.
  intros Ho E. unfold loop, Mailbox.staging_loop.
  rewrite staging_loop_unfold. apply Z.eqb_neq in Ho. rewrite Ho.
  unfold body, Mailbox.staging_body in E. rewrite E. reflexivity.
Qed.

Lemma staging_loop_out_of_fuel (l : locals) (s : mstate) :
  offset l <> STAGING_OFFSET_END -> loop O l s = (None, l, s).
Proof.
  intros Ho. unfold loop, Mailbox.staging_loop. rewrite staging_loop_unfold.
  apply Z.eqb_neq in Ho. rewrite Ho. reflexivity.
Qed.

Lemma staging_loop_at_sentinel (fuel : nat) (l : locals) (s : mstate) :
  offset l = STAGING_OFFSET_END -> loop fuel l s = (Some ExitCondition, l, s).
Proof.
  intros Ho. unfold loop, Mailbox.staging_loop. rewrite staging_loop_unfold.
  rewrite Ho. reflexivity.
Qed.

(** Facts about a device that is ready at once and replies well-formed
    responses. *)
Section ReplyingDevice.

Variable offsets : nat -> Z.
Hypothesis Hdev : forall a k, dev_read w a k = replying_device base offsets a k.

Lemma replying_status (k : nat) : dev_read w st_addr k = MASK_MBOX_STATUS_READY.
Proof. rewrite Hdev. unfold replying_device. fold st_addr. rewrite Z.eqb_refl. reflexivity. Qed.

Lemma replying_wait_result (n : nat) : wait_result (dev_read w st_addr) n = UCODE_OK.
Proof.
  unfold wait_result. rewrite replying_status. reflexivity.
Qed.

Lemma replying_wait_reads (n : nat) : wait_reads (dev_read w st_addr) n = 2%nat.
Proof.
  unfold wait_reads. rewrite polls_used_ready_first; [reflexivity| |].
  - change MBOX_XACTION_TIMEOUT with 10000. lia.
  - rewrite replying_status. reflexivity.
Qed.

Lemma replying_rddata (k : nat) :
  dev_read w rd_addr k =
  match Nat.modulo k 4 with
  | 0%nat => MBOX_HDR
  | 1%nat => 4
  | 2%nat => offsets (Nat.div k 4)
  | _ => MASK_MBOX_RESP_SUCCESS
  end.
Proof.
  rewrite Hdev. unfold replying_device. fold st_addr rd_addr.
  destruct (st_rd_distinct base) as [_ D]. fold st_addr rd_addr in D.
  rewrite D, Z.eqb_refl. reflexivity.
Qed.

Lemma replying_offset_word (j : nat) :
  resp_word w base (4 * j) 2 = u32 (offsets j).
Proof.
  unfold resp_word. fold rd_addr. rewrite replying_rddata.
  replace (Nat.modulo (4 * j + 2) 4) with 2%nat
    by (symmetry; rewrite Nat.add_comm, Nat.mul_comm, Nat.Div0.mod_add; reflexivity).
  replace (Nat.div (4 * j + 2) 4) with j
    by (symmetry; rewrite Nat.add_comm, Nat.mul_comm, Nat.div_add by lia; reflexivity).
  reflexivity.
Qed.

Lemma replying_flag_word (j : nat) :
  Z.testbit (resp_word w base (4 * j) 3) 2 = false.
Proof.
  unfold resp_word. fold rd_addr. rewrite replying_rddata.
  replace (Nat.modulo (4 * j + 3) 4) with 3%nat
    by (symmetry; rewrite Nat.add_comm, Nat.mul_comm, Nat.Div0.mod_add; reflexivity).
  reflexivity.
Qed.

(** A pass against the replying device whose chunk is within the budget. *)
Lemma replying_pass (l : locals) (s : mstate) (j : nat) :
  rd_count s rd_addr = (4 * j)%nat ->
  over_budget totalsize l = false ->
  exists s',
    body l s = (None, locals_responded totalsize l UCODE_OK (u32 (offsets j)), s') /\
    rd_count s' rd_addr = (4 * S j)%nat /\
    count_go base (trace s') = (count_go base (trace s) + 1)%nat.
Proof.
  intros Hr Hb.
  destruct (staging_body_continues l s Hb) as (s' & E & _ & R & G).
  - apply replying_wait_result.
  - rewrite Hr. apply replying_flag_word.
  - exists s'. rewrite Hr, replying_offset_word in E.
    split; [exact E|]. split; [rewrite R, Hr; lia|exact G].
Qed.

End ReplyingDevice.

End SuccessfulPass.

(** The entry point in terms of its loop, once the window is mapped. *)
Lemma staging_work_running (w : world) (fuel : nat) (mmio_pa ucode_ptr totalsize : Z)
    (s s' : mstate) (l : locals) :
  let base := ioremap_ret w mmio_pa 16 in
  base <> 0 ->
  Mailbox.staging_loop w base ucode_ptr totalsize fuel initial_locals
    (log s [EvIoremap mmio_pa 16; EvWritel MASK_MBOX_CTRL_ABORT (base + MBOX_CONTROL_OFFSET)])
    = (None, l, s') ->
  Mailbox.staging_work w fuel mmio_pa ucode_ptr totalsize s = (None, None, s').
Proof.
  intros base Hb E. unfold Mailbox.staging_work.
  rewrite staging_work_mapped by exact Hb.
  change (MBOX_REG_NUM * MBOX_REG_SIZE) with 16. fold base.
  unfold Mailbox.staging_loop in E. rewrite E. reflexivity.
Qed.

Lemma staging_work_done (w : world) (fuel : nat) (mmio_pa ucode_ptr totalsize : Z)
    (s s' : mstate) (l : locals) :
  let base := ioremap_ret w mmio_pa 16 in
  base <> 0 ->
  Mailbox.staging_loop w base ucode_ptr totalsize fuel initial_locals
    (log s [EvIoremap mmio_pa 16; EvWritel MASK_MBOX_CTRL_ABORT (base + MBOX_CONTROL_OFFSET)])
    = (Some ExitCondition, l, s') ->
  state l = Some UCODE_OK ->
  Mailbox.staging_work w fuel mmio_pa ucode_ptr totalsize s =
    (Some true, Some (ExitCondition, l), log s' [EvIounmap base]).
Proof.
  intros base Hb E Hs. unfold Mailbox.staging_work.
  rewrite staging_work_mapped by exact Hb.
  change (MBOX_REG_NUM * MBOX_REG_SIZE) with 16. fold base.
  unfold Mailbox.staging_loop in E. rewrite E. cbn [fst snd].
  unfold state_is_ok. rewrite Hs. reflexivity.
Qed.

(** ** A device that reports the payload size as next offset *)

Section StuckDevice.

Variable w : world.
Variables (base ucode_ptr totalsize : Z).
Hypothesis Hdev :
  forall a k, dev_read w a k = replying_device base (fun _ => totalsize) a k.
Hypothesis Hsize : 0 <= totalsize < 2 ^ 31.

Let rd_addr := base + MBOX_RDDATA_OFFSET.

(** The loop makes pass after pass, each framing a request, and is never
    left. *)
Lemma stuck_loop (fuel : nat) :
  forall (l : locals) (s : mstate) (j : nat),
    rd_count s rd_addr = (4 * j)%nat ->
    (offset l = 0 /\ xaction_bytes l = 0) \/
    (offset l = totalsize /\ 0 <= xaction_bytes l <= totalsize) ->
    exists l' s',
      Mailbox.staging_loop w base ucode_ptr totalsize fuel l s = (None, l', s') /\
      List.length (xlog l') = (List.length (xlog l) + fuel)%nat /\
      count_go base (trace s') = (count_go base (trace s) + fuel)%nat.
Proof.
  induction fuel as [|fuel IH]; intros l s j Hr Hl.
  - exists l, s. split; [|split; lia].
    apply staging_loop_out_of_fuel.
    change STAGING_OFFSET_END with 0xffffffff. destruct Hl as [[-> _]|[-> _]]; lia.
  - assert (Hb : over_budget totalsize l = false).
    { unfold over_budget, chunk_of, MBOX_XACTION_MAX, PAGE_SIZE.
      rewrite Z.gtb_ltb. apply Z.ltb_ge.
      rewrite (u32_small (totalsize * 2)) by lia.
      destruct Hl as [[-> ->]|[-> Hx]].
      + rewrite Z.sub_0_r, (u32_small totalsize) by lia.
        rewrite u32_small by lia. lia.
      + rewrite Z.sub_diag. change (u32 0) with 0.
        rewrite u32_small by lia. lia. }
    destruct (replying_pass w base ucode_ptr totalsize _ Hdev l s j Hr Hb)
      as (s1 & E1 & R1 & G1).
    rewrite (u32_small totalsize) in E1 by lia.
    rewrite (staging_loop_step w base ucode_ptr totalsize fuel l
               (locals_responded totalsize l UCODE_OK totalsize) s s1);
      [|change STAGING_OFFSET_END with 0xffffffff;
        destruct Hl as [[-> _]|[-> _]]; lia|exact E1].
    destruct (IH (locals_responded totalsize l UCODE_OK totalsize) s1 (S j) R1)
      as (l' & s' & E & L & G).
    + right. cbn [offset xaction_bytes locals_responded]. split; [reflexivity|].
      unfold chunk_of, PAGE_SIZE.
      destruct Hl as [[-> ->]|[-> Hx]].
      * rewrite Z.sub_0_r, (u32_small totalsize) by lia.
        rewrite u32_small by lia. lia.
      * rewrite Z.sub_diag. change (u32 0) with 0.
        rewrite u32_small by lia. lia.
    + exists l', s'. split; [exact E|].
      cbn [xlog locals_responded] in L. rewrite length_app in L. cbn [List.length] in L.
      split; lia.
Qed.

End StuckDevice.

(** C3 fails on the code: for every payload size below 2^31, against a
    device that is always ready and answers every transaction with a
    well-formed, error-free response whose next offset is the payload size
    instead of the sentinel, the loop of [staging_work] is still running
    after any number of passes, each of which frames and starts a request:
    from the second pass on the chunk size is zero, so the byte budget is
    never used up. *)
Theorem loop_never_ends (totalsize : Z) (fuel : nat) :
  0 <= totalsize < 2 ^ 31 ->
  let w := replying_world (fun _ => totalsize) in
  let r := Mailbox.staging_work w fuel 0xfed00000 0x8000 totalsize init_state in
  fst r = (None, None) /\
  count_go 0x1000 (trace (snd r)) = fuel /\
  exists l,
    fst (Mailbox.staging_loop w 0x1000 0x8000 totalsize fuel initial_locals
           (log init_state [EvIoremap 0xfed00000 16; EvWritel 1 0x1000]))
      = (None, l) /\
    List.length (xlog l) = fuel.
Proof.
  intros HS w r.
  destruct (stuck_loop w 0x1000 0x8000 totalsize (fun a k => eq_refl) HS fuel
              initial_locals
              (log init_state [EvIoremap 0xfed00000 16; EvWritel 1 0x1000]) O)
    as (l & s' & E & L & G).
  - reflexivity.
  - left. split; reflexivity.
  - subst r.
    rewrite (staging_work_running w fuel 0xfed00000 0x8000 totalsize init_state s' l);
      [|discriminate|exact E].
    cbn [fst snd]. split; [reflexivity|]. split.
    + rewrite G. reflexivity.
    + exists l. rewrite E. split; [reflexivity|exact L].
Qed.

Lemma loop_never_ends_witness :
  fst (Mailbox.staging_work (replying_world (fun _ => 4096)) 3
         0xfed00000 0x8000 4096 init_state) = (None, None).
Proof.
  apply (loop_never_ends 4096 3). lia.
Defined.

(** ** The byte budget *)

Lemma bytes_transacted_app (xs ys : list xaction) :
  bytes_transacted (xs ++ ys) = bytes_transacted xs + bytes_transacted ys.
Proof.
  induction xs as [|x xs IH]; cbn [bytes_transacted app]; [lia|]. rewrite IH. lia.
Qed.

Lemma bytes_sent_app (xs ys : list xaction) :
  bytes_sent (xs ++ ys) = bytes_sent xs + bytes_sent ys.
Proof.
  induction xs as [|x xs IH]; cbn [bytes_sent app]; [lia|]. rewrite IH. lia.
Qed.

Lemma u32_add_l (a b : Z) : u32 (u32 a + b) = u32 (a + b).
Proof. unfold u32. apply Z.add_mod_idemp_l. lia. Qed.

Lemma u32_page_multiple (q : Z) :
  exists q', 0 <= q' < 2 ^ 20 /\ u32 (4096 * q) = 4096 * q'.
Proof.
  exists (q mod 2 ^ 20). split; [apply Z.mod_pos_bound; lia|].
  unfold u32. change (2 ^ 32) with (4096 * 2 ^ 20).
  apply Z.mul_mod_distr_l; lia.
Qed.

Section WrappingBudget.

Variable w : world.
Variables (base ucode_ptr : Z).
Hypothesis Hdev : forall a k, dev_read w a k = replying_device base (fun _ => 0) a k.

Let rd_addr := base + MBOX_RDDATA_OFFSET.

(** With a payload of 0x7fffffff bytes and a device that asks for offset
    0 again and again, every pass sends a full page; the 32-bit sum wraps
    before it can exceed the budget of 0xfffffffe. *)
Lemma wrapping_loop (fuel : nat) :
  forall (l : locals) (s : mstate) (j : nat) (q : Z),
    rd_count s rd_addr = (4 * j)%nat ->
    offset l = 0 ->
    xaction_bytes l = u32 (4096 * q) ->
    Forall xa_ok (xlog l) ->
    exists l' s',
      Mailbox.staging_loop w base ucode_ptr 0x7fffffff fuel l s = (None, l', s') /\
      Forall xa_ok (xlog l') /\
      bytes_transacted (xlog l') = bytes_transacted (xlog l) + 4096 * Z.of_nat fuel /\
      xaction_bytes l' = u32 (4096 * (q + Z.of_nat fuel)) /\
      count_go base (trace s') = (count_go base (trace s) + fuel)%nat.
Proof.
  induction fuel as [|fuel IH]; intros l s j q Hr Ho Hx Hok.
  - exists l, s. split; [apply staging_loop_out_of_fuel; rewrite Ho; discriminate|].
    split; [exact Hok|]. split; [lia|]. split; [|lia].
    rewrite Hx. f_equal. lia.
  - assert (Hc : chunk_of 0x7fffffff (offset l) = 4096) by (rewrite Ho; reflexivity).
    assert (Hn : u32 (xaction_bytes l + 4096) = u32 (4096 * (q + 1))).
    { rewrite Hx, u32_add_l. f_equal. lia. }
    assert (Hb : over_budget 0x7fffffff l = false).
    { unfold over_budget. rewrite Hc, Hn.
      change (MBOX_XACTION_MAX 0x7fffffff) with 0xfffffffe.
      rewrite Z.gtb_ltb. apply Z.ltb_ge.
      destruct (u32_page_multiple (q + 1)) as (q' & Hq & ->). lia. }
    destruct (replying_pass w base ucode_ptr 0x7fffffff _ Hdev l s j Hr Hb)
      as (s1 & E1 & R1 & G1).
    change (u32 0) with 0 in E1.
    rewrite (staging_loop_step w base ucode_ptr 0x7fffffff fuel l
               (locals_responded 0x7fffffff l UCODE_OK 0) s s1);
      [|rewrite Ho; discriminate|exact E1].
    destruct (IH (locals_responded 0x7fffffff l UCODE_OK 0) s1 (S j) (q + 1) R1)
      as (l' & s' & E & F & B & X & G).
    + reflexivity.
    + cbn [xaction_bytes locals_responded]. rewrite Hc. exact Hn.
    + cbn [xlog locals_responded]. apply Forall_app. split; [exact Hok|].
      constructor; [split; reflexivity|constructor].
    + exists l', s'. split; [exact E|]. split; [exact F|].
      cbn [xlog locals_responded] in B. rewrite bytes_transacted_app, Hc in B.
      cbn [bytes_transacted xa_wait xa_chunksize] in B.
      split; [lia|]. split; [|lia].
      rewrite X. f_equal. lia.
Qed.

End WrappingBudget.

(** C2 fails on the code for payload sizes within 2048 bytes of 2^31: with
    a payload of 0x7fffffff bytes (budget 0xfffffffe) and a device that is
    always ready and asks for offset 0 every time, every transaction is
    classified OK and carries a full page, and the loop is still running
    after any number of passes.  After 2^20 passes the bytes transacted are
    2^32, above twice the payload size, the 32-bit counter having wrapped
    to 0 in the test of the pass that crossed the budget. *)
Theorem budget_wraps (fuel : nat) :
  let totalsize := 0x7fffffff in
  let w := replying_world (fun _ => 0) in
  let r := Mailbox.staging_loop w 0x1000 0x8000 totalsize fuel initial_locals
             (log init_state [EvIoremap 0xfed00000 16; EvWritel 1 0x1000]) in
  let l := snd (fst r) in
  fst (fst r) = None /\
  Forall xa_ok (xlog l) /\
  bytes_transacted (xlog l) = 4096 * Z.of_nat fuel /\
  xaction_bytes l = u32 (4096 * Z.of_nat fuel) /\
  count_go 0x1000 (trace (snd r)) = fuel /\
  (2 ^ 20 <= Z.of_nat fuel -> 2 * totalsize < bytes_transacted (xlog l)) /\
  (Z.of_nat fuel = 2 ^ 20 -> xaction_bytes l = 0) /\
  fst (Mailbox.staging_work w fuel 0xfed00000 0x8000 totalsize init_state)
    = (None, None).
Proof.
  intros totalsize w r l.
  destruct (wrapping_loop w 0x1000 0x8000 (fun a k => eq_refl) fuel
              initial_locals
              (log init_state [EvIoremap 0xfed00000 16; EvWritel 1 0x1000]) O 0)
    as (l' & s' & E & F & B & X & G); try reflexivity.
  - constructor.
  - fold totalsize w in E. fold r in E.
    assert (Hl : l = l') by (unfold l; rewrite E; reflexivity).
    rewrite Hl, E. cbn [fst snd].
    cbn [bytes_transacted xlog initial_locals] in B.
    split; [reflexivity|]. split; [exact F|]. split; [lia|].
    split; [rewrite X; f_equal; lia|]. split; [rewrite G; reflexivity|].
    split; [unfold totalsize; lia|]. split.
    + intros Hf. rewrite X, Z.add_0_l, Hf. reflexivity.
    + rewrite (staging_work_running w fuel 0xfed00000 0x8000 totalsize init_state s' l');
        [reflexivity|discriminate|exact E].
Qed.

(** Below that range the budget holds: for payload sizes with
    2 * totalsize + 4096 < 2^32 no 32-bit sum of the loop wraps. *)
Section BudgetRespected.

Variable w : world.
Variables (base ucode_ptr totalsize : Z).
Hypothesis Hsize : 0 <= totalsize.
Hypothesis Hnowrap : 2 * totalsize + 4096 < 2 ^ 32.

Let body := Mailbox.staging_body w base ucode_ptr totalsize.
Let loop := Mailbox.staging_loop w base ucode_ptr totalsize.

Lemma over_budget_exact (l : locals) :
  0 <= xaction_bytes l <= 2 * totalsize ->
  over_budget totalsize l = true <->
  2 * totalsize < xaction_bytes l + chunk_of totalsize (offset l).
Proof.
  intros Hx. unfold over_budget, MBOX_XACTION_MAX.
  pose proof (chunksize_bounds totalsize (offset l)) as Hc.
  fold (chunk_of totalsize (offset l)) in Hc. unfold PAGE_SIZE in Hc.
  rewrite !u32_small by lia. rewrite Z.gtb_ltb, Z.ltb_lt. lia.
Qed.

Lemma budget_pass (l : locals) (s : mstate) :
  0 <= xaction_bytes l <= 2 * totalsize ->
  bytes_sent (xlog l) = xaction_bytes l ->
  bytes_transacted (xlog l) = xaction_bytes l ->
  let l' := snd (fst (body l s)) in
  0 <= xaction_bytes l' <= 2 * totalsize /\
  bytes_transacted (xlog l') = xaction_bytes l' /\
  bytes_sent (xlog l') <= 2 * totalsize /\
  (fst (fst (body l s)) = None -> bytes_sent (xlog l') = xaction_bytes l') /\
  (2 * totalsize < xaction_bytes l + chunk_of totalsize (offset l) ->
   fst (body l s) = (Some ExitBreak, locals_over_budget l) /\
   trace (snd (body l s)) =
     trace s ++ warn_events s SITE_chunksize (totalsize <? offset l)).
Proof.
  intros Hx Hs Ht l'.
  pose proof (chunksize_bounds totalsize (offset l)) as Hc.
  fold (chunk_of totalsize (offset l)) in Hc. unfold PAGE_SIZE in Hc.
  pose proof (over_budget_exact l Hx) as Hob.
  destruct (staging_body_spec w base ucode_ptr totalsize l s) as (s' & E & T).
  cbv zeta in E, T. fold body in E. subst l'. rewrite E. cbn [fst snd].
  destruct (over_budget totalsize l) eqn:Hover.
  - cbn [fst snd xaction_bytes xlog locals_over_budget].
    split; [exact Hx|]. split; [exact Ht|]. split; [lia|].
    split; [discriminate|]. intros _. split; [reflexivity|].
    rewrite T, app_nil_r. reflexivity.
  - assert (Hle : xaction_bytes l + chunk_of totalsize (offset l) <= 2 * totalsize).
    { destruct (Z.le_gt_cases (xaction_bytes l + chunk_of totalsize (offset l))
                  (2 * totalsize)) as [H|H]; [exact H|].
      apply Hob in H. discriminate H. }
    assert (Hsum : u32 (xaction_bytes l + chunk_of totalsize (offset l))
                   = xaction_bytes l + chunk_of totalsize (offset l))
      by (apply u32_small; lia).
    destruct (ucode_state_eqb (wait_result _ _) UCODE_OK) eqn:Hw.
    + destruct (Z.testbit _ 2);
        cbn [fst snd xaction_bytes xlog locals_responded];
        rewrite bytes_transacted_app, bytes_sent_app, Hsum;
        cbn [bytes_transacted bytes_sent xa_wait xa_chunksize];
        (split; [lia|]); (split; [lia|]); (split; [lia|]);
        (split; [intros _; lia|intros H; lia]).
    + cbn [fst snd xaction_bytes xlog locals_wait_failed].
      rewrite bytes_transacted_app, bytes_sent_app.
      cbn [bytes_transacted bytes_sent xa_wait xa_chunksize].
      assert (Hz : match wait_result (dev_read w (base + MBOX_STATUS_OFFSET))
                           (rd_count s (base + MBOX_STATUS_OFFSET)) with
                   | UCODE_OK => chunk_of totalsize (offset l)
                   | _ => 0
                   end = 0).
      { destruct (wait_result _ _); [discriminate Hw|reflexivity..]. }
      rewrite Hz.
      split; [lia|]. split; [lia|]. split; [lia|].
      split; [discriminate|intros H; lia].
Qed.

(** Whatever the device does and however long the loop runs, the bytes
    framed so far stay within twice the payload size, and [xaction_bytes]
    is the exact sum of the chunks whose wait succeeded. *)
Lemma budget_respected (fuel : nat) :
  forall (l : locals) (s : mstate),
    0 <= xaction_bytes l <= 2 * totalsize ->
    bytes_sent (xlog l) = xaction_bytes l ->
    bytes_transacted (xlog l) = xaction_bytes l ->
    let l' := snd (fst (loop fuel l s)) in
    0 <= xaction_bytes l' <= 2 * totalsize /\
    bytes_transacted (xlog l') = xaction_bytes l' /\
    bytes_sent (xlog l') <= 2 * totalsize.
Proof.
  induction fuel as [|fuel IH]; intros l s Hx Hs Ht;
    unfold loop, Mailbox.staging_loop; rewrite staging_loop_unfold;
    destruct (offset l =? STAGING_OFFSET_END); cbn [fst snd];
    try (split; [exact Hx|split; [exact Ht|lia]]).
  pose proof (budget_pass l s Hx Hs Ht) as (P1 & P2 & P3 & P4 & _).
  unfold body, Mailbox.staging_body in P1, P2, P3, P4.
  destruct (fst (fst (staging_body w (Mailbox.request_xaction w)
                        (Mailbox.read_xaction_response w) base ucode_ptr totalsize l s)))
    as [e|]; cbn [fst snd].
  - auto.
  - apply IH; auto.
Qed.

End BudgetRespected.

(** ** An orderly transfer *)

Section InSequence.

Variable w : world.
Variables (base ucode_ptr totalsize : Z).
Hypothesis Hsize : 0 <= totalsize < 2 ^ 31.

Let st_addr := base + MBOX_STATUS_OFFSET.
Let rd_addr := base + MBOX_RDDATA_OFFSET.
Let loop := Mailbox.staging_loop w base ucode_ptr totalsize.

(** The device answers the transactions from the [k]-th on in sequence:
    [r0] reads of the read-data port came before the first transaction. *)
Variable r0 : nat.
Variable chunks : nat.
Hypothesis Hchunks : Z.of_nat chunks = Z.max 1 ((totalsize + 4095) / 4096).
Hypothesis Hresp :
  forall k, (k < chunks)%nat ->
    u32 (dev_read w rd_addr (r0 + 4 * k + 2)%nat) = in_sequence_offset totalsize k /\
    Z.testbit (u32 (dev_read w rd_addr (r0 + 4 * k + 3)%nat)) 2 = false.

Lemma in_sequence_loop (m : nat) :
  forall (k : nat) (l : locals) (s : mstate) (fuel : nat),
    (k + S m = chunks)%nat ->
    offset l = 4096 * Z.of_nat k ->
    xaction_bytes l = 4096 * Z.of_nat k ->
    rd_count s rd_addr = (r0 + 4 * k)%nat ->
    waits_ok (dev_read w st_addr) (S m) (rd_count s st_addr) ->
    (S m <= fuel)%nat ->
    exists l' s',
      loop fuel l s = (Some ExitCondition, l', s') /\
      state l' = Some UCODE_OK /\
      List.length (xlog l') = (List.length (xlog l) + S m)%nat /\
      count_go base (trace s') = (count_go base (trace s) + S m)%nat /\
      bytes_sent (xlog l') = bytes_sent (xlog l) + (totalsize - 4096 * Z.of_nat k) /\
      (Forall xa_ok (xlog l) -> Forall xa_ok (xlog l')).
Proof.
  induction m as [|m IH]; intros k l s fuel Hk Ho Hx Hr Hw Hf;
    (destruct fuel as [|fuel]; [lia|]);
    cbn [waits_ok] in Hw; destruct Hw as [Hw1 Hw2];
    destruct (Hresp k) as [Hoff Hflag]; try lia;
    assert (Hpos : 0 <= 4096 * Z.of_nat k <= totalsize /\
                   (Z.of_nat k = 0 \/ 4096 * Z.of_nat k < totalsize))
      by (revert Hchunks; Z.to_euclidean_division_equations; lia);
    assert (Hc : chunk_of totalsize (offset l)
                 = Z.min 4096 (totalsize - 4096 * Z.of_nat k))
      by (unfold chunk_of, PAGE_SIZE; rewrite Ho, u32_small by lia; reflexivity);
    assert (Hb : over_budget totalsize l = false)
      by (unfold over_budget, MBOX_XACTION_MAX; rewrite Hc, Hx;
          rewrite !u32_small by lia; rewrite Z.gtb_ltb; apply Z.ltb_ge; lia);
    destruct (staging_body_continues w base ucode_ptr totalsize l s Hb)
      as (s1 & E1 & S1 & R1 & G1);
    try exact Hw1;
    try (fold rd_addr; rewrite Hr; exact Hflag);
    fold rd_addr st_addr in E1, S1, R1; rewrite Hr in E1;
    unfold resp_word in E1; fold rd_addr in E1; rewrite Hoff in E1;
    (unfold loop;
     rewrite (staging_loop_step w base ucode_ptr totalsize fuel l _ s s1
                ltac:(rewrite Ho; change STAGING_OFFSET_END with 0xffffffff; lia) E1)).
  - (* the last chunk *)
    assert (Hlast : in_sequence_offset totalsize k = STAGING_OFFSET_END).
    { unfold in_sequence_offset, PAGE_SIZE. cbv zeta.
      replace ((Z.of_nat k + 1) * 4096 <? totalsize) with false; [reflexivity|].
      symmetry. apply Z.ltb_ge.
      revert Hchunks. Z.to_euclidean_division_equations; lia. }
    rewrite Hlast. rewrite staging_loop_at_sentinel by reflexivity.
    eexists. eexists. split; [reflexivity|].
    cbn [state xlog locals_responded]. split; [reflexivity|].
    rewrite length_app, bytes_sent_app, Hc. cbn [List.length bytes_sent xa_chunksize].
    split; [lia|]. split; [lia|]. split.
    + assert (totalsize - 4096 * Z.of_nat k <= 4096)
        by (revert Hchunks; Z.to_euclidean_division_equations; lia).
      lia.
    + intros F. apply Forall_app. split; [exact F|].
      constructor; [split; reflexivity|constructor].
  - (* a chunk followed by more *)
    assert (Hmore : (Z.of_nat k + 1) * 4096 < totalsize)
      by (revert Hchunks; Z.to_euclidean_division_equations; lia).
    assert (Hnext : in_sequence_offset totalsize k = 4096 * Z.of_nat (S k)).
    { unfold in_sequence_offset, PAGE_SIZE. cbv zeta.
      replace ((Z.of_nat k + 1) * 4096 <? totalsize) with true
        by (symmetry; apply Z.ltb_lt; exact Hmore).
      lia. }
    rewrite Hnext.
    destruct (IH (S k) (locals_responded totalsize l UCODE_OK (4096 * Z.of_nat (S k)))
                s1 fuel) as (l' & s' & E & St & L & G & B & F); try lia.
    + reflexivity.
    + cbn [xaction_bytes locals_responded]. rewrite Hc, Hx.
      rewrite u32_small by lia. lia.
    + rewrite S1. exact Hw2.
    + exists l', s'. split; [exact E|]. split; [exact St|].
      cbn [xlog locals_responded] in L, B, F.
      rewrite length_app in L. rewrite bytes_sent_app, Hc in B.
      cbn [List.length bytes_sent xa_chunksize] in L, B.
      split; [lia|]. split; [lia|]. split; [lia|].
      intros F0. apply F. apply Forall_app. split; [exact F0|].
      constructor; [split; reflexivity|constructor].
Qed.

End InSequence.

(** C8, as stated, fails for an empty payload: the loop body runs before
    the offset can be the sentinel, so one request (with no payload dwords)
    is sent and answered, while the ceiling of 0 / 4096 is 0.  Beyond
    2^31 - 1 bytes the budget 2 * totalsize wraps in 32 bits and an orderly
    transfer ends with TIMEOUT instead of DONE; with 2^31 bytes no chunk at
    all is sent. *)
Lemma chunk_count_claim_fails :
  (let r := Mailbox.staging_work (good_world 0) 5 0xfed00000 0x8000 0 init_state in
   fst r = (Some true,
            Some (ExitCondition,
                  {| xaction_bytes := 0; offset := STAGING_OFFSET_END;
                     state := Some UCODE_OK;
                     xlog := [mkXaction 0 0 UCODE_OK (Some UCODE_OK)] |})) /\
   count_go 0x1000 (trace (snd r)) = 1%nat /\
   (0 + 4095) / 4096 = 0) /\
  (let r := Mailbox.staging_work (good_world (2 ^ 31)) 5 0xfed00000 0x8000 (2 ^ 31)
              init_state in
   fst r = (Some false,
            Some (ExitBreak,
                  {| xaction_bytes := 0; offset := 0;
                     state := Some UCODE_TIMEOUT; xlog := [] |})) /\
   count_go 0x1000 (trace (snd r)) = 0%nat).
Proof.
  split; cbv zeta; repeat split; vm_compute; reflexivity.
Qed.

(** C8, amended: for every payload size below 2^31, when every wait of the
    transfer is classified OK and the device reports in-sequence offsets
    (the offset after the chunk just sent, the sentinel after the last byte)
    with the error flag clear, [staging_work] returns true after exactly
    max(1, ceil(totalsize / 4096)) request/wait/decode cycles, provided the
    loop is given that many passes: that is ceil(totalsize / 4096) for a
    non-empty payload, and one cycle for every payload of at most 4096
    bytes, the empty one included. *)
Theorem in_sequence_chunks (w : world) (fuel : nat)
    (mmio_pa ucode_ptr totalsize : Z) (s : mstate) :
  let base := ioremap_ret w mmio_pa 16 in
  let chunks := Z.to_nat (Z.max 1 ((totalsize + 4095) / 4096)) in
  0 <= totalsize < 2 ^ 31 ->
  base <> 0 ->
  waits_ok (dev_read w (base + 0x4)) chunks (rd_count s (base + 0x4)) ->
  (forall k, (k < chunks)%nat ->
     u32 (dev_read w (base + 0xc) (rd_count s (base + 0xc) + 4 * k + 2)%nat)
       = in_sequence_offset totalsize k /\
     Z.testbit (u32 (dev_read w (base + 0xc) (rd_count s (base + 0xc) + 4 * k + 3)%nat)) 2
       = false) ->
  (chunks <= fuel)%nat ->
  exists l s',
    Mailbox.staging_work w fuel mmio_pa ucode_ptr totalsize s
      = (Some true, Some (ExitCondition, l), s') /\
    List.length (xlog l) = chunks /\
    count_go base (trace s') = (count_go base (trace s) + chunks)%nat /\
    Forall xa_ok (xlog l) /\
    bytes_sent (xlog l) = totalsize /\
    (0 < totalsize -> Z.of_nat chunks = (totalsize + 4095) / 4096) /\
    (totalsize <= 4096 -> chunks = 1%nat).
Proof.
  intros base chunks HS Hb Hw Hresp Hf.
  assert (Hch : Z.of_nat chunks = Z.max 1 ((totalsize + 4095) / 4096))
    by (unfold chunks; lia).
  destruct chunks as [|m] eqn:Hm; [lia|].
  set (s1 := log s [EvIoremap mmio_pa 16;
                    EvWritel MASK_MBOX_CTRL_ABORT (base + MBOX_CONTROL_OFFSET)]).
  assert (Hc : forall a, rd_count s1 a = rd_count s a).
  { intros a. unfold s1. rewrite rd_count_log. cbn [count_reads]. lia. }
  destruct (in_sequence_loop w base ucode_ptr totalsize HS
              (rd_count s (base + MBOX_RDDATA_OFFSET)) (S m) Hch Hresp
              m O initial_locals s1 fuel)
    as (l & s' & E & St & L & G & B & F); try reflexivity; try lia.
  - rewrite Hc. lia.
  - rewrite Hc. exact Hw.
  - exists l, (log s' [EvIounmap base]).
    split; [apply staging_work_done; assumption|].
    cbn [xlog initial_locals List.length bytes_sent] in L, B.
    split; [exact L|]. split.
    + cbn [trace log]. rewrite count_go_app, G. unfold s1. cbn [trace log].
      rewrite count_go_app.
      assert (Hz : forall t, count_go base
                 (EvIoremap mmio_pa 16
                  :: EvWritel MASK_MBOX_CTRL_ABORT (base + MBOX_CONTROL_OFFSET) :: t)
               = count_go base t).
      { intros t. rewrite !count_go_cons. cbn [is_go].
        change (MASK_MBOX_CTRL_ABORT =? MASK_MBOX_CTRL_GO) with false. reflexivity. }
      rewrite Hz. cbn [count_go filter List.length is_go]. lia.
    + split; [apply F; constructor|]. split; [lia|].
      split; [intros Hp|intros Hp];
        revert Hch; Z.to_euclidean_division_equations; lia.
Qed.

Lemma in_sequence_chunks_witness :
  exists l s',
    Mailbox.staging_work (good_world 10000) 5 0xfed00000 0x8000 10000 init_state
      = (Some true, Some (ExitCondition, l), s') /\
    List.length (xlog l) = 3%nat.
Proof.
  destruct (in_sequence_chunks (good_world 10000) 5 0xfed00000 0x8000 10000 init_state)
    as (l & s' & E & L & _).
  - lia.
  - discriminate.
  - vm_compute. repeat split.
  - intros k Hk. change (Z.to_nat (Z.max 1 ((10000 + 4095) / 4096))) with 3%nat in Hk.
    destruct k as [|[|[|k]]]; [split; reflexivity..|lia].
  - vm_compute. lia.
  - exists l, s'. split; [exact E|exact L].
Defined.

(** * Further properties of the driver *)

(** ** The shape of a run of the complete revision *)

Lemma forallb_window_once_events (base : Z) (s : mstate) (site : once_site) :
  forallb (window_event base) (once_events s site) = true.
Proof. unfold once_events. destruct (has_fired s site); reflexivity. Qed.

Lemma forallb_window_warn_events (base : Z) (s : mstate) (site : once_site) (c : bool) :
  forallb (window_event base) (warn_events s site c) = true.
Proof.
  unfold warn_events. destruct c; [apply forallb_window_once_events|reflexivity].
Qed.

Lemma forallb_window_payload_events (w : world) (base chunk : Z) (n : nat) (i : Z) :
  forallb (window_event base) (payload_events w base chunk n i) = true.
Proof.
  revert i. induction n as [|n IH]; intros i; [reflexivity|].
  cbn [payload_events forallb window_event]. rewrite Z.eqb_refl, IH. reflexivity.
Qed.

Lemma forallb_window_request_events (w : world) (base chunk chunksize : Z) :
  forallb (window_event base) (request_events w base chunk chunksize) = true.
Proof.
  unfold request_events. rewrite !forallb_app, forallb_window_payload_events.
  cbn [forallb window_event]. rewrite !Z.eqb_refl.
  rewrite !orb_true_r. reflexivity.
Qed.

Lemma forallb_window_poll_events (base : Z) (status : nat -> Z) (k n : nat) :
  forallb (window_event base)
    (poll_events (base + MBOX_STATUS_OFFSET) status n k) = true.
Proof.
  revert n. induction k as [|k IH]; intros n; [reflexivity|].
  cbn [poll_events forallb window_event]. rewrite !Z.eqb_refl, IH. reflexivity.
Qed.

Lemma forallb_window_wait_events (base : Z) (status : nat -> Z) (n : nat) :
  forallb (window_event base) (wait_events base status n) = true.
Proof.
  unfold wait_events. cbv zeta. rewrite forallb_app, forallb_window_poll_events.
  cbn [forallb window_event]. rewrite !Z.eqb_refl. reflexivity.
Qed.

Lemma forallb_window_response_events (s : mstate) (base : Z) (word : nat -> Z) :
  forallb (window_event base) (response_events s base word) = true.
Proof.
  unfold response_events. cbv zeta.
  rewrite !forallb_app, !forallb_window_warn_events.
  cbn [forallb window_event]. rewrite !Z.eqb_refl, !orb_true_r. reflexivity.
Qed.

Section RunShape.

Variable w : world.
Variables (base ucode_ptr totalsize : Z).

Let body := Mailbox.staging_body w base ucode_ptr totalsize.
Let loop := Mailbox.staging_loop w base ucode_ptr totalsize.

Lemma staging_body_window (l : locals) (s : mstate) :
  exists d,
    trace (snd (body l s)) = trace s ++ d /\
    forallb (window_event base) d = true.
Proof.
  destruct (staging_body_spec w base ucode_ptr totalsize l s) as (s' & E & T).
  cbv zeta in E, T. fold body in E. rewrite E. cbn [snd].
  eexists. split; [exact T|].
  rewrite forallb_app, forallb_window_warn_events.
  destruct (over_budget totalsize l); [reflexivity|].
  rewrite !forallb_app, forallb_window_request_events, forallb_window_wait_events.
  destruct (ucode_state_eqb _ UCODE_OK);
    [apply forallb_window_response_events|reflexivity].
Qed.

Lemma staging_loop_window (fuel : nat) :
  forall (l : locals) (s : mstate),
  exists d,
    trace (snd (loop fuel l s)) = trace s ++ d /\
    forallb (window_event base) d = true.
Proof.
  induction fuel as [|fuel IH]; intros l s;
    unfold loop, Mailbox.staging_loop; rewrite staging_loop_unfold;
    destruct (offset l =? STAGING_OFFSET_END);
    try (exists []; rewrite app_nil_r; split; reflexivity).
  destruct (staging_body_window l s) as (d1 & T1 & F1).
  unfold body, Mailbox.staging_body in T1.
  destruct (fst (fst (staging_body w (Mailbox.request_xaction w)
                        (Mailbox.read_xaction_response w) base ucode_ptr totalsize l s))).
  - exists d1. split; [exact T1|exact F1].
  - match goal with
    | |- context [staging_loop _ _ _ _ _ _ fuel ?l1 ?s1] =>
        destruct (IH l1 s1) as (d2 & T2 & F2)
    end.
    unfold loop, Mailbox.staging_loop in T2.
    exists (d1 ++ d2). split.
    + rewrite T2, T1, app_assoc. reflexivity.
    + rewrite forallb_app, F1, F2. reflexivity.
Qed.

End RunShape.

(** A run of [staging_work] with a mapped window: [ioremap], the abort
    write, the events of the loop, and the tail. *)
Lemma staging_work_shape (w : world) (fuel : nat) (mmio_pa ucode_ptr totalsize : Z)
    (s : mstate) :
  let base := ioremap_ret w mmio_pa 16 in
  let r := Mailbox.staging_work w fuel mmio_pa ucode_ptr totalsize s in
  base <> 0 ->
  exists d,
    trace (snd r) =
      trace s ++ EvIoremap mmio_pa 16
                 :: EvWritel MASK_MBOX_CTRL_ABORT (base + MBOX_CONTROL_OFFSET)
                 :: d ++ run_tail base (fst r) /\
    forallb (window_event base) d = true.
Proof.
  intros base r Hb. subst r. unfold Mailbox.staging_work.
  rewrite staging_work_mapped by exact Hb.
  change (MBOX_REG_NUM * MBOX_REG_SIZE) with 16. fold base.
  match goal with
  | |- context [staging_loop ?a ?b ?c ?d ?e ?f ?g ?h ?i] =>
      destruct (staging_loop_window a d e f g h i) as (dl & T & F);
      unfold Mailbox.staging_loop in T;
      destruct (staging_loop a b c d e f g h i) as [[e0 l] s2]
  end.
  cbn [fst snd trace log] in T |- *.
  exists dl. split; [|exact F].
  destruct e0 as [e0|].
  - destruct (state_is_ok l); cbn [fst snd trace log run_tail]; rewrite T;
      rewrite <- !app_assoc; reflexivity.
  - cbn [fst snd run_tail]. rewrite T, app_nil_r, <- app_assoc. reflexivity.
Qed.

Lemma staging_work_finished (w : world) (fuel : nat) (mmio_pa ucode_ptr totalsize : Z)
    (s : mstate) (b : bool) :
  let r := Mailbox.staging_work w fuel mmio_pa ucode_ptr totalsize s in
  ioremap_ret w mmio_pa 16 <> 0 ->
  fst (fst r) = Some b ->
  exists e l, snd (fst r) = Some (e, l) /\ state_is_ok l = b.
Proof.
  intros r Hb. subst r. unfold Mailbox.staging_work.
  rewrite staging_work_mapped by exact Hb.
  match goal with
  | |- context [staging_loop ?a ?b ?c ?d ?e ?f ?g ?h ?i] =>
      destruct (staging_loop a b c d e f g h i) as [[e0 l] s2]
  end.
  cbn [fst snd]. destruct e0 as [e0|]; [|discriminate].
  destruct (state_is_ok l) eqn:Hok; cbn [fst snd]; intros H; injection H as <-;
    exists e0, l; (split; [reflexivity|exact Hok]).
Qed.

Lemma window_event_cases (base : Z) (e : event) :
  window_event base e = true ->
  match e with
  | EvReadl a _ => a = base + 0x4 \/ a = base + 0xc
  | EvWritel v a =>
      (a = base + 0x0 /\ v = 2 ^ 31) \/ a = base + 0x8 \/ (a = base + 0xc /\ v = 0)
  | EvMsleep ms => ms = 1
  | EvOnce _ => True
  | _ => False
  end.
Proof.
  destruct e; cbn [window_event]; intros H; try exact I; try discriminate H.
  - apply orb_true_iff in H. destruct H as [H|H]; apply Z.eqb_eq in H; auto.
  - apply orb_true_iff in H. destruct H as [H|H].
    + apply orb_true_iff in H. destruct H as [H|H].
      * apply Z.eqb_eq in H. auto.
      * apply andb_true_iff in H. destruct H as [H1 H2].
        apply Z.eqb_eq in H1, H2. left. split; [exact H1|exact H2].
    + apply andb_true_iff in H. destruct H as [H1 H2].
      apply Z.eqb_eq in H1, H2. auto.
  - apply Z.eqb_eq in H. exact H.
Qed.

(** X1: whatever the device answers and however long the transfer runs,
    [staging_work] of the complete revision reads only the status
    (offset 0x4) and read-data (0xc) registers of the window it mapped, and
    writes only the abort or go bit to the control register (0x0), data to
    the write-data register (0x8) and zero to the read-data register; it
    sleeps in steps of one millisecond only. *)
Theorem transfer_stays_in_window (w : world) (fuel : nat)
    (mmio_pa ucode_ptr totalsize : Z) (s : mstate) :
  let base := ioremap_ret w mmio_pa 16 in
  exists d,
    trace (snd (Mailbox.staging_work w fuel mmio_pa ucode_ptr totalsize s))
      = trace s ++ d /\
    forall e, In e d ->
      match e with
      | EvReadl a _ => a = base + 0x4 \/ a = base + 0xc
      | EvWritel v a =>
          (a = base + 0x0 /\ (v = 1 \/ v = 2 ^ 31)) \/
          a = base + 0x8 \/
          (a = base + 0xc /\ v = 0)
      | EvMsleep ms => ms = 1
      | _ => True
      end.
Proof.
  intros base.
  destruct (Z.eq_dec base 0) as [H0|H0].
  - destruct (staging_work_unmapped w (Mailbox.request_xaction w)
                (Mailbox.read_xaction_response w) fuel mmio_pa ucode_ptr
                totalsize s H0) as (s0 & E0 & T0).
    unfold Mailbox.staging_work. rewrite E0. cbn [snd].
    eexists. split; [exact T0|].
    intros e [<-|He]; [exact I|].
    unfold once_events in He. destruct (has_fired s SITE_ioremap).
    + destruct He.
    + destruct He as [<-|[]]. exact I.
  - destruct (staging_work_shape w fuel mmio_pa ucode_ptr totalsize s H0)
      as (d & T & F).
    fold base in T, F. eexists. split; [exact T|].
    intros e [<-|[<-|He]]; [exact I| |].
    + left. split; [reflexivity|left; reflexivity].
    + apply in_app_or in He. destruct He as [He|He].
      * rewrite forallb_forall in F. specialize (F e He).
        apply window_event_cases in F.
        destruct e; try exact I; try contradiction; try exact F.
        destruct F as [[Ha Hv]|[Ha|Ha]]; auto.
      * unfold run_tail in He.
        destruct (fst (Mailbox.staging_work w fuel mmio_pa ucode_ptr totalsize s))
          as [[[|]|] [[e1 l1]|]]; cbn [In] in He;
          repeat (destruct He as [<-|He]; [exact I|]); destruct He.
Qed.

(** X2: when the window is mapped, the first two events of a run of
    [staging_work] are the mapping and the write of the abort bit (bit 0)
    to the control register, and the abort bit is never written again in
    that run: the abort is issued once, up front, not per chunk. *)
Theorem abort_once_up_front (w : world) (fuel : nat)
    (mmio_pa ucode_ptr totalsize : Z) (s : mstate) :
  let base := ioremap_ret w mmio_pa 16 in
  base <> 0 ->
  exists d,
    trace (snd (Mailbox.staging_work w fuel mmio_pa ucode_ptr totalsize s))
      = trace s ++ EvIoremap mmio_pa 16 :: EvWritel 1 (base + 0x0) :: d /\
    ~ In (EvWritel 1 (base + 0x0)) d.
Proof.
  intros base H0.
  destruct (staging_work_shape w fuel mmio_pa ucode_ptr totalsize s H0)
    as (d & T & F).
  fold base in T, F. eexists. split; [exact T|].
  intros He. apply in_app_or in He. destruct He as [He|He].
  - rewrite forallb_forall in F. specialize (F _ He).
    apply window_event_cases in F.
    destruct F as [[_ Hv]|[Ha|[Ha _]]]; [discriminate Hv|lia|lia].
  - unfold run_tail in He.
    destruct (fst (Mailbox.staging_work w fuel mmio_pa ucode_ptr totalsize s))
      as [[[|]|] [[e1 l1]|]]; cbn [In] in He;
      repeat (destruct He as [He|He]; [discriminate He|]); destruct He.
Qed.

Lemma abort_once_up_front_witness :
  exists d,
    trace (snd (Mailbox.staging_work (good_world 8) 5 0xfed00000 0x8000 8 init_state))
      = EvIoremap 0xfed00000 16 :: EvWritel 1 0x1000 :: d /\
    ~ In (EvWritel 1 0x1000) d.
Proof.
  destruct (abort_once_up_front (good_world 8) 5 0xfed00000 0x8000 8 init_state)
    as (d & T & N).
  - discriminate.
  - exists d. split; [exact T|exact N].
Defined.

(** X3: a run of [staging_work] that mapped the window and returned
    unmaps it exactly once, after its last register access; a run that
    returned true ends there, a run that returned false then prints one
    line, which names a timeout exactly when the loop failed with TIMEOUT. *)
Theorem window_released_once (w : world) (fuel : nat)
    (mmio_pa ucode_ptr totalsize : Z) (s : mstate) (b : bool) :
  let base := ioremap_ret w mmio_pa 16 in
  let r := Mailbox.staging_work w fuel mmio_pa ucode_ptr totalsize s in
  base <> 0 ->
  fst (fst r) = Some b ->
  exists d e l,
    snd (fst r) = Some (e, l) /\
    trace (snd r) =
      trace s ++ d ++ EvIounmap base
                      :: (if b then [] else [EvPrErr (failure_message l)]) /\
    (forall x, ~ In (EvIounmap x) d) /\
    (failure_message l = "microcode: Staging failed with timeout."%string <->
     state l = Some UCODE_TIMEOUT) /\
    (failure_message l = "microcode: Staging failed with error."%string <->
     state l <> Some UCODE_TIMEOUT).
Proof.
  intros base r H0 Hr.
  destruct (staging_work_finished w fuel mmio_pa ucode_ptr totalsize s b H0 Hr)
    as (e & l & Hfin & Hok).
  destruct (staging_work_shape w fuel mmio_pa ucode_ptr totalsize s H0)
    as (d & T & F).
  fold base r in T, F, Hfin.
  exists (EvIoremap mmio_pa 16
          :: EvWritel MASK_MBOX_CTRL_ABORT (base + MBOX_CONTROL_OFFSET) :: d), e, l.
  split; [exact Hfin|]. split; [|split].
  - rewrite T. destruct (fst r) as [ob fin] eqn:Er.
    cbn [fst snd] in Hr, Hfin. subst ob fin. cbn [run_tail app].
    destruct b; rewrite <- ?app_assoc; reflexivity.
  - intros x [Hx|[Hx|Hx]]; [discriminate Hx|discriminate Hx|].
    rewrite forallb_forall in F. specialize (F _ Hx). discriminate F.
  - unfold failure_message.
    destruct (state l) as [[| |]|]; split; split; intros H;
      try reflexivity; try discriminate H; try (exfalso; apply H; reflexivity);
      intros H'; discriminate H'.
Qed.

Lemma window_released_once_witness :
  exists d e l,
    snd (fst (Mailbox.staging_work (good_world 8) 5 0xfed00000 0x8000 8 init_state))
      = Some (e, l) /\
    trace (snd (Mailbox.staging_work (good_world 8) 5 0xfed00000 0x8000 8 init_state))
      = d ++ [EvIounmap 0x1000].
Proof.
  destruct (window_released_once (good_world 8) 5 0xfed00000 0x8000 8 init_state true)
    as (d & e & l & Hfin & T & _).
  - discriminate.
  - reflexivity.
  - exists d, e, l. split; [exact Hfin|exact T].
Defined.

(** ** The skeleton revision *)

Lemma forallb_polling_once_events (base : Z) (s : mstate) (site : once_site) :
  forallb (polling_event base) (once_events s site) = true.
Proof. unfold once_events. destruct (has_fired s site); reflexivity. Qed.

Lemma forallb_polling_warn_events (base : Z) (s : mstate) (site : once_site) (c : bool) :
  forallb (polling_event base) (warn_events s site c) = true.
Proof.
  unfold warn_events. destruct c; [apply forallb_polling_once_events|reflexivity].
Qed.

Lemma forallb_polling_wait_events (base : Z) (status : nat -> Z) (n : nat) :
  forallb (polling_event base) (wait_events base status n) = true.
Proof.
  unfold wait_events. cbv zeta. rewrite forallb_app.
  assert (H : forall k m, forallb (polling_event base)
                (poll_events (base + MBOX_STATUS_OFFSET) status m k) = true).
  { induction k as [|k IH]; intros m; [reflexivity|].
    cbn [poll_events forallb polling_event]. rewrite !Z.eqb_refl, IH. reflexivity. }
  rewrite H. cbn [forallb polling_event]. rewrite Z.eqb_refl. reflexivity.
Qed.

(** A pass of the skeleton always ends in a break with a state other than
    OK, having polled the status register at most. *)
Lemma skeleton_body (w : world) (base ucode_ptr totalsize : Z) (l : locals) (s : mstate) :
  exists l' s' d,
    staging_body w Skeleton.request_xaction Skeleton.read_xaction_response
      base ucode_ptr totalsize l s = (Some ExitBreak, l', s') /\
    state_is_ok l' = false /\
    trace s' = trace s ++ d /\
    forallb (polling_event base) d = true.
Proof.
  unfold staging_body. unfold bind at 1.
  destruct (get_chunksize_spec totalsize (offset l) s) as (s1 & E1 & T1 & _).
  rewrite E1. cbv beta iota.
  destruct (_ >? _).
  - unfold ret. eexists. exists s1. eexists. split; [reflexivity|].
    split; [reflexivity|]. split; [exact T1|apply forallb_polling_warn_events].
  - unfold bind at 1. unfold Skeleton.request_xaction, pr_debug_once.
    destruct (once_spec SITE_dbg_request s1) as (s2 & E2 & T2 & _).
    rewrite E2. cbv beta iota.
    unfold bind at 1. rewrite wait_for_xaction_eq. cbv beta iota.
    set (st := wait_result _ _).
    set (dw := wait_events _ _ _).
    assert (Tw : trace (log s2 dw) =
                 trace s ++ warn_events s SITE_chunksize (totalsize <? offset l)
                 ++ once_events s1 SITE_dbg_request ++ dw).
    { cbn [trace log]. rewrite T2, T1, <- !app_assoc. reflexivity. }
    assert (Fw : forallb (polling_event base)
                   (warn_events s SITE_chunksize (totalsize <? offset l)
                    ++ once_events s1 SITE_dbg_request ++ dw) = true).
    { rewrite !forallb_app, forallb_polling_warn_events, forallb_polling_once_events.
      apply forallb_polling_wait_events. }
    destruct st eqn:Hst; cbn [ucode_state_eqb negb].
    + unfold bind at 1. unfold Skeleton.read_xaction_response, pr_debug_once.
      unfold bind at 1.
      destruct (once_spec SITE_dbg_response (log s2 dw)) as (s4 & E4 & T4 & _).
      rewrite E4. cbv beta iota. unfold ret. cbn [fst snd ucode_state_eqb negb].
      eexists. exists s4. eexists. split; [reflexivity|]. split; [reflexivity|].
      split.
      * rewrite T4, Tw, <- !app_assoc. reflexivity.
      * rewrite !forallb_app, forallb_polling_warn_events,
          !forallb_polling_once_events.
        unfold dw. rewrite forallb_polling_wait_events. reflexivity.
    + unfold ret. eexists. eexists. eexists. split; [reflexivity|].
      split; [reflexivity|]. split; [exact Tw|exact Fw].
    + unfold ret. eexists. eexists. eexists. split; [reflexivity|].
      split; [reflexivity|]. split; [exact Tw|exact Fw].
Qed.

(** X4: the skeleton revision never reports success: whatever the device
    does, [staging_work] returns false after at most one pass through its
    loop.  With a mapped window its only register write is the abort bit;
    after it the run only sleeps in steps of one millisecond and polls the
    status register, then unmaps the window and prints the failure line;
    the write-data and read-data registers are never touched. *)
Theorem skeleton_never_succeeds (w : world) (fuel : nat)
    (mmio_pa ucode_ptr totalsize : Z) (s : mstate) :
  let base := ioremap_ret w mmio_pa 16 in
  let r := Skeleton.staging_work w (S fuel) mmio_pa ucode_ptr totalsize s in
  fst (fst r) = Some false /\
  (base = 0 \/
   exists d e l,
     snd (fst r) = Some (e, l) /\
     trace (snd r) =
       trace s ++ EvIoremap mmio_pa 16 :: EvWritel 1 (base + 0x0) :: d
               ++ [EvIounmap base; EvPrErr (failure_message l)] /\
     forall x, In x d ->
       match x with
       | EvReadl a _ => a = base + 0x4
       | EvMsleep ms => ms = 1
       | EvOnce _ => True
       | _ => False
       end).
Proof.
  intros base r. subst r. unfold Skeleton.staging_work.
  destruct (Z.eq_dec base 0) as [H0|H0].
  - destruct (staging_work_unmapped w Skeleton.request_xaction
                Skeleton.read_xaction_response (S fuel) mmio_pa ucode_ptr
                totalsize s H0) as (s0 & E0 & _).
    rewrite E0. split; [reflexivity|left; exact H0].
  - rewrite staging_work_mapped by exact H0.
    change (MBOX_REG_NUM * MBOX_REG_SIZE) with 16. fold base.
    rewrite staging_loop_unfold.
    change (offset initial_locals =? STAGING_OFFSET_END) with false. cbv iota.
    match goal with
    | |- context [staging_body _ _ _ _ _ _ ?l0 ?s0] =>
        destruct (skeleton_body w base ucode_ptr totalsize l0 s0)
          as (l' & s' & d & E & Hok & T & F)
    end.
    rewrite E. cbn [fst snd]. rewrite Hok. cbn [fst snd].
    split; [reflexivity|]. right. exists d, ExitBreak, l'.
    split; [reflexivity|]. split.
    + cbn [trace log]. rewrite T. cbn [trace log].
      rewrite <- !app_assoc. reflexivity.
    + intros x Hx. rewrite forallb_forall in F. specialize (F x Hx).
      destruct x; cbn [polling_event] in F; try discriminate F; try exact I.
      * apply Z.eqb_eq in F. exact F.
      * apply Z.eqb_eq in F. exact F.
Qed.

(** ** The polling discipline of the completion waiter *)

(** X5: [wait_for_xaction] sleeps one millisecond before each poll, stops
    polling at the first status value with the ready bit (bit 31) set, and
    polls 10000 times when none has it; it then reads the status register
    once more.  It reads no other register, writes none and fires no
    warning. *)
Theorem wait_for_xaction_polling (w : world) (base : Z) (s : mstate) :
  let status := dev_read w (base + 0x4) in
  let n := rd_count s (base + 0x4) in
  let r := wait_for_xaction w base s in
  exists k : nat,
    (1 <= k <= Z.to_nat 10000)%nat /\
    snd r = log s (poll_events (base + 0x4) status n k
                   ++ [EvReadl (base + 0x4) (u32 (status (n + k)%nat))]) /\
    (forall i, (S i < k)%nat -> Z.testbit (u32 (status (n + i)%nat)) 31 = false) /\
    ((k < Z.to_nat 10000)%nat ->
     Z.testbit (u32 (status (n + k - 1)%nat)) 31 = true) /\
    rd_count (snd r) (base + 0x4) = (n + k + 1)%nat /\
    (forall a, a <> base + 0x4 -> rd_count (snd r) a = rd_count s a).
Proof.
  intros status n r. subst r. rewrite wait_for_xaction_eq.
  change (base + MBOX_STATUS_OFFSET) with (base + 0x4). fold status n.
  unfold wait_events. cbv zeta.
  change (base + MBOX_STATUS_OFFSET) with (base + 0x4).
  change (Z.to_nat MBOX_XACTION_TIMEOUT) with (Z.to_nat 10000).
  set (k := polls_used status (Z.to_nat 10000) n).
  pose proof (polls_used_sound status (Z.to_nat 10000) n) as [S1 S2].
  cbv zeta in S1, S2. fold k in S1, S2.
  exists k. cbn [snd].
  split; [split; [apply polls_used_pos; lia|apply polls_used_le]|].
  split; [reflexivity|]. split; [exact S1|]. split; [apply S2|].
  split.
  - rewrite rd_count_log, count_reads_app, count_reads_poll_events.
    cbn [count_reads]. rewrite !Z.eqb_refl. fold n. lia.
  - intros a Ha. rewrite rd_count_log, count_reads_app, count_reads_poll_events.
    cbn [count_reads].
    replace (base + 0x4 =? a) with false by (symmetry; apply Z.eqb_neq; lia).
    lia.
Qed.

(** ** What a request and a pass read from memory *)

Lemma bind_cong {A B : Type} (m m' : M A) (k : A -> M B) (s : mstate) :
  m s = m' s -> bind m k s = bind m' k s.
Proof. intros H. unfold bind. rewrite H. reflexivity. Qed.

Lemma readl_dev (w1 w2 : world) (a : Z) :
  dev_read w1 = dev_read w2 -> readl w1 a = readl w2 a.
Proof. intros H. unfold readl. rewrite H. reflexivity. Qed.

Lemma bind_ext {A B : Type} (m : M A) (k k' : A -> M B) (s : mstate) :
  (forall a s', m s = (a, s') -> k a s' = k' a s') ->
  bind m k s = bind m k' s.
Proof.
  intros H. unfold bind. destruct (m s) as [a s'] eqn:E. apply H. reflexivity.
Qed.

Lemma poll_status_dev (w1 w2 : world) (budget : nat) (base : Z) :
  dev_read w1 = dev_read w2 -> poll_status w1 budget base = poll_status w2 budget base.
Proof.
  intros H. induction budget as [|b IH]; [reflexivity|].
  cbn [poll_status]. rewrite IH, (readl_dev w1 w2 _ H). reflexivity.
Qed.

Lemma wait_for_xaction_dev (w1 w2 : world) (base : Z) :
  dev_read w1 = dev_read w2 -> wait_for_xaction w1 base = wait_for_xaction w2 base.
Proof.
  intros H. unfold wait_for_xaction.
  rewrite (poll_status_dev w1 w2 _ base H), (readl_dev w1 w2 _ H). reflexivity.
Qed.

Lemma read_xaction_response_dev (w1 w2 : world) (base offset : Z) :
  dev_read w1 = dev_read w2 ->
  Mailbox.read_xaction_response w1 base offset
  = Mailbox.read_xaction_response w2 base offset.
Proof.
  intros H. unfold Mailbox.read_xaction_response, read_mbox_dword.
  rewrite !(readl_dev w1 w2 _ H). reflexivity.
Qed.

Lemma request_xaction_ram (w1 w2 : world) (base chunk chunksize : Z) (s : mstate) :
  (forall a, chunk <= a < chunk + chunksize -> ram w1 a = ram w2 a) ->
  Mailbox.request_xaction w1 base chunk chunksize s
  = Mailbox.request_xaction w2 base chunk chunksize s.
Proof.
  intros H. rewrite !request_xaction_eq, !payload_events_map.
  do 3 f_equal. f_equal. apply map_ext_in. intros i Hi.
  apply in_seq in Hi. f_equal. unfold load32. f_equal. apply H.
  assert (Hlt : Z.of_nat i < chunksize / 4) by lia.
  assert (4 * (chunksize / 4) <= chunksize)
    by (apply Z.mul_div_le; lia).
  lia.
Qed.





(** ** The accounts of the loop *)

Lemma decoded_app (xs ys : list xaction) :
  decoded (xs ++ ys) = (decoded xs + decoded ys)%nat.
Proof. unfold decoded. rewrite filter_app, length_app. reflexivity. Qed.

Section Ledger.

Variable w : world.
Variables (base ucode_ptr totalsize : Z).

Let rd_addr := base + MBOX_RDDATA_OFFSET.
Let body := Mailbox.staging_body w base ucode_ptr totalsize.
Let loop := Mailbox.staging_loop w base ucode_ptr totalsize.

(** What the loop keeps true of its locals and of the trace: the counter
    is the sum of the completed chunks modulo 2^32, every transaction of
    the log started one request, and every decoded response took four
    reads of the read-data register. *)
Let ledger (l : locals) (s : mstate) (l' : locals) (s' : mstate) : Prop :=
  (xaction_bytes l = u32 (bytes_transacted (xlog l)) ->
   xaction_bytes l' = u32 (bytes_transacted (xlog l'))) /\
  (count_go base (trace s') + List.length (xlog l)
   = count_go base (trace s) + List.length (xlog l'))%nat /\
  (rd_count s' rd_addr + 4 * decoded (xlog l)
   = rd_count s rd_addr + 4 * decoded (xlog l'))%nat.

Lemma staging_body_ledger (l : locals) (s : mstate) :
  ledger l s (snd (fst (body l s))) (snd (body l s)).
Proof.
  destruct (staging_body_spec w base ucode_ptr totalsize l s) as (s' & E & _).
  pose proof (staging_body_effects w base ucode_ptr totalsize l s) as (_ & R & G & _).
  cbv zeta in E. fold body rd_addr in E, R, G. rewrite E in R, G |- *.
  cbn [fst snd] in R, G |- *. unfold ledger.
  destruct (over_budget totalsize l).
  - cbn [fst snd xaction_bytes xlog locals_over_budget].
    split; [auto|]. split; lia.
  - destruct (ucode_state_eqb (wait_result _ _) UCODE_OK) eqn:W.
    + assert (Hx : xaction_bytes l = u32 (bytes_transacted (xlog l)) ->
                   u32 (xaction_bytes l + chunk_of totalsize (offset l))
                   = u32 (bytes_transacted (xlog l) + (chunk_of totalsize (offset l) + 0))).
      { intros ->. rewrite u32_add_l. f_equal. lia. }
      destruct (Z.testbit _ 2);
        cbn [fst snd xaction_bytes xlog locals_responded];
        rewrite bytes_transacted_app, decoded_app, length_app;
        cbn [bytes_transacted xa_wait xa_chunksize decoded filter has_response
             xa_resp List.length];
        (split; [exact Hx|split; lia]).
    + cbn [fst snd xaction_bytes xlog locals_wait_failed].
      rewrite bytes_transacted_app, decoded_app, length_app.
      cbn [bytes_transacted xa_wait xa_chunksize decoded filter has_response
           xa_resp List.length].
      split; [|split; lia].
      intros ->. f_equal.
      destruct (wait_result _ _); [discriminate W|lia..].
Qed.

Lemma staging_loop_ledger (fuel : nat) :
  forall (l : locals) (s : mstate),
    ledger l s (snd (fst (loop fuel l s))) (snd (loop fuel l s)).
Proof.
  induction fuel as [|fuel IH]; intros l s;
    unfold loop, Mailbox.staging_loop; rewrite staging_loop_unfold;
    destruct (offset l =? STAGING_OFFSET_END); cbn [fst snd];
    try (unfold ledger; split; [auto|split; lia]).
  pose proof (staging_body_ledger l s) as B.
  unfold body, Mailbox.staging_body in B.
  destruct (staging_body w (Mailbox.request_xaction w)
              (Mailbox.read_xaction_response w) base ucode_ptr totalsize l s)
    as [[e l1] s1].
  cbn [fst snd] in B |- *. destruct e as [e|]; cbn [fst snd]; [exact B|].
  specialize (IH l1 s1). unfold loop, Mailbox.staging_loop in IH.
  destruct (staging_loop _ _ _ _ _ _ fuel l1 s1) as [[e2 l2] s2].
  cbn [fst snd] in IH |- *. unfold ledger in *.
  destruct B as (B1 & B2 & B3). destruct IH as (I1 & I2 & I3).
  split; [auto|]. split; lia.
Qed.

End Ledger.

(** X8: for every payload size and every device, at any point of the
    loop of [staging_work] the counter [xaction_bytes] is the sum, modulo
    2^32, of the sizes of the chunks whose wait returned OK. *)
Theorem xaction_bytes_is_sum (w : world) (base ucode_ptr totalsize : Z)
    (fuel : nat) (s : mstate) :
  let l := snd (fst (Mailbox.staging_loop w base ucode_ptr totalsize fuel
                       initial_locals s)) in
  xaction_bytes l = u32 (bytes_transacted (xlog l)).
Proof.
  intros l.
  destruct (staging_loop_ledger w base ucode_ptr totalsize fuel initial_locals s)
    as (H & _).
  apply H. reflexivity.
Qed.

(** X9: the log of transactions agrees with the trace: in any run of the
    loop the go bit was written to the control register once per logged
    transaction, and the read-data register was read four times per
    decoded response and never else. *)
Theorem go_strobes_match_transactions (w : world) (base ucode_ptr totalsize : Z)
    (fuel : nat) (s : mstate) :
  let r := Mailbox.staging_loop w base ucode_ptr totalsize fuel initial_locals s in
  let l := snd (fst r) in
  count_go base (trace (snd r))
    = (count_go base (trace s) + List.length (xlog l))%nat /\
  rd_count (snd r) (base + 0xc)
    = (rd_count s (base + 0xc) + 4 * decoded (xlog l))%nat.
Proof.
  intros r l.
  destruct (staging_loop_ledger w base ucode_ptr totalsize fuel initial_locals s)
    as (_ & G & R).
  fold r l in G, R. cbn [xlog initial_locals List.length decoded filter] in G, R.
  change (base + MBOX_RDDATA_OFFSET) with (base + 0xc) in R.
  split; lia.
Qed.

(** X10: for payload sizes with 2 * totalsize + 4096 < 2^32 the byte
    budget holds against every device: at any point of the loop the bytes
    framed so far are at most twice the payload size and [xaction_bytes]
    is the exact sum of the completed chunks; and a pass whose chunk
    would cross the budget breaks with TIMEOUT having done no more than
    the chunk-size warning. *)
Theorem budget_holds_without_wrap (w : world) (base ucode_ptr totalsize : Z)
    (fuel : nat) (s : mstate) :
  0 <= totalsize ->
  2 * totalsize + 4096 < 2 ^ 32 ->
  (let l := snd (fst (Mailbox.staging_loop w base ucode_ptr totalsize fuel
                        initial_locals s)) in
   bytes_sent (xlog l) <= 2 * totalsize /\
   bytes_transacted (xlog l) = xaction_bytes l /\
   0 <= xaction_bytes l <= 2 * totalsize) /\
  (forall l0 s0,
     0 <= xaction_bytes l0 <= 2 * totalsize ->
     2 * totalsize < xaction_bytes l0 + chunk_of totalsize (offset l0) ->
     let r := Mailbox.staging_body w base ucode_ptr totalsize l0 s0 in
     fst r = (Some ExitBreak, locals_over_budget l0) /\
     trace (snd r) = trace s0 ++ warn_events s0 SITE_chunksize (totalsize <? offset l0)).
Proof.
  intros HS Hw. split.
  - pose proof (budget_respected w base ucode_ptr totalsize Hw fuel
                  initial_locals s) as H.
    cbv zeta in H |- *.
    destruct H as (H1 & H2 & H3);
      cbn [xaction_bytes xlog initial_locals bytes_sent bytes_transacted];
      try lia; try reflexivity.
  - intros l0 s0 Hx Hover r.
    pose proof (over_budget_exact totalsize Hw l0 Hx) as Hob.
    destruct (staging_body_spec w base ucode_ptr totalsize l0 s0) as (s' & E & T).
    cbv zeta in E, T. fold r in E.
    replace (over_budget totalsize l0) with true in E, T
      by (symmetry; apply Hob; exact Hover).
    rewrite E. cbn [fst snd]. split; [reflexivity|].
    rewrite T, app_nil_r. reflexivity.
Qed.

Lemma budget_holds_without_wrap_witness :
  bytes_sent
    (xlog (snd (fst (Mailbox.staging_loop (replying_world (fun _ => 0)) 0x1000
                       0x8000 8 9 initial_locals init_state))))
  <= 2 * 8.
Proof.
  destruct (budget_holds_without_wrap (replying_world (fun _ => 0)) 0x1000 0x8000
              8 9 init_state) as [[H _] _].
  - lia.
  - lia.
  - exact H.
Defined.

(** ** Termination when no chunk is empty *)

Lemma chunk_of_positive (totalsize offset : Z) :
  0 <= totalsize < 2 ^ 32 -> 0 <= offset < 2 ^ 32 -> offset <> totalsize ->
  1 <= chunk_of totalsize offset.
Proof.
  intros HS Ho Hne. unfold chunk_of, PAGE_SIZE.
  destruct (Z.lt_ge_cases totalsize offset) as [H|H].
  - rewrite u32_wrapped_difference by lia. lia.
  - rewrite u32_small by lia. lia.
Qed.

Section Termination.

Variable w : world.
Variables (base ucode_ptr totalsize : Z).
Hypothesis Hsize : 0 < totalsize.
Hypothesis Hnowrap : 2 * totalsize + 4096 < 2 ^ 32.

Let rd_addr := base + MBOX_RDDATA_OFFSET.
Let loop := Mailbox.staging_loop w base ucode_ptr totalsize.

Variable r0 : nat.
Hypothesis Hoff :
  forall j : nat, u32 (dev_read w rd_addr (r0 + 4 * j + 2)%nat) <> totalsize.

(** Each pass that does not leave the loop adds at least one byte to
    [xaction_bytes], which the budget test keeps within 2 * totalsize. *)
Lemma staging_loop_exits (n : nat) :
  forall (l : locals) (s : mstate) (j : nat),
    2 * totalsize - xaction_bytes l < Z.of_nat n ->
    0 <= xaction_bytes l <= 2 * totalsize ->
    0 <= offset l < 2 ^ 32 ->
    offset l <> totalsize ->
    rd_count s rd_addr = (r0 + 4 * j)%nat ->
    fst (fst (loop n l s)) <> None.
Proof.
  induction n as [|n IH]; intros l s j Hn Hx Ho Hne Hr; [lia|].
  unfold loop, Mailbox.staging_loop. rewrite staging_loop_unfold.
  destruct (offset l =? STAGING_OFFSET_END); [discriminate|].
  destruct (staging_body_spec w base ucode_ptr totalsize l s) as (s1 & E & _).
  pose proof (staging_body_effects w base ucode_ptr totalsize l s) as (_ & R & _).
  cbv zeta in E, R. unfold Mailbox.staging_body in E, R.
  fold rd_addr in E, R. rewrite E in R |- *. cbn [fst snd] in R |- *.
  pose proof (over_budget_exact totalsize Hnowrap l Hx) as Hob.
  destruct (over_budget totalsize l) eqn:Hover; [discriminate|].
  destruct (ucode_state_eqb (wait_result _ _) UCODE_OK); [|discriminate].
  destruct (Z.testbit _ 2); [discriminate|]. cbn [fst snd].
  pose proof (chunk_of_positive totalsize (offset l) ltac:(lia) Ho Hne) as Hc.
  assert (Hle : xaction_bytes l + chunk_of totalsize (offset l) <= 2 * totalsize).
  { destruct (Z.le_gt_cases (xaction_bytes l + chunk_of totalsize (offset l))
                (2 * totalsize)) as [H|H]; [exact H|].
    apply Hob in H. discriminate H. }
  apply (IH _ _ (S j)); cbn [xaction_bytes offset locals_responded].
  - rewrite u32_small by lia. lia.
  - rewrite u32_small by lia. lia.
  - apply u32_range.
  - rewrite Hr. apply Hoff.
  - rewrite R, Hr. lia.
Qed.

End Termination.

(** X11: for a non-empty payload with 2 * totalsize + 4096 < 2^32, if the
    device never reports the payload size itself as next offset, the
    transfer ends: given more than 2 * totalsize passes, [staging_work]
    returns a result, whatever else the device answers. *)
Theorem transfer_terminates (w : world) (fuel : nat)
    (mmio_pa ucode_ptr totalsize : Z) (s : mstate) :
  let base := ioremap_ret w mmio_pa 16 in
  0 < totalsize ->
  2 * totalsize + 4096 < 2 ^ 32 ->
  (forall j : nat,
     u32 (dev_read w (base + 0xc) (rd_count s (base + 0xc) + 4 * j + 2)%nat)
     <> totalsize) ->
  2 * totalsize < Z.of_nat fuel ->
  exists b, fst (fst (Mailbox.staging_work w fuel mmio_pa ucode_ptr totalsize s))
            = Some b.
Proof.
  intros base HS Hw Hoff Hf.
  destruct (Z.eq_dec base 0) as [H0|H0].
  - destruct (staging_work_unmapped w (Mailbox.request_xaction w)
                (Mailbox.read_xaction_response w) fuel mmio_pa ucode_ptr
                totalsize s H0) as (s0 & E0 & _).
    unfold Mailbox.staging_work. rewrite E0. exists false. reflexivity.
  - unfold Mailbox.staging_work. rewrite staging_work_mapped by exact H0.
    change (MBOX_REG_NUM * MBOX_REG_SIZE) with 16. fold base.
    match goal with
    | |- context [staging_loop _ _ _ _ _ _ _ ?l0 ?s0] =>
        pose proof (staging_loop_exits w base ucode_ptr totalsize HS Hw
                      (rd_count s (base + 0xc)) Hoff fuel l0 s0 O) as X
    end.
    unfold Mailbox.staging_loop in X.
    destruct (staging_loop _ _ _ _ _ _ _ _ _) as [[e l] s2].
    cbn [fst snd] in X |- *.
    destruct e as [e|].
    + destruct (state_is_ok l); eexists; reflexivity.
    + exfalso. apply X; cbn [xaction_bytes offset initial_locals]; try lia.
      * rewrite rd_count_log. cbn [count_reads]. change (base + MBOX_RDDATA_OFFSET)
          with (base + 0xc). lia.
      * reflexivity.
Qed.

Lemma transfer_terminates_witness :
  exists b, fst (fst (Mailbox.staging_work (echo_world 0) 17 0xfed00000 0x8000 8
                        init_state)) = Some b.
Proof.
  apply transfer_terminates.
  - lia.
  - lia.
  - intros j. discriminate.
  - lia.
Defined.

(** ** A response with the error flag *)

(** X12: a response whose flag word has bit 2 set ends the transfer: the
    pass leaves the loop by a break with state ERROR, whatever its
    next-offset word is (the sentinel included); the offset cursor holds
    that word, the chunk has been added to [xaction_bytes], and the failure
    is reported as an error. *)
Theorem error_flag_fails_transfer (w : world) (base ucode_ptr totalsize : Z)
    (fuel : nat) (l : locals) (s : mstate) :
  let rd := base + 0xc in
  let r := Mailbox.staging_loop w base ucode_ptr totalsize (S fuel) l s in
  let l' := snd (fst r) in
  offset l <> 0xffffffff ->
  over_budget totalsize l = false ->
  wait_result (dev_read w (base + 0x4)) (rd_count s (base + 0x4)) = UCODE_OK ->
  Z.testbit (u32 (dev_read w rd (rd_count s rd + 3)%nat)) 2 = true ->
  fst (fst r) = Some ExitBreak /\
  state l' = Some UCODE_ERROR /\
  offset l' = u32 (dev_read w rd (rd_count s rd + 2)%nat) /\
  xaction_bytes l' = u32 (xaction_bytes l + chunk_of totalsize (offset l)) /\
  state_is_ok l' = false /\
  failure_message l' = "microcode: Staging failed with error."%string.
Proof.
  intros rd r l' Ho Hb Hw Hf. subst l' r.
  unfold Mailbox.staging_loop. rewrite staging_loop_unfold.
  apply Z.eqb_neq in Ho. change STAGING_OFFSET_END with 0xffffffff. rewrite Ho.
  destruct (staging_body_spec w base ucode_ptr totalsize l s) as (s1 & E & _).
  cbv zeta in E. unfold Mailbox.staging_body in E.
  change (base + MBOX_STATUS_OFFSET) with (base + 0x4) in E.
  rewrite Hb, Hw in E. cbn [ucode_state_eqb] in E.
  unfold resp_word in E. change (base + MBOX_RDDATA_OFFSET) with rd in E.
  rewrite Hf in E. rewrite E. cbn [fst snd].
  repeat split; reflexivity.
Qed.

Lemma error_flag_fails_transfer_witness :
  state (snd (fst (Mailbox.staging_loop (echo_world 0xffffffff) 0x1000 0x8000 8 1
                     initial_locals init_state)))
  = Some UCODE_ERROR.
Proof.
  destruct (error_flag_fails_transfer (echo_world 0xffffffff) 0x1000 0x8000 8 0
              initial_locals init_state) as (_ & H & _).
  - discriminate.
  - reflexivity.
  - vm_compute. reflexivity.
  - reflexivity.
  - exact H.
Defined.

(** ** Once-only warnings *)

Lemma count_once_app (site : once_site) (t1 t2 : list event) :
  count_once site (t1 ++ t2) = (count_once site t1 + count_once site t2)%nat.
Proof. unfold count_once. rewrite filter_app, length_app. reflexivity. Qed.

Lemma once_step_refl (s : mstate) : once_step s s.
Proof.
  exists []. split; [rewrite app_nil_r; reflexivity|].
  intros site. split; intros H; [split; [exact H|reflexivity]|].
  change (count_once site []) with O.
  split; [lia|intros H1; discriminate H1].
Qed.

Lemma once_step_trans (s1 s2 s3 : mstate) :
  once_step s1 s2 -> once_step s2 s3 -> once_step s1 s3.
Proof.
  intros (d1 & T1 & H1) (d2 & T2 & H2). exists (d1 ++ d2).
  split; [rewrite T2, T1, app_assoc; reflexivity|].
  intros site. rewrite count_once_app.
  destruct (H1 site) as [A1 B1]. destruct (H2 site) as [A2 B2].
  split; intros H.
  - destruct (A1 H) as [F2 C1]. destruct (A2 F2) as [F3 C2].
    split; [exact F3|lia].
  - destruct (B1 H) as [L1 R1].
    destruct (has_fired s2 site) eqn:F2.
    + destruct (A2 eq_refl) as [F3 C2]. split; [lia|intros _; exact F3].
    + destruct (B2 eq_refl) as [L2 R2].
      assert (count_once site d1 = O).
      { destruct (count_once site d1) as [|[|n]]; [reflexivity| |lia].
        discriminate (R1 eq_refl). }
      split; [lia|]. intros Hc. apply R2. lia.
Qed.

Lemma once_step_log (s : mstate) (d : list event) :
  (forall site, count_once site d = O) -> once_step s (log s d).
Proof.
  intros H. exists d. split; [reflexivity|].
  intros site. rewrite H, has_fired_log.
  split; intros F; [split; [exact F|reflexivity]|].
  split; [lia|intros H1; discriminate H1].
Qed.

Lemma fires_once_ret {A : Type} (a : A) : fires_once (ret a).
Proof. intros s. apply once_step_refl. Qed.

Lemma fires_once_bind {A B : Type} (m : M A) (k : A -> M B) :
  fires_once m -> (forall a, fires_once (k a)) -> fires_once (bind m k).
Proof.
  intros Hm Hk s. unfold bind. specialize (Hm s).
  destruct (m s) as [a s1]. cbn [snd] in Hm.
  apply (once_step_trans s s1); [exact Hm|apply Hk].
Qed.

Lemma fires_once_emit (e : event) :
  (forall site, is_once site e = false) -> fires_once (emit e).
Proof.
  intros H s. apply (once_step_log s [e]).
  intros site. unfold count_once. cbn [filter]. rewrite H. reflexivity.
Qed.

Lemma fires_once_readl (w : world) (a : Z) : fires_once (readl w a).
Proof.
  intros s. rewrite readl_eq. apply once_step_log. intros site. reflexivity.
Qed.

Lemma fires_once_once (site : once_site) : fires_once (once site).
Proof.
  intros s. unfold once. destruct (has_fired s site) eqn:F; cbn [snd].
  - apply once_step_refl.
  - exists [EvOnce site]. split; [reflexivity|].
    intros x. unfold count_once, has_fired. cbn [filter is_once fired existsb].
    fold (has_fired s x).
    destruct (once_site_eqb x site) eqn:Ex.
    + apply once_site_eqb_eq in Ex. subst x.
      replace (once_site_eqb site site) with true
        by (symmetry; apply once_site_eqb_eq; reflexivity).
      cbn [List.length orb]. split; intros H.
      * rewrite F in H. discriminate H.
      * split; [lia|reflexivity].
    + replace (once_site_eqb site x) with false.
      * cbn [List.length orb]. split; intros H.
        -- split; [exact H|reflexivity].
        -- split; [lia|intros H1; discriminate H1].
      * symmetry. destruct (once_site_eqb site x) eqn:Ey; [|reflexivity].
        apply once_site_eqb_eq in Ey. subst x.
        assert (once_site_eqb site site = true) by (apply once_site_eqb_eq; reflexivity).
        congruence.
Qed.

Lemma fires_once_WARN_ON_ONCE (site : once_site) (c : bool) :
  fires_once (WARN_ON_ONCE site c).
Proof.
  unfold WARN_ON_ONCE. destruct c; [|apply fires_once_ret].
  apply fires_once_bind; [apply fires_once_once|intros; apply fires_once_ret].
Qed.

Lemma fires_once_writel (v a : Z) : fires_once (writel v a).
Proof. apply fires_once_emit. intros site. reflexivity. Qed.

Lemma fires_once_read_mbox_dword (w : world) (base : Z) :
  fires_once (read_mbox_dword w base).
Proof.
  unfold read_mbox_dword.
  apply fires_once_bind; [apply fires_once_readl|intros v].
  apply fires_once_bind; [apply fires_once_writel|intros; apply fires_once_ret].
Qed.

Lemma fires_once_poll_status (w : world) (budget : nat) (base : Z) :
  fires_once (poll_status w budget base).
Proof.
  induction budget as [|b IH]; cbn [poll_status]; [apply fires_once_ret|].
  apply fires_once_bind; [apply fires_once_emit; intros; reflexivity|intros _].
  apply fires_once_bind; [apply fires_once_readl|intros v].
  destruct (is_set v MASK_MBOX_STATUS_READY); [apply fires_once_ret|exact IH].
Qed.

Lemma fires_once_wait_for_xaction (w : world) (base : Z) :
  fires_once (wait_for_xaction w base).
Proof.
  unfold wait_for_xaction.
  apply fires_once_bind; [apply fires_once_poll_status|intros _].
  apply fires_once_bind; [apply fires_once_readl|intros v].
  destruct (is_set v MASK_MBOX_STATUS_ERROR); [apply fires_once_ret|].
  destruct (negb _); apply fires_once_ret.
Qed.

Lemma fires_once_get_chunksize (totalsize offset : Z) :
  fires_once (get_chunksize totalsize offset).
Proof.
  unfold get_chunksize.
  apply fires_once_bind; [apply fires_once_WARN_ON_ONCE|intros; apply fires_once_ret].
Qed.

Lemma fires_once_write_chunk (w : world) (n : nat) (i base chunk : Z) :
  fires_once (Mailbox.write_chunk w n i base chunk).
Proof.
  revert i. induction n as [|n IH]; intros i; cbn [Mailbox.write_chunk];
    [apply fires_once_ret|].
  apply fires_once_bind; [apply fires_once_writel|intros _; apply IH].
Qed.

Lemma fires_once_request_xaction (w : world) (base chunk chunksize : Z) :
  fires_once (Mailbox.request_xaction w base chunk chunksize).
Proof.
  unfold Mailbox.request_xaction, write_mbox_dword. cbv zeta.
  repeat (apply fires_once_bind; [apply fires_once_writel|intros _]).
  apply fires_once_bind; [apply fires_once_write_chunk|intros _].
  apply fires_once_writel.
Qed.

Lemma fires_once_read_xaction_response (w : world) (base offset : Z) :
  fires_once (Mailbox.read_xaction_response w base offset).
Proof.
  unfold Mailbox.read_xaction_response.
  apply fires_once_bind; [apply fires_once_read_mbox_dword|intros hdr].
  apply fires_once_bind; [apply fires_once_WARN_ON_ONCE|intros _].
  apply fires_once_bind; [apply fires_once_read_mbox_dword|intros len].
  apply fires_once_bind; [apply fires_once_WARN_ON_ONCE|intros _].
  apply fires_once_bind; [apply fires_once_read_mbox_dword|intros off].
  apply fires_once_bind; [apply fires_once_read_mbox_dword|intros flag].
  destruct (is_set flag MASK_MBOX_RESP_ERROR); apply fires_once_ret.
Qed.

Section OnceInTransfer.

Variable w : world.
Variable request_xaction : Z -> Z -> Z -> M unit.
Variable read_xaction_response : Z -> Z -> M (ucode_state * Z).
Hypothesis Hreq : forall a b c, fires_once (request_xaction a b c).
Hypothesis Hresp : forall a b, fires_once (read_xaction_response a b).

Lemma fires_once_staging_body (base ucode_ptr totalsize : Z) (l : locals) :
  fires_once (staging_body w request_xaction read_xaction_response
                base ucode_ptr totalsize l).
Proof.
  unfold staging_body.
  apply fires_once_bind; [apply fires_once_get_chunksize|intros cs].
  destruct (_ >? _); [apply fires_once_ret|].
  apply fires_once_bind; [apply Hreq|intros _].
  apply fires_once_bind; [apply fires_once_wait_for_xaction|intros st].
  destruct (negb _); [apply fires_once_ret|].
  apply fires_once_bind; [apply Hresp|intros r].
  cbv zeta. destruct (negb _); apply fires_once_ret.
Qed.

Lemma fires_once_staging_loop (base ucode_ptr totalsize : Z) (fuel : nat) :
  forall l, fires_once (staging_loop w request_xaction read_xaction_response
                          base ucode_ptr totalsize fuel l).
Proof.
  induction fuel as [|fuel IH]; intros l; cbn [staging_loop];
    destruct (offset l =? STAGING_OFFSET_END); try apply fires_once_ret.
  apply fires_once_bind; [apply fires_once_staging_body|intros r].
  destruct (fst r); [apply fires_once_ret|apply IH].
Qed.

Lemma fires_once_staging_work (fuel : nat) (mmio_pa ucode_ptr totalsize : Z) :
  fires_once (staging_work w request_xaction read_xaction_response
                fuel mmio_pa ucode_ptr totalsize).
Proof.
  unfold staging_work, ioremap, abort_xaction, iounmap, pr_err.
  apply fires_once_bind.
  { apply fires_once_bind; [apply fires_once_emit; intros; reflexivity|
                            intros; apply fires_once_ret]. }
  intros mmio_base.
  apply fires_once_bind; [apply fires_once_WARN_ON_ONCE|intros unmapped].
  destruct unmapped; [apply fires_once_ret|].
  apply fires_once_bind; [apply fires_once_writel|intros _].
  apply fires_once_bind; [apply fires_once_staging_loop|intros r].
  destruct (fst r); [|apply fires_once_ret].
  apply fires_once_bind; [apply fires_once_emit; intros; reflexivity|intros _].
  destruct (state_is_ok (snd r)); [apply fires_once_ret|].
  apply fires_once_bind; [apply fires_once_emit; intros; reflexivity|
                          intros; apply fires_once_ret].
Qed.

End OnceInTransfer.

(** X13: in a run of [staging_work], of either revision, each once-only
    warning or debug line is printed at most once, and not at all when it
    had been printed before the run started. *)
Theorem warnings_fire_once (w : world) (fuel : nat)
    (mmio_pa ucode_ptr totalsize : Z) (s : mstate) :
  (exists d,
     trace (snd (Mailbox.staging_work w fuel mmio_pa ucode_ptr totalsize s))
       = trace s ++ d /\
     forall site,
       (count_once site d <= 1)%nat /\
       (has_fired s site = true -> count_once site d = O)) /\
  (exists d,
     trace (snd (Skeleton.staging_work w fuel mmio_pa ucode_ptr totalsize s))
       = trace s ++ d /\
     forall site,
       (count_once site d <= 1)%nat /\
       (has_fired s site = true -> count_once site d = O)).
Proof.
  assert (X : forall s', once_step s s' ->
            exists d, trace s' = trace s ++ d /\
              forall site, (count_once site d <= 1)%nat /\
                           (has_fired s site = true -> count_once site d = O)).
  { intros s' (d & T & H). exists d. split; [exact T|].
    intros site. destruct (H site) as [A B].
    destruct (has_fired s site) eqn:F.
    - destruct (A eq_refl) as [_ C]. split; [lia|intros _; exact C].
    - destruct (B eq_refl) as [L _]. split; [exact L|intros H1; discriminate H1]. }
  split; apply X.
  - apply (fires_once_staging_work w (Mailbox.request_xaction w)
             (Mailbox.read_xaction_response w)).
    + apply fires_once_request_xaction.
    + apply fires_once_read_xaction_response.
  - apply (fires_once_staging_work w Skeleton.request_xaction
             Skeleton.read_xaction_response).
    + intros a b c. apply fires_once_once.
    + intros a b. unfold Skeleton.read_xaction_response, pr_debug_once.
      apply fires_once_bind; [apply fires_once_once|intros; apply fires_once_ret].
Qed.

(** ** Chunks of an orderly transfer *)

Section InSequenceLog.

Variable w : world.
Variables (base ucode_ptr totalsize : Z).
Hypothesis Hsize : 0 <= totalsize < 2 ^ 31.

Let st_addr := base + MBOX_STATUS_OFFSET.
Let rd_addr := base + MBOX_RDDATA_OFFSET.
Let loop := Mailbox.staging_loop w base ucode_ptr totalsize.

Variable r0 : nat.
Variable chunks : nat.
Hypothesis Hchunks : Z.of_nat chunks = Z.max 1 ((totalsize + 4095) / 4096).
Hypothesis Hresp :
  forall k, (k < chunks)%nat ->
    u32 (dev_read w rd_addr (r0 + 4 * k + 2)%nat) = in_sequence_offset totalsize k /\
    Z.testbit (u32 (dev_read w rd_addr (r0 + 4 * k + 3)%nat)) 2 = false.

(** The [k]-th chunk of the payload as the log records it. *)
Let chunk_record (k : nat) : xaction :=
  mkXaction (4096 * Z.of_nat k) (Z.min 4096 (totalsize - 4096 * Z.of_nat k))
            UCODE_OK (Some UCODE_OK).

Lemma in_sequence_log (m : nat) :
  forall (k : nat) (l : locals) (s : mstate) (fuel : nat),
    (k + S m = chunks)%nat ->
    offset l = 4096 * Z.of_nat k ->
    xaction_bytes l = 4096 * Z.of_nat k ->
    rd_count s rd_addr = (r0 + 4 * k)%nat ->
    waits_ok (dev_read w st_addr) (S m) (rd_count s st_addr) ->
    (S m <= fuel)%nat ->
    let l' := snd (fst (loop fuel l s)) in
    xlog l' = xlog l ++ map chunk_record (seq k (S m)) /\
    xaction_bytes l' = totalsize /\
    offset l' = STAGING_OFFSET_END.
Proof.
  induction m as [|m IH]; intros k l s fuel Hk Ho Hx Hr Hw Hf;
    (destruct fuel as [|fuel]; [lia|]);
    cbn [waits_ok] in Hw; destruct Hw as [Hw1 Hw2];
    destruct (Hresp k) as [Hoff Hflag]; try lia;
    assert (Hpos : 0 <= 4096 * Z.of_nat k <= totalsize /\
                   (Z.of_nat k = 0 \/ 4096 * Z.of_nat k < totalsize))
      by (revert Hchunks; Z.to_euclidean_division_equations; lia);
    assert (Hc : chunk_of totalsize (offset l)
                 = Z.min 4096 (totalsize - 4096 * Z.of_nat k))
      by (unfold chunk_of, PAGE_SIZE; rewrite Ho, u32_small by lia; reflexivity);
    assert (Hb : over_budget totalsize l = false)
      by (unfold over_budget, MBOX_XACTION_MAX; rewrite Hc, Hx;
          rewrite !u32_small by lia; rewrite Z.gtb_ltb; apply Z.ltb_ge; lia);
    destruct (staging_body_continues w base ucode_ptr totalsize l s Hb)
      as (s1 & E1 & S1 & R1 & G1);
    try exact Hw1;
    try (fold rd_addr; rewrite Hr; exact Hflag);
    fold rd_addr st_addr in E1, S1, R1; rewrite Hr in E1;
    unfold resp_word in E1; fold rd_addr in E1; rewrite Hoff in E1;
    (unfold loop;
     rewrite (staging_loop_step w base ucode_ptr totalsize fuel l _ s s1
                ltac:(rewrite Ho; change STAGING_OFFSET_END with 0xffffffff; lia) E1)).
  - (* the last chunk *)
    assert (Hlast : in_sequence_offset totalsize k = STAGING_OFFSET_END).
    { unfold in_sequence_offset, PAGE_SIZE. cbv zeta.
      replace ((Z.of_nat k + 1) * 4096 <? totalsize) with false; [reflexivity|].
      symmetry. apply Z.ltb_ge.
      revert Hchunks. Z.to_euclidean_division_equations; lia. }
    rewrite Hlast. rewrite staging_loop_at_sentinel by reflexivity.
    cbn [fst snd xlog xaction_bytes offset locals_responded seq map].
    rewrite Hc, Ho, Hx. split; [reflexivity|]. split; [|reflexivity].
    assert (totalsize - 4096 * Z.of_nat k <= 4096)
      by (revert Hchunks; Z.to_euclidean_division_equations; lia).
    rewrite u32_small by lia. lia.
  - (* a chunk followed by more *)
    assert (Hmore : (Z.of_nat k + 1) * 4096 < totalsize)
      by (revert Hchunks; Z.to_euclidean_division_equations; lia).
    assert (Hnext : in_sequence_offset totalsize k = 4096 * Z.of_nat (S k)).
    { unfold in_sequence_offset, PAGE_SIZE. cbv zeta.
      replace ((Z.of_nat k + 1) * 4096 <? totalsize) with true
        by (symmetry; apply Z.ltb_lt; exact Hmore).
      lia. }
    rewrite Hnext.
    pose proof (IH (S k) (locals_responded totalsize l UCODE_OK (4096 * Z.of_nat (S k)))
                  s1 fuel) as X.
    cbv zeta in X. unfold loop in X.
    destruct X as (X1 & X2 & X3); try lia.
    + reflexivity.
    + cbn [xaction_bytes locals_responded]. rewrite Hc, Hx.
      rewrite u32_small by lia. lia.
    + rewrite S1. exact Hw2.
    + split; [|split; assumption].
      rewrite X1. cbn [xlog locals_responded]. rewrite Hc, Ho, <- app_assoc.
      reflexivity.
Qed.

End InSequenceLog.


